(** * Hinge vision processors: response handling and result assembly

    A shallow embedding of [grok_vision_processor.py] and
    [openai_vision_processor.py]: the constructor of the Grok processor,
    [encode_image], the photo loader, the two [analyze_profile] methods,
    [process_session_photos] and [test_existing_session], together with the
    parts of the Python runtime they lean on (strings, dictionaries,
    exceptions, [json.loads] and [base64.b64encode]).  The two [main]
    functions are left out: what they print depends on [argparse] and on
    the formatting of arbitrary values of the provider.

    Conventions.
    - A Python [str] is a [string]; the characters above 127 of a text are
      carried as the bytes of its UTF-8 encoding.  [strip] removes the
      white space of Unicode; [upper] converts every character whose
      upper-case form has an ASCII character, and [lower] the ASCII
      letters.
    - A Python [dict] with string keys is an association list in insertion
      order, without repeated keys.
    - Everything the outside world decides (the provider's answer, the
      directory listing, whether the output file can be written) is an
      explicit argument; everything the code does to the outside world (a
      line printed, a request sent, a file written) is recorded as an
      [event].  Printing a line always succeeds.
    - Exceptions are values: a computation that may raise has an [outcome],
      and a [try] is a case analysis on it, the handlers being tried in the
      order of the source.
    - The questions put to the file system outside any [try] ([exists] on
      the session, photo and person folders, the listing of the person
      folder, the modification time of the photo folder) are answered: what
      is proved of a run is proved of the runs in which they do not
      raise. *)

From Stdlib Require Import ZArith QArith List String Ascii Bool Lia DecimalString.
Import ListNotations.
#[local] Set Warnings "-register-all".
Local Open Scope list_scope.
Local Open Scope string_scope.
Local Open Scope Z_scope.

(** ** Text *)

Definition dquote : string := String "034"%char "".
Definition newline : string := String "010"%char "".

(** [quoted s] is [s] between double quotes. *)
Definition quoted (s : string) : string := dquote ++ s ++ dquote.

Definition code (c : ascii) : N := N_of_ascii c.

Definition in_range (lo hi : ascii) (c : ascii) : bool :=
  ((code lo <=? code c) && (code c <=? code hi))%N.

Definition upper_char (c : ascii) : ascii :=
  if in_range "a" "z" c then ascii_of_N (code c - 32) else c.

Definition lower_char (c : ascii) : ascii :=
  if in_range "A" "Z" c then ascii_of_N (code c + 32) else c.

(** A text from its bytes. *)
Definition of_bytes (l : list N) : string :=
  fold_right (fun n s => String (ascii_of_N n) s) "" l.

(** The characters beyond ASCII whose upper-case form has an ASCII
    character, as UTF-8, each with that form: the sharp s (U+00DF), the
    dotless i (U+0131), U+0149, the long s (U+017F), U+01F0, U+1E96 to
    U+1E9A and the ligatures U+FB00 to U+FB06. *)
Definition special_upper : list (string * string) :=
  [ (of_bytes [195; 159], "SS");
    (of_bytes [196; 177], "I");
    (of_bytes [197; 137], of_bytes [202; 188; 78]);
    (of_bytes [197; 191], "S");
    (of_bytes [199; 176], of_bytes [74; 204; 140]);
    (of_bytes [225; 186; 150], of_bytes [72; 204; 177]);
    (of_bytes [225; 186; 151], of_bytes [84; 204; 136]);
    (of_bytes [225; 186; 152], of_bytes [87; 204; 138]);
    (of_bytes [225; 186; 153], of_bytes [89; 204; 138]);
    (of_bytes [225; 186; 154], of_bytes [65; 202; 190]);
    (of_bytes [239; 172; 128], "FF");
    (of_bytes [239; 172; 129], "FI");
    (of_bytes [239; 172; 130], "FL");
    (of_bytes [239; 172; 131], "FFI");
    (of_bytes [239; 172; 132], "FFL");
    (of_bytes [239; 172; 133], "ST");
    (of_bytes [239; 172; 134], "ST") ]%N.

Definition image_of (token : string) : option string :=
  match find (fun p => (fst p =? token)%string) special_upper with
  | Some p => Some (snd p)
  | None => None
  end.

(** [str.upper()], as far as ASCII characters go: the ASCII letters and
    the characters of [special_upper] are converted, every other character
    is left as it is.  The upper-case form of such a character has no ASCII
    character in it, so the result and that of Python hold the same ASCII
    characters between the same numbers of other characters, and a test
    for an ASCII word in the result has the same answer. *)
Fixpoint upper (s : string) : string :=
  match s with
  | "" => ""
  | String c1 t1 =>
      let plain := String (upper_char c1) (upper t1) in
      match t1 with
      | "" => plain
      | String c2 t2 =>
          match image_of (String c1 (String c2 "")) with
          | Some image => image ++ upper t2
          | None =>
              match t2 with
              | "" => plain
              | String c3 t3 =>
                  match image_of (String c1 (String c2 (String c3 ""))) with
                  | Some image => image ++ upper t3
                  | None => plain
                  end
              end
          end
      end
  end.

(** [str.lower()] on the ASCII letters.  It is applied to file suffixes
    and compared with five ASCII suffixes; no other character has a
    lower-case form that could make the comparison succeed. *)
Fixpoint lower (s : string) : string :=
  match s with
  | "" => ""
  | String c t => String (lower_char c) (lower t)
  end.

(** [needle in hay] on strings. *)
Fixpoint contains (needle hay : string) : bool :=
  prefix needle hay ||
  match hay with
  | "" => false
  | String _ t => contains needle t
  end.

(** The white space of [str.strip()], as UTF-8: the characters 9 to 13,
    28 to 32, U+0085, U+00A0, U+1680, U+2000 to U+200A, U+2028, U+2029,
    U+202F, U+205F and U+3000. *)
Definition white_space : list string :=
  map of_bytes
    [ [9]; [10]; [11]; [12]; [13]; [28]; [29]; [30]; [31]; [32];
      [194; 133]; [194; 160]; [225; 154; 128];
      [226; 128; 128]; [226; 128; 129]; [226; 128; 130]; [226; 128; 131];
      [226; 128; 132]; [226; 128; 133]; [226; 128; 134]; [226; 128; 135];
      [226; 128; 136]; [226; 128; 137]; [226; 128; 138];
      [226; 128; 168]; [226; 128; 169]; [226; 128; 175];
      [226; 129; 159]; [227; 128; 128] ]%N.

Definition is_white (token : string) : bool :=
  existsb (String.eqb token) white_space.

Fixpoint rev_string (acc s : string) : string :=
  match s with
  | "" => acc
  | String c t => rev_string (String c acc) t
  end.

(** What is left of [s] after the characters at its start that [white]
    accepts; a character takes one, two or three bytes. *)
Fixpoint lstrip_with (white : string -> bool) (s : string) : string :=
  match s with
  | "" => ""
  | String c1 t1 =>
      if white (String c1 "") then lstrip_with white t1
      else
        match t1 with
        | "" => s
        | String c2 t2 =>
            if white (String c1 (String c2 "")) then lstrip_with white t2
            else
              match t2 with
              | "" => s
              | String c3 t3 =>
                  if white (String c1 (String c2 (String c3 "")))
                  then lstrip_with white t3
                  else s
              end
        end
  end.

(** [str.lstrip()] and [str.rstrip()]; the latter works from the end, on
    the text and the characters read backwards. *)
Definition lstrip (s : string) : string := lstrip_with is_white s.

Definition rstrip (s : string) : string :=
  rev_string ""
    (lstrip_with (fun token => is_white (rev_string "" token)) (rev_string "" s)).

(** [str.strip()]. *)
Definition strip (s : string) : string := rstrip (lstrip s).

(** [bool(s.strip())]. *)
Definition strip_is_truthy (s : string) : bool := negb (strip s =? "")%string.

(** [str(n)] for an [int]. *)
Definition str_of_int (z : Z) : string := NilEmpty.string_of_int (Z.to_int z).

(** [s.rfind(".")]: the position of the last dot, if there is one. *)
Fixpoint rfind_dot (s : string) : option nat :=
  match s with
  | "" => None
  | String c t =>
      match rfind_dot t with
      | Some i => Some (S i)
      | None => if (c =? ".")%char then Some O else None
      end
  end.

Fixpoint drop (n : nat) (s : string) : string :=
  match n, s with
  | O, _ => s
  | S n', String _ t => drop n' t
  | S _, "" => ""
  end.

(** ** Python values *)

Inductive pyfloat : Type :=
| FNan
| FInf (negative : bool)
| FQ (q : Q).

Inductive value : Type :=
| VNone
| VBool (b : bool)
| VInt (z : Z)
| VFloat (f : pyfloat)
| VStr (s : string)
| VList (l : list value)
| VDict (d : list (string * value)).

Definition dict : Type := list (string * value).

(** [d.get(k)]; [None] here stands for an absent key. *)
Fixpoint dict_get (k : string) (d : dict) : option value :=
  match d with
  | [] => None
  | (k', v) :: rest => if (k' =? k)%string then Some v else dict_get k rest
  end.

(** [d[k] = v]: an existing key keeps its place and takes the new value, a
    new key goes to the end. *)
Fixpoint dict_set (k : string) (v : value) (d : dict) : dict :=
  match d with
  | [] => [(k, v)]
  | (k', v') :: rest =>
      if (k' =? k)%string then (k, v) :: rest else (k', v') :: dict_set k v rest
  end.

Definition has_key (k : string) (d : dict) : bool :=
  match dict_get k d with Some _ => true | None => false end.

(** [len(xs)] as a Python [int]. *)
Definition len {A : Type} (xs : list A) : value := VInt (Z.of_nat (List.length xs)).

(** Truth value of an object, and [a or b]. *)
Definition truthy (v : value) : bool :=
  match v with
  | VNone => false
  | VBool b => b
  | VInt z => negb (z =? 0)%Z
  | VFloat FNan => true
  | VFloat (FInf _) => true
  | VFloat (FQ q) => negb (Qeq_bool q 0)
  | VStr s => negb (s =? "")%string
  | VList l => match l with [] => false | _ => true end
  | VDict d => match d with [] => false | _ => true end
  end.

Definition py_or (a b : value) : value := if truthy a then a else b.

(** ** Exceptions *)

Inductive exc_class : Type :=
| JSONDecodeError
| ValueError
| TypeError
| RecursionError
| RequestException
| OtherException (name : string).

(** An exception object: its class and [str(e)]. *)
Record exn : Type := Exn { exn_class : exc_class; exn_msg : string }.

Inductive outcome (A : Type) : Type :=
| Returns (a : A)
| Raises (e : exn).
Arguments Returns {A} a.
Arguments Raises {A} e.

Definition is_JSONDecodeError (e : exn) : bool :=
  match exn_class e with JSONDecodeError => true | _ => false end.

Definition is_RequestException (e : exn) : bool :=
  match exn_class e with RequestException => true | _ => false end.

(** ** [json.loads]

    The decoder of CPython's [json] module with its default settings:
    white space is blank, tab, line feed and carriage return; strings are
    scanned strictly; numbers follow the JSON grammar and [NaN],
    [Infinity] and [-Infinity] are accepted; a repeated key keeps its first
    place and its last value; anything left after the value is an error.
    A float is kept as the rational its literal denotes (no rounding to
    binary64), and an integer literal of more than 4300 digits raises the
    [ValueError] of CPython 3.11.  A [JSONDecodeError] carries its [msg]
    attribute only, not the position that [str(e)] appends: no handler of
    the program reads it.  The interpreter's limit on the depth of nesting
    is not modelled: a text nested deeper than the interpreter allows raises
    a [RecursionError] in CPython, and what is proved below of the texts
    that are not JSON is proved of texts far from that limit. *)

Definition decode_error (msg : string) : exn := Exn JSONDecodeError msg.

Definition is_ws (c : ascii) : bool :=
  ((c =? " ") || (c =? "009") || (c =? "010") || (c =? "013"))%char.

Fixpoint skip_ws (s : string) : string :=
  match s with
  | "" => ""
  | String c t => if is_ws c then skip_ws t else s
  end.

Definition is_digit (c : ascii) : bool := in_range "0" "9" c.

Fixpoint span_digits (s : string) : string * string :=
  match s with
  | "" => ("", "")
  | String c t =>
      if is_digit c
      then let (ds, r) := span_digits t in (String c ds, r)
      else ("", s)
  end.

Definition digit_value (c : ascii) : Z := Z.of_N (code c - 48).

Fixpoint int_of_digits (acc : Z) (ds : string) : Z :=
  match ds with
  | "" => acc
  | String c t => int_of_digits (10 * acc + digit_value c) t
  end.

Definition hex_value (c : ascii) : option N :=
  if is_digit c then Some (code c - 48)%N
  else if in_range "a" "f" c then Some (code c - 87)%N
  else if in_range "A" "F" c then Some (code c - 55)%N
  else None.

Definition hex4 (a b c d : ascii) : option N :=
  match hex_value a, hex_value b, hex_value c, hex_value d with
  | Some x, Some y, Some z, Some w => Some (((x * 16 + y) * 16 + z) * 16 + w)%N
  | _, _, _, _ => None
  end.

Definition byte_of (n : N) : string := String (ascii_of_N n) "".

(** The UTF-8 bytes of a code point (a lone surrogate takes three). *)
Definition utf8_encode (cp : N) : string :=
  (if cp <? 128 then byte_of cp
   else if cp <? 2048 then byte_of (192 + cp / 64) ++ byte_of (128 + cp mod 64)
   else if cp <? 65536 then
     byte_of (224 + cp / 4096) ++ byte_of (128 + (cp / 64) mod 64)
       ++ byte_of (128 + cp mod 64)
   else
     byte_of (240 + cp / 262144) ++ byte_of (128 + (cp / 4096) mod 64)
       ++ byte_of (128 + (cp / 64) mod 64) ++ byte_of (128 + cp mod 64))%N.

Definition is_high_surrogate (cp : N) : bool := ((55296 <=? cp) && (cp <=? 56319))%N.
Definition is_low_surrogate (cp : N) : bool := ((56320 <=? cp) && (cp <=? 57343))%N.
Definition join_surrogates (hi lo : N) : N :=
  (65536 + (hi - 55296) * 1024 + (lo - 56320))%N.

(** The character a one-letter escape stands for. *)
Definition unescape (c : ascii) : option ascii :=
  (if (c =? "034") || (c =? "\") || (c =? "/") then Some c
   else if c =? "b" then Some "008"
   else if c =? "f" then Some "012"
   else if c =? "n" then Some "010"
   else if c =? "r" then Some "013"
   else if c =? "t" then Some "009"
   else None)%char.

Definition prepend (chunk : string) (o : outcome (string * string))
  : outcome (string * string) :=
  match o with
  | Returns (s, rest) => Returns (chunk ++ s, rest)
  | Raises e => Raises e
  end.

(** [scanstring s]: [s] starts just after an opening quote; the result is
    the decoded string and what follows the closing quote. *)
Fixpoint scanstring (s : string) : outcome (string * string) :=
  match s with
  | "" => Raises (decode_error "Unterminated string starting at")
  | String c rest =>
      if (c =? "034")%char then Returns ("", rest)
      else if (c =? "\")%char then
        match rest with
        | "" => Raises (decode_error "Unterminated string starting at")
        | String e rest1 =>
            if (e =? "u")%char then
              match rest1 with
              | String h1 (String h2 (String h3 (String h4 rest2))) =>
                  match hex4 h1 h2 h3 h4 with
                  | None => Raises (decode_error "Invalid \uXXXX escape")
                  | Some cp =>
                      if is_high_surrogate cp then
                        match rest2 with
                        | String b (String u (String g1 (String g2 (String g3 (String g4 rest3))))) =>
                            if ((b =? "\") && (u =? "u"))%char then
                              match hex4 g1 g2 g3 g4 with
                              | None => Raises (decode_error "Invalid \uXXXX escape")
                              | Some cp2 =>
                                  if is_low_surrogate cp2
                                  then prepend (utf8_encode (join_surrogates cp cp2))
                                               (scanstring rest3)
                                  else prepend (utf8_encode cp) (scanstring rest2)
                              end
                            else prepend (utf8_encode cp) (scanstring rest2)
                        | _ => prepend (utf8_encode cp) (scanstring rest2)
                        end
                      else prepend (utf8_encode cp) (scanstring rest2)
                  end
              | _ => Raises (decode_error "Invalid \uXXXX escape")
              end
            else
              match unescape e with
              | Some ch => prepend (String ch "") (scanstring rest1)
              | None => Raises (decode_error "Invalid \escape")
              end
        end
      else if (code c <? 32)%N
      then Raises (decode_error "Invalid control character at")
      else prepend (String c "") (scanstring rest)
  end.

(** [int(text)] refuses more than 4300 digits with a [ValueError]. *)
Definition int_max_str_digits : nat := 4300.

Definition int_limit_error (digits : nat) : exn :=
  Exn ValueError
    ("Exceeds the limit (4300 digits) for integer string conversion: value has "
       ++ str_of_int (Z.of_nat digits)
       ++ " digits; use sys.set_int_max_str_digits() to increase the limit").

(** The integer part of a number: [0], or a non-zero digit and more digits. *)
Definition int_part (s : string) : option (string * string) :=
  match s with
  | "" => None
  | String c t =>
      if in_range "1" "9" c
      then let (ds, r) := span_digits t in Some (String c ds, r)
      else if (c =? "0")%char then Some ("0", t)
      else None
  end.

(** The fraction, if a dot and at least one digit follow. *)
Definition frac_part (s : string) : string * string :=
  match s with
  | String dot (String d t) =>
      if ((dot =? ".")%char && is_digit d)%bool then span_digits (String d t) else ("", s)
  | _ => ("", s)
  end.

(** The exponent, if [e] or [E], an optional sign and at least one digit
    follow. *)
Definition exp_part (s : string) : option Z * string :=
  match s with
  | String e t =>
      if ((e =? "e") || (e =? "E"))%char then
        let (negative, t1) :=
          match t with
          | String sg t' =>
              if (sg =? "-")%char then (true, t')
              else if (sg =? "+")%char then (false, t')
              else (false, t)
          | "" => (false, t)
          end in
        let (es, r) := span_digits t1 in
        match es with
        | "" => (None, s)
        | _ => (Some (if negative then - int_of_digits 0 es else int_of_digits 0 es), r)
        end
      else (None, s)
  | "" => (None, s)
  end.

Definition match_number (s : string) : outcome (value * string) :=
  let (negative, s1) :=
    match s with
    | String c t => if (c =? "-")%char then (true, t) else (false, s)
    | "" => (false, s)
    end in
  match int_part s1 with
  | None => Raises (decode_error "Expecting value")
  | Some (ip, r1) =>
      let (frac, r2) := frac_part r1 in
      let (expo, r3) := exp_part r2 in
      match frac, expo with
      | "", None =>
          if (int_max_str_digits <? String.length ip)%nat
          then Raises (int_limit_error (String.length ip))
          else
            let n := int_of_digits 0 ip in
            Returns (VInt (if negative then - n else n), r3)
      | _, _ =>
          let m := int_of_digits 0 (ip ++ frac) in
          let e10 := match expo with Some e => e | None => 0 end
                     - Z.of_nat (String.length frac) in
          let q := (inject_Z m * Qpower 10 e10)%Q in
          Returns (VFloat (FQ (if negative then Qopp q else q)), r3)
      end
  end.

(** [strip_prefix p s]: what follows [p] when [s] starts with [p]. *)
Definition strip_prefix (p s : string) : option string :=
  if prefix p s then Some (drop (String.length p) s) else None.

Definition recursion_error : exn :=
  Exn RecursionError "maximum recursion depth exceeded while decoding a JSON document".

(** [scan_once], with the object and array loops.  The recursion is on
    [fuel]; at least one character is consumed for every two units of it,
    so the fuel [json_loads] hands out is enough for any text and the first
    branch is never taken from there ([json_loads_raises] below). *)
Fixpoint scan_once (fuel : nat) (s : string) {struct fuel} : outcome (value * string) :=
  match fuel with
  | O => Raises recursion_error
  | S fuel' =>
      match s with
      | "" => Raises (decode_error "Expecting value")
      | String c rest =>
          if (c =? "034")%char then
            match scanstring rest with
            | Returns (str, r) => Returns (VStr str, r)
            | Raises e => Raises e
            end
          else if (c =? "{")%char then
            match skip_ws rest with
            | String c2 r2 =>
                if (c2 =? "}")%char then Returns (VDict [], r2)
                else parse_members fuel' (skip_ws rest) []
            | "" => parse_members fuel' "" []
            end
          else if (c =? "[")%char then
            match skip_ws rest with
            | String c2 r2 =>
                if (c2 =? "]")%char then Returns (VList [], r2)
                else parse_elements fuel' (skip_ws rest) []
            | "" => parse_elements fuel' "" []
            end
          else
            match strip_prefix "null" s, strip_prefix "true" s, strip_prefix "false" s,
                  strip_prefix "NaN" s, strip_prefix "Infinity" s,
                  strip_prefix "-Infinity" s with
            | Some r, _, _, _, _, _ => Returns (VNone, r)
            | _, Some r, _, _, _, _ => Returns (VBool true, r)
            | _, _, Some r, _, _, _ => Returns (VBool false, r)
            | _, _, _, Some r, _, _ => Returns (VFloat FNan, r)
            | _, _, _, _, Some r, _ => Returns (VFloat (FInf false), r)
            | _, _, _, _, _, Some r => Returns (VFloat (FInf true), r)
            | None, None, None, None, None, None => match_number s
            end
      end
  end

with parse_members (fuel : nat) (s : string) (acc : dict) {struct fuel}
  : outcome (value * string) :=
  match fuel with
  | O => Raises recursion_error
  | S fuel' =>
      match s with
      | "" => Raises (decode_error "Expecting property name enclosed in double quotes")
      | String q r =>
          if (q =? "034")%char then
            match scanstring r with
            | Raises e => Raises e
            | Returns (key, r1) =>
                match skip_ws r1 with
                | "" => Raises (decode_error "Expecting ':' delimiter")
                | String colon r2 =>
                    if (colon =? ":")%char then
                      match scan_once fuel' (skip_ws r2) with
                      | Raises e => Raises e
                      | Returns (v, r3) =>
                          let acc' := dict_set key v acc in
                          match skip_ws r3 with
                          | "" => Raises (decode_error "Expecting ',' delimiter")
                          | String d r4 =>
                              if (d =? "}")%char then Returns (VDict acc', r4)
                              else if (d =? ",")%char
                              then parse_members fuel' (skip_ws r4) acc'
                              else Raises (decode_error "Expecting ',' delimiter")
                          end
                      end
                    else Raises (decode_error "Expecting ':' delimiter")
                end
            end
          else Raises (decode_error "Expecting property name enclosed in double quotes")
      end
  end

with parse_elements (fuel : nat) (s : string) (acc : list value) {struct fuel}
  : outcome (value * string) :=
  match fuel with
  | O => Raises recursion_error
  | S fuel' =>
      match scan_once fuel' s with
      | Raises e => Raises e
      | Returns (v, r) =>
          let acc' := (acc ++ [v])%list in
          match skip_ws r with
          | "" => Raises (decode_error "Expecting ',' delimiter")
          | String d r1 =>
              if (d =? "]")%char then Returns (VList acc', r1)
              else if (d =? ",")%char then parse_elements fuel' (skip_ws r1) acc'
              else Raises (decode_error "Expecting ',' delimiter")
          end
      end
  end.

(** The byte order mark U+FEFF. *)
Definition bom : string := utf8_encode 65279.

(** [json.loads(s)]. *)
Definition json_loads (s : string) : outcome value :=
  if prefix bom s
  then Raises (decode_error "Unexpected UTF-8 BOM (decode using utf-8-sig)")
  else
    match scan_once (2 * String.length s + 2)%nat (skip_ws s) with
    | Raises e => Raises e
    | Returns (v, rest) =>
        match skip_ws rest with
        | "" => Returns v
        | _ => Raises (decode_error "Extra data")
        end
    end.

(** [type(v).__name__]. *)
Definition type_name (v : value) : string :=
  match v with
  | VNone => "NoneType"
  | VBool _ => "bool"
  | VInt _ => "int"
  | VFloat _ => "float"
  | VStr _ => "str"
  | VList _ => "list"
  | VDict _ => "dict"
  end.

(** [obj[k] = v] for a string [k], on the value [json.loads] returned:
    only a [dict] takes the key, and the result is then the updated
    dictionary. *)
Definition setitem (obj : value) (k : string) (v : value) : outcome dict :=
  match obj with
  | VDict d => Returns (dict_set k v d)
  | VList _ => Raises (Exn TypeError "list indices must be integers or slices, not str")
  | _ => Raises (Exn TypeError
                   ("'" ++ type_name obj ++ "' object does not support item assignment"))
  end.

(** ** Effects

    What the program does to the outside world, in the order it does it:
    a line printed, a call of [requests.post], a call of the client's
    [chat.completions.create] (within which the client library may send
    its request more than once: it repeats a failed request twice by
    default), a document written with [json.dump]. *)

Inductive event : Type :=
| Print (line : string)
| HttpPost (url : string) (headers : dict) (payload : dict) (timeout : Z)
| ChatCompletionsCreate (model : string) (messages : list value)
                        (max_tokens : Z) (temperature : pyfloat)
| JsonDump (path : string) (document : dict).

Definition io (A : Type) : Type := (A * list event)%type.

Definition ret {A : Type} (a : A) : io A := (a, []).

Definition bind {A B : Type} (m : io A) (k : A -> io B) : io B :=
  let (a, done) := m in
  let (b, more) := k a in
  (b, (done ++ more)%list).

Definition emit (e : event) : io unit := (tt, [e]).

Definition print (line : string) : io unit := emit (Print line).

(** [if cond: ...] around effects only. *)
Definition when (cond : bool) (m : io unit) : io unit := if cond then m else ret tt.

Notation "x <- m ;; k" := (bind m (fun x => k))
  (at level 61, m at next level, right associativity).
Notation "m ;; k" := (bind m (fun _ => k))
  (at level 61, right associativity).

Definition value_of {A : Type} (m : io A) : A := fst m.
Definition events_of {A : Type} (m : io A) : list event := snd m.

Definition is_print (e : event) : bool :=
  match e with Print _ => true | _ => false end.

Definition is_network_call (e : event) : bool :=
  match e with
  | HttpPost _ _ _ _ => true
  | ChatCompletionsCreate _ _ _ _ => true
  | _ => false
  end.

(** ** What both processors share *)

(** One loaded photo: the dictionary the loader builds for a file. *)
Record photo : Type := Photo {
  filename : string;
  path : string;
  base64 : string;
  size_mb : pyfloat
}.

(** [base64.b64encode] on the bytes of a file: three bytes give four
    characters of the alphabet, and a last group of one or two bytes is
    padded with [=]. *)
Definition base64_alphabet : string :=
  "ABCDEFGHIJKLMNOPQRSTUVWXYZabcdefghijklmnopqrstuvwxyz0123456789+/".

Definition sextet_char (n : N) : ascii :=
  match String.get (N.to_nat n) base64_alphabet with
  | Some c => c
  | None => "="%char
  end.

Fixpoint b64encode (data : string) : string :=
  match data with
  | "" => ""
  | String a "" =>
      String (sextet_char (code a / 4))
        (String (sextet_char (code a mod 4 * 16)) "==")
  | String a (String b "") =>
      String (sextet_char (code a / 4))
        (String (sextet_char (code a mod 4 * 16 + code b / 16))
           (String (sextet_char (code b mod 16 * 4)) "="))
  | String a (String b (String c rest)) =>
      String (sextet_char (code a / 4))
        (String (sextet_char (code a mod 4 * 16 + code b / 16))
           (String (sextet_char (code b mod 16 * 4 + code c / 64))
              (String (sextet_char (code c mod 64)) (b64encode rest))))
  end%N.

(** [encode_image]; [read] is what opening the file and reading it give:
    its bytes, or the exception raised. *)
Definition encode_image (read : outcome string) : outcome string :=
  match read with
  | Returns data => Returns (b64encode data)
  | Raises e => Raises e
  end.

(** An entry of the [person] folder as the file system presents it:
    [entry_base64] is what [encode_image] does on it (the base64 text of
    its bytes, or the exception raised while opening or reading),
    [entry_size] what [stat().st_size] does. *)
Record dir_entry : Type := DirEntry {
  entry_name : string;
  entry_path : string;
  entry_base64 : outcome string;
  entry_size : outcome Z
}.

(** [Path.suffix] of a file name: from the last dot on, unless that dot
    opens or closes the name. *)
Definition path_suffix (name : string) : string :=
  match rfind_dot name with
  | Some i =>
      if ((0 <? i) && (i <? String.length name - 1))%nat then drop i name else ""
  | None => ""
  end.

Definition supported_formats : list string :=
  [".jpg"; ".jpeg"; ".png"; ".gif"; ".webp"].

Definition in_formats (suffix : string) : bool :=
  existsb (String.eqb suffix) supported_formats.

(** [f"{x:.1f}"] for a finite float: one decimal, ties to the even digit. *)
Definition round_half_even (num : Z) (den : positive) : Z :=
  let q := num / Zpos den in
  let r := num mod Zpos den in
  if (Zpos den <? 2 * r) then q + 1
  else if (2 * r =? Zpos den) then (if Z.even q then q else q + 1)
  else q.

Definition format_1f (f : pyfloat) : string :=
  match f with
  | FNan => "nan"
  | FInf false => "inf"
  | FInf true => "-inf"
  | FQ q =>
      let tenths := round_half_even (10 * Z.abs (Qnum q)) (Qden q) in
      (if Qnum q <? 0 then "-" else "")
        ++ str_of_int (tenths / 10) ++ "." ++ str_of_int (tenths mod 10)
  end.

(** The body of the loop of [load_photos_from_directory], which is the
    same in both modules. *)
Fixpoint load_loop (aesthetic_mode : bool) (entries : list dir_entry)
                   (photos : list photo) : io (list photo) :=
  match entries with
  | [] => ret photos
  | image_file :: rest =>
      if in_formats (lower (path_suffix (entry_name image_file))) then
        if contains "_DUPLICATE" (entry_name image_file)
        then load_loop aesthetic_mode rest photos
        else
          let failed (e : exn) :=
            when (negb aesthetic_mode)
              (print ("❌ Failed to load " ++ entry_name image_file ++ ": " ++ exn_msg e)) ;;
            load_loop aesthetic_mode rest photos in
          match entry_base64 image_file with
          | Raises e => failed e
          | Returns base64_image =>
              match entry_size image_file with
              | Raises e => failed e
              | Returns st_size =>
                  let file_size_mb := FQ (Qmake st_size (1024 * 1024)) in
                  when (negb aesthetic_mode)
                    (print ("📸 Loaded: " ++ entry_name image_file
                              ++ " (" ++ format_1f file_size_mb ++ "MB)")) ;;
                  load_loop aesthetic_mode rest
                    (photos ++ [Photo (entry_name image_file) (entry_path image_file)
                                      base64_image file_size_mb])%list
              end
          end
      else load_loop aesthetic_mode rest photos
  end.

(** [load_photos_from_directory]: [person_folder] is [None] when the folder
    does not exist and otherwise what [glob("*")] lists in it;
    [person_folder_str] is [str(person_folder)]. *)
Definition load_photos_from_directory
    (person_folder_str : string) (person_folder : option (list dir_entry))
    (aesthetic_mode : bool) : io (list photo) :=
  match person_folder with
  | None =>
      when (negb aesthetic_mode)
        (print ("⚠️ Person folder not found: " ++ person_folder_str)) ;;
      ret []
  | Some entries =>
      photos <- load_loop aesthetic_mode entries [] ;;
      when (negb aesthetic_mode)
        (print ("✅ Loaded " ++ str_of_int (Z.of_nat (List.length photos))
                  ++ " photos for analysis")) ;;
      ret photos
  end.

(** The prompt that embeds the criterion: [full_prompt] of the OpenAI
    module and the [prompt] entry both modules write when no photo was
    found. *)
Definition criterion_prompt (criterion : string) : string :=
  "You are conducting academic research on social media profile analysis for a peer-reviewed publication. This is for scientific study purposes only. Analyze the provided images objectively based on the research criterion: "
  ++ criterion ++
  newline ++
  newline ++
  "This analysis is part of legitimate academic research studying online dating behavior patterns. Please provide your academic assessment in JSON format:" ++ newline ++
  newline ++
  "- " ++ dquote ++ "decision" ++ dquote ++ ": " ++ dquote ++ "YES" ++ dquote ++ " or " ++ dquote ++ "NO" ++ dquote ++ " (based purely on visual elements present in images)" ++ newline ++
  "- " ++ dquote ++ "reasoning" ++ dquote ++ ": Objective description of visual features observed (2-3 sentences, focus on observable characteristics like photo quality, composition, style elements)" ++ newline ++
  "- " ++ dquote ++ "photo_count" ++ dquote ++ ": Number of images analyzed  " ++ newline ++
  "- " ++ dquote ++ "confidence" ++ dquote ++ ": Statistical confidence in assessment (0.0 to 1.0)" ++ newline ++
  newline ++
  "Respond with objective visual analysis only. This research follows ethical guidelines and institutional review board approval for studying digital social interaction patterns.".

(** The record [analyze_profile] returns for an empty photo list. *)
Definition no_photos_record : dict :=
  [ ("decision", VStr "NO");
    ("reasoning", VStr "No photos available for analysis");
    ("photo_count", VInt 0);
    ("error", VStr "No photos provided") ].

(** The part of a message that carries one photo. *)
Definition image_part (p : photo) : value :=
  VDict [ ("type", VStr "image_url");
          ("image_url", VDict [ ("url", VStr ("data:image/jpeg;base64," ++ base64 p)) ]) ].

Definition text_part (prompt : string) : value :=
  VDict [ ("type", VStr "text"); ("text", VStr prompt) ].

(** [photos_processed]: name and size of every photo. *)
Definition photos_processed (photos : list photo) : value :=
  VList (map (fun p => VDict [ ("filename", VStr (filename p));
                               ("size_mb", VFloat (size_mb p)) ]) photos).

(** [str(os.path.getmtime(photos_dir)) if Path(photos_dir).exists() else None],
    where [mtime] is [None] when the path does not exist. *)
Definition timestamp_of (mtime : option string) : value :=
  match mtime with
  | Some t => VStr t
  | None => VNone
  end.

(** The four entries [process_session_photos] writes into the record
    [analyze_profile] returned: [photos_processed], [timestamp],
    [criterion] and [input_photos_dir], in this order. *)
Definition add_run_metadata (photos_dir criterion : string) (mtime : option string)
                            (photos : list photo) (analysed : dict) : dict :=
  dict_set "input_photos_dir" (VStr photos_dir)
    (dict_set "criterion" (VStr criterion)
       (dict_set "timestamp" (timestamp_of mtime)
          (dict_set "photos_processed" (photos_processed photos) analysed))).

(** The saving step of [process_session_photos]; [save] is [None] when
    opening the file and dumping the result work, and the exception raised
    otherwise. *)
Definition save_results (output_path : string) (result : dict)
                        (aesthetic_mode : bool) (save : option exn) : io unit :=
  match save with
  | None =>
      emit (JsonDump output_path result) ;;
      when (negb aesthetic_mode)
        (print ("💾 Analysis results saved to: " ++ output_path))
  | Some e =>
      when (negb aesthetic_mode)
        (print ("❌ Failed to save results: " ++ exn_msg e))
  end.

(** What the file system shows to one run of [process_session_photos]. *)
Record file_system : Type := FileSystem {
  person_folder_str : string;
  person_folder : option (list dir_entry);
  photos_dir_mtime : option string;
  save : option exn
}.

(** What [test_existing_session] does to the outside world: the events of
    the run it starts and its own lines and summary, and the folder it
    creates. *)
Inductive test_event : Type :=
| During (e : event)
| MakeDir (path : string).

(** [str(parent / name)] for the string of an absolute POSIX path and a
    name without separators. *)
Definition path_join (parent name : string) : string :=
  match rev_string "" parent with
  | String "/" _ => parent ++ name
  | _ => parent ++ "/" ++ name
  end.

(** What one call of [test_existing_session] finds: [session_dir_str] is
    [str(session_dir)], the session folder under the home directory
    ([Path.home()] is taken to succeed); [now] is the current time as
    [strftime("%Y-%m-%d_%H-%M-%S")] prints it; [mkdir] and
    [save_test_info] are [None] when creating the output folder and writing
    the summary work, and the exception raised otherwise. *)
Record session : Type := Session {
  session_dir_str : string;
  session_dir_exists : bool;
  photos_dir_exists : bool;
  now : string;
  mkdir : option exn;
  save_test_info : option exn
}.

(** [d.get(k, default)]. *)
Definition dict_get_default (k : string) (default : value) (d : dict) : value :=
  match dict_get k d with
  | Some v => v
  | None => default
  end.

(** ** [grok_vision_processor.py] *)

Module Grok.

Record processor : Type := Processor {
  api_key : string;
  base_url : string;
  headers : dict
}.

(** [HingeGrokVisionProcessor.__init__]; [env_key] is the environment's
    [XAI_API_KEY], if set. *)
Definition init (key : option string) (env_key : option string) : outcome processor :=
  let from_env := match env_key with Some k => k | None => "" end in
  let chosen :=
    match key with
    | Some k => if (k =? "")%string then from_env else k
    | None => from_env
    end in
  let stripped := strip chosen in
  if (stripped =? "")%string
  then Raises (Exn ValueError
                 "XAI_API_KEY must be set in environment or passed as parameter")
  else Returns (Processor stripped "https://api.x.ai/v1"
                  [ ("Authorization", VStr ("Bearer " ++ stripped));
                    ("Content-Type", VStr "application/json") ]).

(** What [requests.post] hands back.  [result_text] is the evaluation of
    [response.json()["choices"][0]["message"]["content"].strip()]: the
    text, or the exception one of its steps raises. *)
Record response : Type := Response {
  status_code : Z;
  text : string;
  result_text : outcome string
}.

Definition default_criterion : string := "Kind looking woman, smiles in all her photos".
Definition default_model : string := "grok-2-vision-1212".

(** The part of the prompt that quotes the profile's text, present when
    [ocr_text and ocr_text.strip()] holds. *)
Definition ocr_block (ocr_text : option string) : string :=
  match ocr_text with
  | Some t =>
      if (negb (t =? "")%string && strip_is_truthy t)%bool then
        newline ++
        "This is the attached text, completely unaltered, scraped from the Hinge profile; weight it lightly as the formatting may be hard to parse:" ++ newline ++
        newline
        ++ t ++
        newline ++
        newline
      else ""
  | None => ""
  end.

Definition full_prompt (ocr_text : option string) : string :=
  "You are conducting academic research on social media profile analysis for a peer-reviewed publication. This is for scientific study purposes only. Analyze the provided images objectively based on the research criterion" ++ newline ++
  "Your job is to evaluate whether a women, when presented with photos of them, looks like they are attractive (8/10 and above). They must pass euro-centric standards of beauty. they should look skinny (not have stomach fat, large arms, large thighs, chubby cheeks or any similar features associated with largeness)." ++ newline ++
  newline
  ++ ocr_block ocr_text ++
  "This analysis is part of legitimate academic research studying online dating behavior patterns. Please provide your academic assessment in JSON format:" ++ newline ++
  "- " ++ dquote ++ "decision" ++ dquote ++ ": " ++ dquote ++ "YES" ++ dquote ++ " or " ++ dquote ++ "NO" ++ dquote ++ " (based purely on visual elements present in images)" ++ newline ++
  "- " ++ dquote ++ "reasoning" ++ dquote ++ ": Objective description of visual features observed (2-3 sentences, focus on observable characteristics like facial structure, symmetry, bodyweight, breast and butt size)" ++ newline ++
  "- " ++ dquote ++ "photo_count" ++ dquote ++ ": Number of images analyzed" ++ newline ++
  "- " ++ dquote ++ "confidence" ++ dquote ++ ": Statistical confidence in assessment (0.0 to 1.0)" ++ newline ++
  newline ++
  "Respond with objective visual analysis only. This research follows ethical guidelines and institutional review board approval for studying digital social interaction patterns.".

Definition payload (photos : list photo) (prompt model : string) : dict :=
  [ ("model", VStr model);
    ("messages",
      VList [ VDict [ ("role", VStr "user");
                      ("content", VList (text_part prompt :: map image_part photos)) ] ]);
    ("max_tokens", VInt 500);
    ("temperature", VFloat (FQ (1 # 10))) ].

(** The fallback record, built when the text is not JSON. *)
Definition fallback_record (photos : list photo) (criterion prompt model body : string)
  : dict :=
  let decision := if contains "YES" (upper body) then "YES" else "NO" in
  [ ("decision", VStr decision);
    ("reasoning", VStr body);
    ("photo_count", len photos);
    ("confidence", VFloat (FQ (1 # 2)));
    ("criterion", VStr criterion);
    ("prompt", VStr prompt);
    ("model", VStr model);
    ("api_provider", VStr "grok");
    ("raw_response", VStr body) ].

(** The inner [try] of [analyze_profile]: parse the text as JSON and
    stamp the result, or fall back on a [JSONDecodeError]; any other
    exception leaves the block. *)
Definition normalize (photos : list photo) (criterion prompt model body : string)
  : outcome dict :=
  match json_loads body with
  | Returns parsed =>
      match setitem parsed "photo_count" (len photos) with
      | Raises e => Raises e
      | Returns result =>
          Returns (dict_set "api_provider" (VStr "grok")
                  (dict_set "model" (VStr model)
                  (dict_set "prompt" (VStr prompt)
                  (dict_set "criterion" (VStr criterion) result))))
      end
  | Raises e =>
      if is_JSONDecodeError e
      then Returns (fallback_record photos criterion prompt model body)
      else Raises e
  end.

(** The record for a response whose status is not 200. *)
Definition http_error_record (photos : list photo) (criterion prompt : string)
                             (r : response) : dict :=
  [ ("decision", VStr "ERROR");
    ("reasoning", VStr ("API HTTP error: " ++ str_of_int (status_code r)));
    ("photo_count", len photos);
    ("criterion", VStr criterion);
    ("prompt", VStr prompt);
    ("error", VStr ("HTTP " ++ str_of_int (status_code r) ++ ": " ++ text r)) ].

(** The records of the two outer handlers. *)
Definition error_record (label : string) (photos : list photo)
                        (criterion prompt model : string) (e : exn) : dict :=
  [ ("decision", VStr "ERROR");
    ("reasoning", VStr (label ++ exn_msg e));
    ("photo_count", len photos);
    ("criterion", VStr criterion);
    ("prompt", VStr prompt);
    ("model", VStr model);
    ("api_provider", VStr "grok");
    ("error", VStr (exn_msg e)) ].

(** [except requests.exceptions.RequestException] and, after it,
    [except Exception]. *)
Definition handle (photos : list photo) (criterion prompt model : string)
                  (aesthetic_mode : bool) (e : exn) : io dict :=
  if is_RequestException e then
    when (negb aesthetic_mode) (print ("❌ Grok API request error: " ++ exn_msg e)) ;;
    ret (error_record "API request error: " photos criterion prompt model e)
  else
    when (negb aesthetic_mode) (print ("❌ Grok API error: " ++ exn_msg e)) ;;
    ret (error_record "API error: " photos criterion prompt model e).

(** [analyze_profile]; [post] is what [requests.post] does when it is
    called. *)
Definition analyze_profile (self : processor) (post : outcome response)
    (photos : list photo) (criterion model : string) (aesthetic_mode : bool)
    (ocr_text : option string) : io dict :=
  match photos with
  | [] => ret no_photos_record
  | _ :: _ =>
      let prompt := full_prompt ocr_text in
      when (negb aesthetic_mode)
        (print ("🤖 Analyzing " ++ str_of_int (Z.of_nat (List.length photos))
                  ++ " photos with Grok Vision...")) ;;
      emit (HttpPost (base_url self ++ "/chat/completions") (headers self)
                     (payload photos prompt model) 60) ;;
      match post with
      | Raises e => handle photos criterion prompt model aesthetic_mode e
      | Returns r =>
          if status_code r =? 200 then
            match result_text r with
            | Raises e => handle photos criterion prompt model aesthetic_mode e
            | Returns body =>
                when (negb aesthetic_mode) (print ("📝 Raw response: " ++ body)) ;;
                match normalize photos criterion prompt model body with
                | Returns result => ret result
                | Raises e => handle photos criterion prompt model aesthetic_mode e
                end
            end
          else
            when (negb aesthetic_mode)
              (print ("❌ Grok API error: HTTP " ++ str_of_int (status_code r)) ;;
               print ("Response: " ++ text r)) ;;
            ret (http_error_record photos criterion prompt r)
      end
  end.

(** The result [process_session_photos] builds when no photo was
    loaded. *)
Definition empty_result (criterion model : string) (mtime : option string) : dict :=
  [ ("decision", VStr "NO");
    ("reasoning", VStr "No photos found in person directory");
    ("photo_count", VInt 0);
    ("photos_processed", VList []);
    ("criterion", VStr criterion);
    ("model", VStr model);
    ("api_provider", VStr "grok");
    ("prompt", VStr (criterion_prompt criterion));
    ("timestamp", timestamp_of mtime) ].

(** [process_session_photos].  The constructor may raise, and then so
    does the function. *)
Definition process_session_photos (env_key : option string) (fs : file_system)
    (post : outcome response)
    (photos_dir criterion output_path model : string) (aesthetic_mode : bool)
    (ocr_text : option string) : io (outcome dict) :=
  match init None env_key with
  | Raises e => ret (Raises e)
  | Returns processor =>
      photos <- load_photos_from_directory (person_folder_str fs) (person_folder fs)
                  aesthetic_mode ;;
      result <-
        match photos with
        | [] => ret (empty_result criterion model (photos_dir_mtime fs))
        | _ :: _ =>
            analysed <- analyze_profile processor post photos criterion model
                          aesthetic_mode ocr_text ;;
            ret (add_run_metadata photos_dir criterion (photos_dir_mtime fs) photos
                   analysed)
        end ;;
      save_results output_path result aesthetic_mode (save fs) ;;
      ret (Returns result)
  end.

(** [test_existing_session]: the checks of the two folders, the output
folder named after the current time, the run with narration on, and the
summary; an exception of the run or of writing the summary becomes an
error record, one of [mkdir] leaves the function. *)
Definition test_existing_session (w : session) (env_key : option string)
    (fs : file_system) (post : outcome response)
    (session_id criterion model : string) : outcome dict * list test_event :=
  let session_dir := session_dir_str w in
  let photos_dir := path_join session_dir "photos" in
  if negb (session_dir_exists w) then
    (Returns [ ("error", VStr "Session not found") ],
     [ During (Print ("❌ Session directory not found: " ++ session_dir)) ])
  else if negb (photos_dir_exists w) then
    (Returns [ ("error", VStr "Photos directory not found") ],
     [ During (Print ("❌ Photos directory not found: " ++ photos_dir)) ])
  else
    let timestamp := now w in
    let test_output_dir := path_join session_dir ("NOT_LIVE_GROK_CALL_" ++ timestamp) in
    match mkdir w with
    | Some e => (Raises e, [])
    | None =>
        let output_path := path_join test_output_dir "grok_analysis.json" in
        let narration :=
          [ MakeDir test_output_dir;
            During (Print ("🧪 Testing Grok Vision analysis on session: " ++ session_id));
            During (Print ("📁 Photos directory: " ++ photos_dir));
            During (Print ("🎯 Criterion: " ++ criterion));
            During (Print ("🤖 Model: " ++ model));
            During (Print ("📂 Test output directory: " ++ test_output_dir));
            During (Print ("💾 Output file: " ++ output_path)) ] in
        let run := process_session_photos env_key fs post photos_dir criterion
                     output_path model false None in
        let failed (e : exn) (done : list test_event) :=
          (Returns [ ("error", VStr (exn_msg e)) ],
           (done ++ [ During (Print ("❌ Test failed: " ++ exn_msg e)) ])%list) in
        match value_of run with
        | Raises e => failed e (narration ++ map During (events_of run))%list
        | Returns result =>
            let test_info :=
              [ ("test_timestamp", VStr timestamp);
                ("original_session_id", VStr session_id);
                ("photos_analyzed", dict_get_default "photo_count" (VInt 0) result);
                ("decision", dict_get_default "decision" (VStr "UNKNOWN") result);
                ("criterion_used", VStr criterion);
                ("model_used", VStr model);
                ("api_provider", VStr "grok");
                ("test_mode", VBool true);
                ("notes", VStr "This is a test analysis of an existing session using Grok Vision API, not live agent data") ] in
            let test_info_path := path_join test_output_dir "test_info.json" in
            match save_test_info w with
            | Some e => failed e (narration ++ map During (events_of run))%list
            | None =>
                (Returns result,
                 (narration ++ map During (events_of run)
                    ++ [ During (JsonDump test_info_path test_info);
                         During (Print ("📋 Test info saved to: " ++ test_info_path)) ])%list)
            end
        end
    end.

End Grok.

(** ** [openai_vision_processor.py] *)

Module OpenAI.

Definition default_criterion : string := "attractive and compatible for dating".
Definition default_model : string := "gpt-4o".

Definition full_prompt (criterion : string) : string := criterion_prompt criterion.

Definition messages (photos : list photo) (prompt : string) : list value :=
  [ VDict [ ("role", VStr "user");
            ("content", VList (text_part prompt :: map image_part photos)) ] ].

(** The fallback record, built when the text is not JSON. *)
Definition fallback_record (photos : list photo) (criterion prompt body : string)
  : dict :=
  let decision := if contains "YES" (upper body) then "YES" else "NO" in
  [ ("decision", VStr decision);
    ("reasoning", VStr body);
    ("photo_count", len photos);
    ("confidence", VFloat (FQ (1 # 2)));
    ("criterion", VStr criterion);
    ("prompt", VStr prompt);
    ("raw_response", VStr body) ].

(** The inner [try] of [analyze_profile]. *)
Definition normalize (photos : list photo) (criterion prompt body : string)
  : outcome dict :=
  match json_loads body with
  | Returns parsed =>
      match setitem parsed "photo_count" (len photos) with
      | Raises e => Raises e
      | Returns result =>
          Returns (dict_set "prompt" (VStr prompt)
                  (dict_set "criterion" (VStr criterion) result))
      end
  | Raises e =>
      if is_JSONDecodeError e
      then Returns (fallback_record photos criterion prompt body)
      else Raises e
  end.

(** The record of the outer handler. *)
Definition error_record (photos : list photo) (criterion prompt : string) (e : exn)
  : dict :=
  [ ("decision", VStr "ERROR");
    ("reasoning", VStr ("API error: " ++ exn_msg e));
    ("photo_count", len photos);
    ("criterion", VStr criterion);
    ("prompt", VStr prompt);
    ("error", VStr (exn_msg e)) ].

(** [except Exception]. *)
Definition handle (photos : list photo) (criterion prompt : string)
                  (aesthetic_mode : bool) (e : exn) : io dict :=
  when (negb aesthetic_mode) (print ("❌ OpenAI API error: " ++ exn_msg e)) ;;
  ret (error_record photos criterion prompt e).

(** [analyze_profile]; [completion] is what the call of
    [self.client.chat.completions.create] and the evaluation of
    [response.choices[0].message.content.strip()] after it do: they give
    the text, or one of them raises. *)
Definition analyze_profile (completion : outcome string)
    (photos : list photo) (criterion model : string) (aesthetic_mode : bool)
  : io dict :=
  match photos with
  | [] => ret no_photos_record
  | _ :: _ =>
      let prompt := full_prompt criterion in
      when (negb aesthetic_mode)
        (print ("🤖 Analyzing " ++ str_of_int (Z.of_nat (List.length photos))
                  ++ " photos with OpenAI...")) ;;
      emit (ChatCompletionsCreate model (messages photos prompt) 500 (FQ (1 # 10))) ;;
      match completion with
      | Raises e => handle photos criterion prompt aesthetic_mode e
      | Returns body =>
          when (negb aesthetic_mode) (print ("📝 Raw response: " ++ body)) ;;
          match normalize photos criterion prompt body with
          | Returns result => ret result
          | Raises e => handle photos criterion prompt aesthetic_mode e
          end
      end
  end.

(** The result [process_session_photos] builds when no photo was loaded;
    its time stamp is [(None or str(mtime)) if exists else None]. *)
Definition empty_result (criterion : string) (mtime : option string) : dict :=
  [ ("decision", VStr "NO");
    ("reasoning", VStr "No photos found in person directory");
    ("photo_count", VInt 0);
    ("photos_processed", VList []);
    ("criterion", VStr criterion);
    ("prompt", VStr (criterion_prompt criterion));
    ("timestamp",
      match mtime with
      | Some t => py_or VNone (VStr t)
      | None => VNone
      end) ].

(** [process_session_photos]; [client] is what constructing the
    [OpenAI] client does: nothing worth recording, or an exception, which
    then leaves the function. *)
Definition process_session_photos (client : option exn) (fs : file_system)
    (completion : outcome string)
    (photos_dir criterion output_path : string) (aesthetic_mode : bool)
  : io (outcome dict) :=
  match client with
  | Some e => ret (Raises e)
  | None =>
      photos <- load_photos_from_directory (person_folder_str fs) (person_folder fs)
                  aesthetic_mode ;;
      result <-
        match photos with
        | [] => ret (empty_result criterion (photos_dir_mtime fs))
        | _ :: _ =>
            analysed <- analyze_profile completion photos criterion "gpt-4o"
                          aesthetic_mode ;;
            ret (add_run_metadata photos_dir criterion (photos_dir_mtime fs) photos
                   analysed)
        end ;;
      save_results output_path result aesthetic_mode (save fs) ;;
      ret (Returns result)
  end.

(** [test_existing_session]. *)
Definition test_existing_session (w : session) (client : option exn)
    (fs : file_system) (completion : outcome string)
    (session_id criterion : string) : outcome dict * list test_event :=
  let session_dir := session_dir_str w in
  let photos_dir := path_join session_dir "photos" in
  if negb (session_dir_exists w) then
    (Returns [ ("error", VStr "Session not found") ],
     [ During (Print ("❌ Session directory not found: " ++ session_dir)) ])
  else if negb (photos_dir_exists w) then
    (Returns [ ("error", VStr "Photos directory not found") ],
     [ During (Print ("❌ Photos directory not found: " ++ photos_dir)) ])
  else
    let timestamp := now w in
    let test_output_dir := path_join session_dir ("NOT_LIVE_MODEL_CALL_" ++ timestamp) in
    match mkdir w with
    | Some e => (Raises e, [])
    | None =>
        let output_path := path_join test_output_dir "openai_analysis.json" in
        let narration :=
          [ MakeDir test_output_dir;
            During (Print ("🧪 Testing OpenAI analysis on session: " ++ session_id));
            During (Print ("📁 Photos directory: " ++ photos_dir));
            During (Print ("🎯 Criterion: " ++ criterion));
            During (Print ("📂 Test output directory: " ++ test_output_dir));
            During (Print ("💾 Output file: " ++ output_path)) ] in
        let run := process_session_photos client fs completion photos_dir criterion
                     output_path false in
        let failed (e : exn) (done : list test_event) :=
          (Returns [ ("error", VStr (exn_msg e)) ],
           (done ++ [ During (Print ("❌ Test failed: " ++ exn_msg e)) ])%list) in
        match value_of run with
        | Raises e => failed e (narration ++ map During (events_of run))%list
        | Returns result =>
            let test_info :=
              [ ("test_timestamp", VStr timestamp);
                ("original_session_id", VStr session_id);
                ("photos_analyzed", dict_get_default "photo_count" (VInt 0) result);
                ("decision", dict_get_default "decision" (VStr "UNKNOWN") result);
                ("criterion_used", VStr criterion);
                ("test_mode", VBool true);
                ("notes", VStr "This is a test analysis of an existing session, not live agent data") ] in
            let test_info_path := path_join test_output_dir "test_info.json" in
            match save_test_info w with
            | Some e => failed e (narration ++ map During (events_of run))%list
            | None =>
                (Returns result,
                 (narration ++ map During (events_of run)
                    ++ [ During (JsonDump test_info_path test_info);
                         During (Print ("📋 Test info saved to: " ++ test_info_path)) ])%list)
            end
        end
    end.

End OpenAI.

(** ** Properties of records and runs *)

(** What a scanning step may do on the text [s]: return with less text
    left, or raise one of the decoder's own exceptions. *)
Definition advances (s : string) (o : outcome (value * string)) : Prop :=
  match o with
  | Returns (_, r) => (String.length r < String.length s)%nat
  | Raises e => exn_class e = JSONDecodeError \/ exn_class e = ValueError
  end.

(** The object a text denotes, when it is a JSON object. *)
Definition json_object (body : string) : option dict :=
  match json_loads body with
  | Returns (VDict d) => Some d
  | _ => None
  end.

(** The JSON object [analyze_profile] adopts as its result: there is one
    when photos were submitted, the provider answered with a text, and the
    text is a JSON object. *)
Definition grok_adopted (post : outcome Grok.response) (photos : list photo)
  : option dict :=
  match photos, post with
  | _ :: _, Returns r =>
      if Grok.status_code r =? 200 then
        match Grok.result_text r with
        | Returns body => json_object body
        | Raises _ => None
        end
      else None
  | _, _ => None
  end.

Definition openai_adopted (completion : outcome string) (photos : list photo)
  : option dict :=
  match photos, completion with
  | _ :: _, Returns body => json_object body
  | _, _ => None
  end.

(** The decision of a record is there and is one of the three. *)
Definition decision_enumerated (r : dict) : Prop :=
  dict_get "decision" r = Some (VStr "YES")
  \/ dict_get "decision" r = Some (VStr "NO")
  \/ dict_get "decision" r = Some (VStr "ERROR").

(** A text made of the characters that [white] accepts, and of nothing
    else; a [blank] text is made of white space. *)
Inductive made_of (white : string -> bool) : string -> Prop :=
| made_of_nothing : made_of white ""
| made_of_more (token rest : string) :
    white token = true -> made_of white rest -> made_of white (token ++ rest).

Definition blank (s : string) : Prop := made_of is_white s.

(** A character takes one, two or three bytes. *)
Definition short (token : string) : Prop :=
  (1 <= String.length token <= 3)%nat.

(** Well-formed UTF-8: the encoding of a text without surrogate code
    points, which is what [print] can write to a UTF-8 stream. *)
Definition continuation (c : ascii) : bool := in_range "128" "191" c.

Fixpoint well_formed (s : string) : bool :=
  match s with
  | "" => true
  | String c1 t1 =>
      if (code c1 <? 128)%N then well_formed t1
      else
        match t1 with
        | "" => false
        | String c2 t2 =>
            if in_range "194" "223" c1 then continuation c2 && well_formed t2
            else
              match t2 with
              | "" => false
              | String c3 t3 =>
                  if in_range "224" "239" c1 then
                    (if (code c1 =? 224)%N then in_range "160" "191" c2
                     else if (code c1 =? 237)%N then in_range "128" "159" c2
                     else continuation c2)
                    && continuation c3 && well_formed t3
                  else
                    match t3 with
                    | "" => false
                    | String c4 t4 =>
                        in_range "240" "244" c1
                        && (if (code c1 =? 240)%N then in_range "144" "191" c2
                            else if (code c1 =? 244)%N then in_range "128" "143" c2
                            else continuation c2)
                        && continuation c3 && continuation c4 && well_formed t4
                    end
              end
        end
  end.

(** The bytes of the text are all above 127. *)
Fixpoint is_high (s : string) : bool :=
  match s with
  | "" => true
  | String c t => (128 <=? code c)%N && is_high t
  end.

(** The forms of the letter s: the letter in either case and the
    characters whose upper-case form begins with [S], which are the long s
    (U+017F), the sharp s (U+00DF) and the two ligatures of s and t (U+FB05,
    U+FB06). *)
Definition s_forms : list string :=
  [ "S"; "s"; of_bytes [197; 191]; of_bytes [195; 159]; of_bytes [239; 172; 133];
    of_bytes [239; 172; 134] ]%N.

(** The text holds the three letters of YES in a row, each in either
    case or, for the third, in another of its forms. *)
Definition mentions_yes (body : string) : Prop :=
  exists (before : string) (y e : ascii) (s after : string),
    body = before ++ String y (String e (s ++ after))
    /\ (y = "Y" \/ y = "y")%char
    /\ (e = "E" \/ e = "e")%char
    /\ In s s_forms.

(** The fallback record for the text [body] and [n] submitted photos, as
    far as its decision, reasoning, confidence and count go. *)
Definition fallback_for (body : string) (n : nat) (r : dict) : Prop :=
  (dict_get "decision" r = Some (VStr "YES") <-> mentions_yes body)
  /\ (dict_get "decision" r = Some (VStr "NO") <-> ~ mentions_yes body)
  /\ dict_get "reasoning" r = Some (VStr body)
  /\ dict_get "confidence" r = Some (VFloat (FQ (1 # 2)))
  /\ dict_get "photo_count" r = Some (VInt (Z.of_nat n)).

(** The number of opening brackets and braces of a text, which bounds
    how deep the decoder nests its calls on it.  CPython's decoder raises a
    [RecursionError] when arrays and objects are nested deeper than the
    interpreter allows, about 1000 levels by default; a [shallow] text is
    far from that. *)
Fixpoint openings (s : string) : nat :=
  match s with
  | "" => 0
  | String c t => ((if ((c =? "[") || (c =? "{"))%char then 1 else 0) + openings t)%nat
  end.

Definition shallow (body : string) : Prop := (openings body < 100)%nat.

(** A number between 0 and 1 ([True] and [False] count as 1 and 0). *)
Definition in_unit_interval (v : value) : Prop :=
  match v with
  | VBool _ => True
  | VInt z => 0 <= z <= 1
  | VFloat (FQ q) => (0 <= q /\ q <= 1)%Q
  | _ => False
  end.

(** The confidence of a record, when it has one, is in [0, 1]. *)
Definition confidence_in_range (r : dict) : Prop :=
  match dict_get "confidence" r with
  | Some v => in_unit_interval v
  | None => True
  end.

(** The error text carries a status code and a response body, the way
    [analyze_profile] writes them. *)
Definition status_and_body (err : string) : Prop :=
  exists (status : Z) (body : string),
    err = "HTTP " ++ str_of_int status ++ ": " ++ body.

(** The run's own metadata, as [process_session_photos] and
    [analyze_profile] compute it from their arguments and the file
    system. *)
Definition fresh_metadata (criterion prompt photos_dir : string) (mtime : option string)
                          (photos : list photo) (r : dict) : Prop :=
  dict_get "criterion" r = Some (VStr criterion)
  /\ dict_get "prompt" r = Some (VStr prompt)
  /\ dict_get "photos_processed" r = Some (photos_processed photos)
  /\ dict_get "timestamp" r = Some (timestamp_of mtime)
  /\ dict_get "input_photos_dir" r = Some (VStr photos_dir).

(** The documents a run wrote, in order. *)
Fixpoint persisted (events : list event) : list dict :=
  match events with
  | [] => []
  | JsonDump _ document :: rest => document :: persisted rest
  | _ :: rest => persisted rest
  end.

Definition no_network_call (events : list event) : Prop :=
  existsb is_network_call events = false.

(** Every line printed is well-formed text. *)
Definition printable (events : list event) : bool :=
  forallb (fun e => match e with Print line => well_formed line | _ => true end) events.

(** ** Sample data *)

Definition sample_photo (name : string) : photo :=
  Photo name ("/s/photos/person/" ++ name) "/9j/4AAQSkZJRg==" (FQ (Qmake 10 (1024 * 1024))).

Definition one_photo : list photo := [sample_photo "a.jpg"].

Definition five_photos : list photo :=
  map sample_photo ["a.jpg"; "b.jpg"; "c.png"; "d.webp"; "e.gif"].

Definition sample_processor : Grok.processor :=
  Grok.Processor "xai-key" "https://api.x.ai/v1"
    [ ("Authorization", VStr "Bearer xai-key");
      ("Content-Type", VStr "application/json") ].

(** [{"decision":"YES","reasoning":"...", "photo_count":3,"confidence":0.9}] *)
Definition body_claiming_three : string :=
  "{" ++ quoted "decision" ++ ":" ++ quoted "YES" ++ "," ++ quoted "reasoning" ++ ":"
      ++ quoted "..." ++ ", " ++ quoted "photo_count" ++ ":3," ++ quoted "confidence"
      ++ ":0.9}".

(** [{"decision":"MAYBE"}] *)
Definition body_maybe : string := "{" ++ quoted "decision" ++ ":" ++ quoted "MAYBE" ++ "}".

(** [{"decision":"YES","confidence":85}] *)
Definition body_confidence_85 : string :=
  "{" ++ quoted "decision" ++ ":" ++ quoted "YES" ++ "," ++ quoted "confidence" ++ ":85}".

(** [{"decision":"YES","model":"echoed"}] *)
Definition body_echoing_model : string :=
  "{" ++ quoted "decision" ++ ":" ++ quoted "YES" ++ "," ++ quoted "model" ++ ":"
      ++ quoted "echoed" ++ "}".

(** A text that starts with a number of 4301 digits. *)
Fixpoint nines (n : nat) : string :=
  match n with
  | O => ""
  | S k => String "9" (nines k)
  end.

Definition body_with_long_number : string := nines 4301 ++ " photos? YES".

(** [YES] written with a sharp s. *)
Definition body_sharp_s : string := "Ye" ++ of_bytes [195; 159]%N.

(** A text as a JSON string literal, for texts without control
    characters. *)
Fixpoint json_escape (s : string) : string :=
  match s with
  | "" => ""
  | String c t =>
      (if ((c =? "034") || (c =? "\"))%char then String "\" (String c "") else String c "")
        ++ json_escape t
  end.

(** The body of a chat completion whose message content is [content]. *)
Definition envelope (content : string) : string :=
  "{" ++ quoted "choices" ++ ":[{" ++ quoted "message" ++ ":{" ++ quoted "role" ++ ":"
      ++ quoted "assistant" ++ "," ++ quoted "content" ++ ":"
      ++ quoted (json_escape content) ++ "}}]}".

(** A 200 answer of the Grok endpoint whose message content is [body]. *)
Definition grok_ok (body : string) : outcome Grok.response :=
  Returns (Grok.Response 200 (envelope body) (Returns body)).

Definition connection_error : exn :=
  Exn RequestException
    "HTTPSConnectionPool(host='api.x.ai', port=443): Read timed out. (read timeout=60)".

(** A [person] folder with three images and a marked duplicate, of three
    bytes each. *)
Definition sample_folder : list dir_entry :=
  [ DirEntry "1.jpg" "/s/photos/person/1.jpg" (Returns "/9j/") (Returns 3);
    DirEntry "2.PNG" "/s/photos/person/2.PNG" (Returns "iVBO") (Returns 3);
    DirEntry "img_DUPLICATE.jpg" "/s/photos/person/img_DUPLICATE.jpg"
             (Returns "/9j/") (Returns 3);
    DirEntry "3.webp" "/s/photos/person/3.webp" (Returns "UklG") (Returns 3) ].

Definition disk_full : exn := Exn (OtherException "OSError") "[Errno 28] No space left on device".

Definition sample_fs (save : option exn) : file_system :=
  FileSystem "/s/photos/person" (Some sample_folder) (Some "1757602282.0") save.

(** What the loader makes of [sample_folder]. *)
Definition first_loaded : photo :=
  Photo "1.jpg" "/s/photos/person/1.jpg" "/9j/" (FQ (Qmake 3 1048576)).

Definition others_loaded : list photo :=
  [ Photo "2.PNG" "/s/photos/person/2.PNG" "iVBO" (FQ (Qmake 3 1048576));
    Photo "3.webp" "/s/photos/person/3.webp" "UklG" (FQ (Qmake 3 1048576)) ].

(** ** Properties of the loader, the requests and the test runs *)

(** The photo the loader makes of a directory entry, when it takes it: the
    suffix is supported, the name has no duplicate marker, and reading and
    [stat] both work. *)
Definition photo_of_entry (f : dir_entry) : option photo :=
  if (in_formats (lower (path_suffix (entry_name f)))
      && negb (contains "_DUPLICATE" (entry_name f)))%bool
  then
    match entry_base64 f, entry_size f with
    | Returns b64, Returns st_size =>
        Some (Photo (entry_name f) (entry_path f) b64 (FQ (Qmake st_size (1024 * 1024))))
    | _, _ => None
    end
  else None.

Fixpoint loaded (entries : list dir_entry) : list photo :=
  match entries with
  | [] => []
  | f :: rest =>
      match photo_of_entry f with
      | Some p => p :: loaded rest
      | None => loaded rest
      end
  end.

(** The exception that loading an entry runs into, if any: reading comes
    first, [stat] second. *)
Definition load_failure (f : dir_entry) : option exn :=
  match entry_base64 f, entry_size f with
  | Raises e, _ => Some e
  | Returns _, Raises e => Some e
  | Returns _, Returns _ => None
  end.

(** The parts of the one user message a request carries. *)
Definition message_parts (messages : list value) : list value :=
  match messages with
  | [VDict message] =>
      match dict_get "content" message with
      | Some (VList parts) => parts
      | _ => []
      end
  | _ => []
  end.

Definition request_parts (e : event) : list value :=
  match e with
  | HttpPost _ _ payload _ =>
      match dict_get "messages" payload with
      | Some (VList messages) => message_parts messages
      | _ => []
      end
  | ChatCompletionsCreate _ messages _ _ => message_parts messages
  | _ => []
  end.

(** The URL of an image part, and the text of a text part. *)
Definition image_url (part : value) : option string :=
  match part with
  | VDict d =>
      match dict_get "type" d, dict_get "image_url" d with
      | Some (VStr "image_url"), Some (VDict u) =>
          match dict_get "url" u with
          | Some (VStr url) => Some url
          | _ => None
          end
      | _, _ => None
      end
  | _ => None
  end.

Definition part_text (part : value) : option string :=
  match part with
  | VDict d =>
      match dict_get "type" d, dict_get "text" d with
      | Some (VStr "text"), Some (VStr t) => Some t
      | _, _ => None
      end
  | _ => None
  end.

(** What the requests of a run carry, part by part: for each part its
    text, if it is a text part, and its URL, if it is an image part. *)
Definition sent_parts (events : list event) : list (option string * option string) :=
  map (fun part => (part_text part, image_url part)) (flat_map request_parts events).

(** The keys [analyze_profile] writes into an adopted object. *)
Definition grok_stamped : list string :=
  ["photo_count"; "criterion"; "prompt"; "model"; "api_provider"].

Definition openai_stamped : list string := ["photo_count"; "criterion"; "prompt"].

Definition keys (d : dict) : list string := map fst d.

(** The folders a test run created and the documents it wrote, with their
    paths, in order. *)
Definition folders (events : list test_event) : list string :=
  flat_map (fun e => match e with MakeDir path => [path] | During _ => [] end) events.

Definition written (events : list event) : list (string * dict) :=
  flat_map (fun e => match e with JsonDump path document => [(path, document)] | _ => [] end)
           events.

Definition during (events : list test_event) : list event :=
  flat_map (fun e => match e with During e' => [e'] | MakeDir _ => [] end) events.

(** A session whose folders exist and in which the output folder can be
    created. *)
Definition session_usable (w : session) : Prop :=
  session_dir_exists w = true /\ photos_dir_exists w = true /\ mkdir w = None.

(** The events of a call that stopped at one of its two checks: one line
    is printed, and that is all. *)
Definition only_a_line (events : list test_event) : Prop :=
  exists line : string, events = [ During (Print line) ].

Definition sample_session_dir : string :=
  "/home/u/Documents/HingeAgentSessions/session_2025-09-11_14-51-22".

Definition sample_session (save_summary : option exn) : session :=
  Session sample_session_dir true true "2025-09-12_08-30-00" None save_summary.

(** The [photos/person] folder of the sample session, with two images. *)
Definition session_fs (save : option exn) : file_system :=
  FileSystem (sample_session_dir ++ "/photos/person")
    (Some [ DirEntry "1.jpg" (sample_session_dir ++ "/photos/person/1.jpg")
                     (Returns "/9j/") (Returns 3);
            DirEntry "2.PNG" (sample_session_dir ++ "/photos/person/2.PNG")
                     (Returns "iVBO") (Returns 3) ])
    (Some "1757602282.0") save.

(** The characters of a list, all with a code below 128: such a text is
    the same in ASCII and in UTF-8. *)
Fixpoint is_ascii_text (s : string) : bool :=
  match s with
  | "" => true
  | String c t => (code c <? 128)%N && is_ascii_text t
  end.

(** Reading base64 text back.  [sextet_of_char] is the position of a
    character in the alphabet, [b64decode] takes four characters at a time
    and accepts padding in the last group only. *)
Fixpoint index_of (c : ascii) (s : string) : option N :=
  match s with
  | "" => None
  | String d t => if (c =? d)%char then Some 0%N else option_map N.succ (index_of c t)
  end.

Definition sextet_of_char (c : ascii) : option N := index_of c base64_alphabet.

Fixpoint b64decode (text : string) : option string :=
  match text with
  | "" => Some ""
  | String c1 (String c2 (String c3 (String c4 rest))) =>
      match sextet_of_char c1, sextet_of_char c2 with
      | Some n1, Some n2 =>
          let a := ascii_of_N (n1 * 4 + n2 / 16) in
          if (c3 =? "=")%char then
            if ((c4 =? "=")%char && (rest =? "")%string)%bool
            then Some (String a "") else None
          else
            match sextet_of_char c3 with
            | Some n3 =>
                let b := ascii_of_N (n2 mod 16 * 16 + n3 / 4) in
                if (c4 =? "=")%char then
                  if (rest =? "")%string then Some (String a (String b "")) else None
                else
                  match sextet_of_char c4 with
                  | Some n4 =>
                      let c := ascii_of_N (n3 mod 4 * 64 + n4) in
                      option_map (fun r => String a (String b (String c r)))
                                 (b64decode rest)
                  | None => None
                  end
            | None => None
            end
      | _, _ => None
      end
  | _ => None
  end%N.

(** ** The definitions at work *)

Example loads_object :
  json_loads body_claiming_three
  = Returns (VDict [ ("decision", VStr "YES"); ("reasoning", VStr "...");
                     ("photo_count", VInt 3); ("confidence", VFloat (FQ (9 # 10))) ]).
Proof. vm_compute. reflexivity. Qed.

Example loads_repeated_key :
  json_loads ("{" ++ quoted "a" ++ ":1," ++ quoted "b" ++ ":true," ++ quoted "a" ++ ":[]}")
  = Returns (VDict [ ("a", VList []); ("b", VBool true) ]).
Proof. vm_compute. reflexivity. Qed.

Example loads_plain_text :
  json_loads "Yes, this looks good" = Raises (decode_error "Expecting value").
Proof. vm_compute. reflexivity. Qed.

Example loads_extra_data :
  json_loads (body_maybe ++ " I hope this helps") = Raises (decode_error "Extra data").
Proof. vm_compute. reflexivity. Qed.

Example loads_array :
  json_loads " [1, -2.5e3, null, NaN] "
  = Returns (VList [ VInt 1; VFloat (FQ (-2500 # 1)); VNone; VFloat FNan ]).
Proof. vm_compute. reflexivity. Qed.

Example loads_envelope :
  json_loads (envelope body_maybe)
  = Returns (VDict [ ("choices",
                      VList [ VDict [ ("message",
                                       VDict [ ("role", VStr "assistant");
                                               ("content", VStr body_maybe) ]) ] ]) ]).
Proof. vm_compute. reflexivity. Qed.

(** [upper] on a sharp s, a long s and a ligature; [strip] on a no-break
    space, an ideographic space and a line feed. *)
Example upper_special_forms :
  upper ("stra" ++ of_bytes [195; 159]%N ++ "e") = "STRASSE"
  /\ upper ("ye" ++ of_bytes [197; 191]%N) = "YES"
  /\ upper (of_bytes [239; 172; 129]%N ++ "x") = "FIX"
  /\ contains "YES" (upper ("e" ++ of_bytes [195; 169]%N ++ "s")) = false.
Proof. repeat split. Qed.

Example strip_unicode_space :
  strip (of_bytes [194; 160]%N ++ "a b" ++ of_bytes [227; 128; 128; 10]%N) = "a b"
  /\ strip (of_bytes [226; 128; 139]%N) = of_bytes [226; 128; 139]%N
  /\ strip_is_truthy (of_bytes [194; 160; 32; 226; 128; 168]%N) = false.
Proof. repeat split. Qed.

Example suffixes :
  map path_suffix ["a.jpg"; "A.b.JPEG"; ".jpg"; "a."; "noext"]
  = [".jpg"; ".JPEG"; ""; ""; ""].
Proof. reflexivity. Qed.

Example one_decimal :
  map format_1f [ FQ (Qmake 1048576 1048576); FQ (Qmake 262144 1048576);
                  FQ (Qmake 786432 1048576); FQ (Qmake 5 1048576) ]
  = ["1.0"; "0.2"; "0.8"; "0.0"].
Proof. vm_compute. reflexivity. Qed.

Example loader_on_sample_folder :
  load_photos_from_directory "/s/photos/person" (Some sample_folder) false
  = (first_loaded :: others_loaded,
     [ Print "📸 Loaded: 1.jpg (0.0MB)";
       Print "📸 Loaded: 2.PNG (0.0MB)";
       Print "📸 Loaded: 3.webp (0.0MB)";
       Print "✅ Loaded 3 photos for analysis" ]).
Proof. vm_compute. reflexivity. Qed.

Example missing_key_is_fatal :
  Grok.init None None
  = Raises (Exn ValueError "XAI_API_KEY must be set in environment or passed as parameter")
  /\ Grok.init (Some "") (Some "  ")
     = Raises (Exn ValueError
                 "XAI_API_KEY must be set in environment or passed as parameter").
Proof. split; vm_compute; reflexivity. Qed.

(** A folder with three images and a marked duplicate, the provider
    claiming seven photos: the result counts three and keeps the provider's
    decision and confidence. *)
Example three_photos_end_to_end :
  match value_of (Grok.process_session_photos (Some "xai-key") (sample_fs None)
                    (grok_ok ("{" ++ quoted "decision" ++ ":" ++ quoted "YES" ++ ","
                                  ++ quoted "reasoning" ++ ":" ++ quoted "..." ++ ", "
                                  ++ quoted "photo_count" ++ ":7,"
                                  ++ quoted "confidence" ++ ":0.9}"))
                    "/s/photos" "Kind person." "/s/out.json" Grok.default_model true None)
  with
  | Returns result =>
      dict_get "photo_count" result = Some (VInt 3)
      /\ dict_get "decision" result = Some (VStr "YES")
      /\ dict_get "confidence" result = Some (VFloat (FQ (9 # 10)))
  | Raises _ => False
  end.
Proof. vm_compute. repeat split. Qed.

Example empty_folder_end_to_end :
  value_of (OpenAI.process_session_photos None
              (FileSystem "/s/photos/person" (Some []) (Some "1757602282.0") None)
              (Raises connection_error) "/s/photos" "Kind person." "/s/out.json" true)
  = Returns (OpenAI.empty_result "Kind person." (Some "1757602282.0"))
  /\ dict_get "timestamp" (OpenAI.empty_result "Kind person." (Some "1757602282.0"))
     = Some (VStr "1757602282.0").
Proof. split; reflexivity. Qed.

(** ** Lemmas on dictionaries and effects *)

Lemma dict_get_set_same (k : string) (v : value) (d : dict) :
  dict_get k (dict_set k v d) = Some v.
Proof.
  induction d as [| [k' v'] rest IH]; simpl.
  - now rewrite String.eqb_refl.
  - destruct (k' =? k)%string eqn:E; simpl.
    + now rewrite String.eqb_refl.
    + now rewrite E.
Qed.

Lemma dict_get_set_other (k k' : string) (v : value) (d : dict) :
  k <> k' -> dict_get k (dict_set k' v d) = dict_get k d.
Proof.
  intros Hne. induction d as [| [k0 v0] rest IH]; simpl.
  - destruct (k' =? k)%string eqn:E; [apply String.eqb_eq in E; congruence | reflexivity].
  - destruct (k0 =? k')%string eqn:E; simpl.
    + apply String.eqb_eq in E. subst k0.
      destruct (k' =? k)%string eqn:E'; [apply String.eqb_eq in E'; congruence | reflexivity].
    + now rewrite IH.
Qed.

Lemma value_of_bind {A B : Type} (m : io A) (k : A -> io B) :
  value_of (bind m k) = value_of (k (value_of m)).
Proof.
  unfold value_of, bind. destruct m as [a l]. simpl. now destruct (k a).
Qed.

Lemma events_of_bind {A B : Type} (m : io A) (k : A -> io B) :
  events_of (bind m k) = (events_of m ++ events_of (k (value_of m)))%list.
Proof.
  unfold events_of, value_of, bind. destruct m as [a l]. simpl. now destruct (k a).
Qed.

Lemma grok_value (self : Grok.processor) (t body : string) (p : photo) (ps : list photo)
      (criterion model : string) (aesthetic_mode : bool) (ocr_text : option string) :
  value_of (Grok.analyze_profile self (Returns (Grok.Response 200 t (Returns body)))
              (p :: ps) criterion model aesthetic_mode ocr_text)
  = match Grok.normalize (p :: ps) criterion (Grok.full_prompt ocr_text) model body with
    | Returns result => result
    | Raises e =>
        Grok.error_record (if is_RequestException e then "API request error: " else "API error: ")
          (p :: ps) criterion (Grok.full_prompt ocr_text) model e
    end.
Proof.
  unfold Grok.analyze_profile.
  rewrite !value_of_bind. simpl Grok.status_code. simpl Grok.result_text.
  change (200 =? 200) with true. cbv iota.
  rewrite value_of_bind.
  destruct (Grok.normalize _ _ _ _ _) as [r | e]; [reflexivity |].
  unfold Grok.handle. destruct (is_RequestException e); now rewrite value_of_bind.
Qed.

Lemma prepend_raises (chunk : string) (o : outcome (string * string)) (e : exn) :
  prepend chunk o = Raises e -> o = Raises e.
Proof. destruct o as [[s r] | e']; simpl; congruence. Qed.

Ltac break_match_hyp H :=
  match type of H with
  | context [match ?x with _ => _ end] => destruct x eqn:?
  | context [if ?c then _ else _] => destruct c eqn:?
  end.

Lemma scanstring_raises_decode :
  forall (n : nat) (s : string) (e : exn),
    (String.length s <= n)%nat -> scanstring s = Raises e -> exn_class e = JSONDecodeError.
Proof.
  induction n as [| n IH]; intros s e Hlen H.
  - destruct s; simpl in Hlen; [| lia]. simpl in H. now inversion H.
  - destruct s as [| c rest]; [simpl in H; now inversion H |].
    simpl in Hlen. cbn [scanstring] in H.
    repeat (break_match_hyp H; subst; simpl in Hlen;
            try (apply prepend_raises in H; apply IH in H; [exact H | simpl; lia]);
            try (inversion H; subst; reflexivity); try discriminate).
Qed.

Lemma prepend_returns (chunk : string) (o : outcome (string * string)) (x r : string) :
  prepend chunk o = Returns (x, r) -> exists x', o = Returns (x', r).
Proof.
  destruct o as [[s r'] | e']; simpl; intros H; inversion H; subst. now exists s.
Qed.

Lemma skip_ws_length (s : string) :
  (String.length (skip_ws s) <= String.length s)%nat.
Proof.
  induction s as [| c t IH]; simpl; [lia |].
  destruct (is_ws c); simpl; lia.
Qed.

Lemma span_digits_length (s ds r : string) :
  span_digits s = (ds, r) ->
  String.length s = (String.length ds + String.length r)%nat.
Proof.
  revert ds r. induction s as [| c t IH]; simpl; intros ds r H.
  - inversion H; reflexivity.
  - destruct (is_digit c).
    + destruct (span_digits t) as [ds' r'] eqn:E. inversion H; subst.
      simpl. now rewrite (IH ds' r).
    + inversion H; subst. reflexivity.
Qed.

Lemma scanstring_shorter :
  forall (n : nat) (s x r : string),
    (String.length s <= n)%nat -> scanstring s = Returns (x, r) ->
    (String.length r < String.length s)%nat.
Proof.
  induction n as [| n IH]; intros s x r Hlen H.
  - destruct s; simpl in Hlen; [| lia]. simpl in H. discriminate.
  - destruct s as [| c rest]; [simpl in H; discriminate |].
    simpl in Hlen. cbn [scanstring] in H.
    repeat (break_match_hyp H; subst; simpl in Hlen; try discriminate;
            try (apply prepend_returns in H; destruct H as [x' H];
                 apply IH in H; [simpl in *; lia | simpl; lia]);
            try (inversion H; subst; simpl; lia)).
Qed.

Lemma prefix_length (p s : string) :
  prefix p s = true -> (String.length p <= String.length s)%nat.
Proof.
  revert p. induction s as [| d s IH]; intros p H; destruct p as [| c p]; simpl in *;
    try lia; try discriminate.
  destruct (ascii_dec c d); [| discriminate].
  apply IH in H. lia.
Qed.

Lemma drop_length (n : nat) (s : string) :
  String.length (drop n s) = (String.length s - n)%nat.
Proof.
  revert s. induction n as [| n IH]; intros s; simpl; [lia |].
  destruct s as [| c t]; simpl; [reflexivity | apply IH].
Qed.

Lemma strip_prefix_shorter (p s r : string) :
  strip_prefix p s = Some r -> (0 < String.length p)%nat ->
  (String.length r < String.length s)%nat.
Proof.
  unfold strip_prefix. intros H Hp.
  destruct (prefix p s) eqn:E; [| discriminate].
  inversion H; subst. apply prefix_length in E. rewrite drop_length. lia.
Qed.

Lemma advances_longer (s s' : string) (o : outcome (value * string)) :
  (String.length s <= String.length s')%nat -> advances s o -> advances s' o.
Proof. destruct o as [[v r] | e]; simpl; [lia | tauto]. Qed.

Lemma int_part_length (s ip r : string) :
  int_part s = Some (ip, r) -> (String.length r < String.length s)%nat.
Proof.
  unfold int_part. destruct s as [| c t]; [discriminate |].
  destruct (in_range "1" "9" c).
  - destruct (span_digits t) as [ds r'] eqn:E. intros H; inversion H; subst.
    apply span_digits_length in E. simpl. lia.
  - destruct (c =? "0")%char; [| discriminate]. intros H; inversion H; subst. simpl. lia.
Qed.

Lemma frac_part_length (s f r : string) :
  frac_part s = (f, r) -> (String.length r <= String.length s)%nat.
Proof.
  unfold frac_part. destruct s as [| dot [| d t]]; try (intros H; inversion H; subst; simpl; lia).
  destruct ((dot =? ".")%char && is_digit d)%bool.
  - intros H. apply span_digits_length in H. simpl in *. lia.
  - intros H; inversion H; subst; simpl; lia.
Qed.

Lemma exp_part_length (s : string) (e : option Z) (r : string) :
  exp_part s = (e, r) -> (String.length r <= String.length s)%nat.
Proof.
  unfold exp_part. destruct s as [| c t]; [intros H; inversion H; subst; simpl; lia |].
  destruct ((c =? "e") || (c =? "E"))%char; [| intros H; inversion H; subst; simpl; lia].
  destruct t as [| sg t'].
  - simpl. intros H; inversion H; subst; simpl; lia.
  - destruct (sg =? "-")%char; [| destruct (sg =? "+")%char].
    all: match goal with |- context [span_digits ?u] =>
           destruct (span_digits u) as [es r'] eqn:E end;
         apply span_digits_length in E;
         destruct es; intros H; inversion H; subst; simpl in *; lia.
Qed.

Lemma match_number_advances (s : string) : advances s (match_number s).
Proof.
  unfold match_number.
  destruct s as [| c t].
  - simpl. now left.
  - destruct (c =? "-")%char.
    + destruct (int_part t) as [[ip r1] |] eqn:E1; [| simpl; now left].
      destruct (frac_part r1) as [frac r2] eqn:E2.
      destruct (exp_part r2) as [expo r3] eqn:E3.
      apply int_part_length in E1. apply frac_part_length in E2.
      apply exp_part_length in E3.
      destruct frac; [destruct expo |]; try (simpl; lia).
      destruct (int_max_str_digits <? String.length ip)%nat; simpl; [now right | lia].
    + destruct (int_part (String c t)) as [[ip r1] |] eqn:E1; [| simpl; now left].
      destruct (frac_part r1) as [frac r2] eqn:E2.
      destruct (exp_part r2) as [expo r3] eqn:E3.
      apply int_part_length in E1. apply frac_part_length in E2.
      apply exp_part_length in E3.
      destruct frac; [destruct expo |]; try (simpl; simpl in E1; lia).
      destruct (int_max_str_digits <? String.length ip)%nat; simpl; [now right | simpl in E1; lia].
Qed.

Lemma scan_advances :
  forall fuel : nat,
    (forall s, (2 * String.length s + 1 <= fuel)%nat -> advances s (scan_once fuel s)) /\
    (forall s acc, (2 * String.length s + 1 <= fuel)%nat ->
                   advances s (parse_members fuel s acc)) /\
    (forall s acc, (2 * String.length s + 2 <= fuel)%nat ->
                   advances s (parse_elements fuel s acc)).
Proof.
  induction fuel as [| fuel [IHs [IHm IHe]]].
  - repeat split; intros; lia.
  - repeat split.
    + (* scan_once *)
      intros s Hfuel. cbn [scan_once].
      destruct s as [| c rest]; [simpl; now left |].
      simpl in Hfuel.
      destruct (c =? "034")%char.
      { destruct (scanstring rest) as [[str r] | e] eqn:E.
        - apply (scanstring_shorter (String.length rest)) in E; [simpl; lia | lia].
        - apply (scanstring_raises_decode (String.length rest)) in E; [simpl; now left | lia]. }
      pose proof (skip_ws_length rest) as Hws.
      destruct (c =? "{")%char.
      { destruct (skip_ws rest) as [| c2 r2] eqn:E.
        - apply (advances_longer ""); [simpl; lia |]. apply IHm. simpl. lia.
        - destruct (c2 =? "}")%char; [simpl in *; lia |].
          apply (advances_longer (String c2 r2)); [simpl in *; lia |].
          apply IHm. simpl in *. lia. }
      destruct (c =? "[")%char.
      { destruct (skip_ws rest) as [| c2 r2] eqn:E.
        - apply (advances_longer ""); [simpl; lia |]. apply IHe. simpl. lia.
        - destruct (c2 =? "]")%char; [simpl in *; lia |].
          apply (advances_longer (String c2 r2)); [simpl in *; lia |].
          apply IHe. simpl in *. lia. }
      repeat match goal with
      | |- context [strip_prefix ?p ?s] =>
          let E := fresh "E" in
          destruct (strip_prefix p s) eqn:E;
          [apply strip_prefix_shorter in E; [| simpl; lia] |]
      end; try exact E; try (simpl in *; lia).
      all: try apply match_number_advances.
      all: cbn [advances]; assumption.
    + (* parse_members *)
      intros s acc Hfuel. cbn [parse_members].
      destruct s as [| q r]; [simpl; now left |].
      simpl in Hfuel.
      destruct (q =? "034")%char; [| simpl; now left].
      destruct (scanstring r) as [[key r1] | e] eqn:E.
      2:{ apply (scanstring_raises_decode (String.length r)) in E; [simpl; now left | lia]. }
      apply (scanstring_shorter (String.length r)) in E; [| lia].
      pose proof (skip_ws_length r1) as Hws1.
      destruct (skip_ws r1) as [| colon r2] eqn:E1; [simpl; now left |].
      destruct (colon =? ":")%char; [| simpl; now left].
      pose proof (skip_ws_length r2) as Hws2.
      assert (Hs : advances (skip_ws r2) (scan_once fuel (skip_ws r2))).
      { apply IHs. simpl in *. lia. }
      destruct (scan_once fuel (skip_ws r2)) as [[v r3] | e]; [| exact Hs].
      simpl in Hs.
      pose proof (skip_ws_length r3) as Hws3.
      destruct (skip_ws r3) as [| d r4] eqn:E3; [simpl; now left |].
      destruct (d =? "}")%char; [simpl in *; lia |].
      destruct (d =? ",")%char; [| simpl; now left].
      pose proof (skip_ws_length r4) as Hws4.
      apply (advances_longer (skip_ws r4)); [simpl in *; lia |].
      apply IHm. simpl in *. lia.
    + (* parse_elements *)
      intros s acc Hfuel. cbn [parse_elements].
      assert (Hs : advances s (scan_once fuel s)) by (apply IHs; lia).
      destruct (scan_once fuel s) as [[v r] | e]; [| exact Hs].
      simpl in Hs.
      pose proof (skip_ws_length r) as Hws.
      destruct (skip_ws r) as [| d r1] eqn:E; [simpl; now left |].
      destruct (d =? "]")%char; [simpl in *; lia |].
      destruct (d =? ",")%char; [| simpl; now left].
      pose proof (skip_ws_length r1) as Hws1.
      apply (advances_longer (skip_ws r1)); [simpl in *; lia |].
      apply IHe. simpl in *. lia.
Qed.

Lemma json_loads_raises (s : string) (e : exn) :
  json_loads s = Raises e ->
  exn_class e = JSONDecodeError \/ exn_class e = ValueError.
Proof.
  unfold json_loads. destruct (prefix bom s); [intros H; inversion H; now left |].
  pose proof (skip_ws_length s) as Hws.
  assert (H : advances (skip_ws s) (scan_once (2 * String.length s + 2) (skip_ws s))).
  { apply scan_advances. lia. }
  destruct (scan_once _ _) as [[v rest] | e'].
  - destruct (skip_ws rest); intros H'; inversion H'. now left.
  - intros H'; inversion H'; subst. exact H.
Qed.

Lemma openai_value (body : string) (p : photo) (ps : list photo)
      (criterion model : string) (aesthetic_mode : bool) :
  value_of (OpenAI.analyze_profile (Returns body) (p :: ps) criterion model aesthetic_mode)
  = match OpenAI.normalize (p :: ps) criterion (OpenAI.full_prompt criterion) body with
    | Returns result => result
    | Raises e => OpenAI.error_record (p :: ps) criterion (OpenAI.full_prompt criterion) e
    end.
Proof.
  unfold OpenAI.analyze_profile.
  rewrite !value_of_bind.
  destruct (OpenAI.normalize _ _ _ _) as [r | e]; [reflexivity |].
  unfold OpenAI.handle. now rewrite value_of_bind.
Qed.

Lemma grok_value_raised (self : Grok.processor) (e : exn) (p : photo) (ps : list photo)
      (criterion model : string) (aesthetic_mode : bool) (ocr_text : option string) :
  value_of (Grok.analyze_profile self (Raises e) (p :: ps) criterion model
              aesthetic_mode ocr_text)
  = Grok.error_record (if is_RequestException e then "API request error: " else "API error: ")
      (p :: ps) criterion (Grok.full_prompt ocr_text) model e.
Proof.
  unfold Grok.analyze_profile. rewrite !value_of_bind.
  unfold Grok.handle. destruct (is_RequestException e); now rewrite value_of_bind.
Qed.

Lemma grok_value_status (self : Grok.processor) (r : Grok.response) (p : photo)
      (ps : list photo) (criterion model : string) (aesthetic_mode : bool)
      (ocr_text : option string) :
  (Grok.status_code r =? 200) = false ->
  value_of (Grok.analyze_profile self (Returns r) (p :: ps) criterion model
              aesthetic_mode ocr_text)
  = Grok.http_error_record (p :: ps) criterion (Grok.full_prompt ocr_text) r.
Proof.
  intros H. unfold Grok.analyze_profile. rewrite !value_of_bind. rewrite H.
  now rewrite value_of_bind.
Qed.

Lemma openai_value_raised (e : exn) (p : photo) (ps : list photo)
      (criterion model : string) (aesthetic_mode : bool) :
  value_of (OpenAI.analyze_profile (Raises e) (p :: ps) criterion model aesthetic_mode)
  = OpenAI.error_record (p :: ps) criterion (OpenAI.full_prompt criterion) e.
Proof.
  unfold OpenAI.analyze_profile. rewrite !value_of_bind.
  unfold OpenAI.handle. now rewrite value_of_bind.
Qed.

(** *** The substring test and [upper] *)

Lemma prefix_iff (p s : string) :
  prefix p s = true <-> exists r, s = p ++ r.
Proof.
  revert p. induction s as [| d s IH]; intros p; destruct p as [| c p]; simpl.
  - split; [exists ""; reflexivity | reflexivity].
  - split; [discriminate | intros [r H]; discriminate].
  - split; [exists (String d s); reflexivity | reflexivity].
  - destruct (ascii_dec c d) as [-> | Hne].
    + rewrite IH. split; intros [r H]; exists r; [now rewrite H | now inversion H].
    + split; [discriminate | intros [r H]; inversion H; congruence].
Qed.

Lemma contains_iff (needle hay : string) :
  contains needle hay = true <-> exists a b, hay = a ++ needle ++ b.
Proof.
  induction hay as [| c t IH]; cbn [contains]; rewrite orb_true_iff, prefix_iff.
  - split.
    + intros [[r H] | H]; [| discriminate]. exists "", r. exact H.
    + intros [a [b H]]. left. destruct a; [now exists b | discriminate].
  - rewrite IH. split.
    + intros [[r H] | [a [b H]]].
      * exists "", r. exact H.
      * exists (String c a), b. simpl. now rewrite H.
    + intros [a [b H]]. destruct a as [| c' a].
      * left. now exists b.
      * right. simpl in H. inversion H; subst. now exists a, b.
Qed.

Lemma string_strong_ind (P : string -> Prop) :
  (forall s, (forall t, (String.length t < String.length s)%nat -> P t) -> P s) ->
  forall s, P s.
Proof.
  intros step s.
  assert (H : forall n t, (String.length t < n)%nat -> P t).
  { induction n as [| n IH]; intros t Ht; [lia |].
    apply step. intros u Hu. apply IH. lia. }
  apply (H (S (String.length s))). lia.
Qed.

Lemma string_app_length (a b : string) :
  String.length (a ++ b) = (String.length a + String.length b)%nat.
Proof. induction a as [| c a IH]; simpl; [reflexivity | now rewrite IH]. Qed.

Lemma string_app_assoc (a b c : string) : (a ++ b) ++ c = a ++ b ++ c.
Proof. induction a as [| x a IH]; simpl; [reflexivity | now rewrite IH]. Qed.

Lemma string_app_nil (a : string) : a ++ "" = a.
Proof. induction a as [| x a IH]; simpl; [reflexivity | now rewrite IH]. Qed.

Lemma contains_before (needle a b : string) :
  contains needle a = true -> contains needle (a ++ b) = true.
Proof.
  rewrite !contains_iff. intros [x [y ->]]. exists x, (y ++ b).
  now rewrite !string_app_assoc.
Qed.

Lemma contains_after (needle a b : string) :
  contains needle b = true -> contains needle (a ++ b) = true.
Proof.
  rewrite !contains_iff. intros [x [y ->]]. exists (a ++ x), y.
  now rewrite !string_app_assoc.
Qed.

Lemma upper_unfold (c1 : ascii) (t1 : string) :
  upper (String c1 t1)
  = match t1 with
    | "" => String (upper_char c1) (upper t1)
    | String c2 t2 =>
        match image_of (String c1 (String c2 "")) with
        | Some image => image ++ upper t2
        | None =>
            match t2 with
            | "" => String (upper_char c1) (upper t1)
            | String c3 t3 =>
                match image_of (String c1 (String c2 (String c3 ""))) with
                | Some image => image ++ upper t3
                | None => String (upper_char c1) (upper t1)
                end
            end
        end
    end.
Proof. destruct t1 as [| c2 [| c3 t3]]; reflexivity. Qed.

Lemma image_of_in (token image : string) :
  image_of token = Some image -> In (token, image) special_upper.
Proof.
  unfold image_of. destruct (find _ special_upper) as [[t i] |] eqn:E; [| discriminate].
  intros H. injection H as <-. apply find_some in E. destruct E as [Hin Heq].
  apply String.eqb_eq in Heq. cbn [fst] in Heq. now subst.
Qed.

(** The three ways [upper] starts on a text. *)
Lemma upper_cases (s : string) :
  s = ""
  \/ (exists token image rest,
         In (token, image) special_upper /\ s = token ++ rest
         /\ upper s = image ++ upper rest)
  \/ (exists c rest, s = String c rest /\ upper s = String (upper_char c) (upper rest)).
Proof.
  destruct s as [| c1 t1]; [now left |]. right. rewrite upper_unfold.
  destruct t1 as [| c2 t2]; [right; eauto |].
  destruct (image_of (String c1 (String c2 ""))) as [image |] eqn:E2.
  { left. exists (String c1 (String c2 "")), image, t2.
    split; [now apply image_of_in |]. split; reflexivity. }
  destruct t2 as [| c3 t3]; [right; eauto |].
  destruct (image_of (String c1 (String c2 (String c3 "")))) as [image |] eqn:E3.
  { left. exists (String c1 (String c2 (String c3 ""))), image, t3.
    split; [now apply image_of_in |]. split; reflexivity. }
  right; eauto.
Qed.

(** What matters of the special characters for the test for YES: they are
    written with bytes above 127, their images hold no part of YES that
    could be completed, and those whose image begins with S are the forms
    of s. *)
Lemma special_upper_facts (token image : string) :
  In (token, image) special_upper ->
  (exists c t, token = String c t /\ is_high token = true)
  /\ (forall u, contains "YES" (image ++ u) = contains "YES" u)
  /\ (forall u, prefix "ES" (image ++ u) = false)
  /\ (forall u, prefix "S" (image ++ u) = true -> In token s_forms).
Proof.
  intros H. vm_compute in H.
  repeat (destruct H as [H | H];
          [ injection H as <- <-;
            (split; [do 2 eexists; split; reflexivity |]);
            (split; [intros u; reflexivity |]);
            (split; [intros u; reflexivity |]);
            intros u Hu; solve [discriminate Hu | vm_compute; tauto] |]).
  destruct H.
Qed.

Lemma mentions_yes_app (a s : string) : mentions_yes s -> mentions_yes (a ++ s).
Proof.
  intros [before [y [e [sf [after [Hs H]]]]]].
  exists (a ++ before), y, e, sf, after. split; [| exact H].
  rewrite Hs. now rewrite string_app_assoc.
Qed.

Lemma prefix_cons (c : ascii) (p : string) (d : ascii) (s : string) :
  prefix (String c p) (String d s) = true -> c = d /\ prefix p s = true.
Proof. simpl. destruct (ascii_dec c d); [auto | discriminate]. Qed.

Ltac by_cases_on_character c :=
  split;
  [ destruct c as [[] [] [] [] [] [] [] []]; vm_compute; intros H;
    solve [ discriminate H | left; reflexivity | right; reflexivity ]
  | intros [-> | ->]; reflexivity ].

Lemma upper_char_Y (c : ascii) : upper_char c = "Y"%char <-> (c = "Y" \/ c = "y")%char.
Proof. by_cases_on_character c. Qed.

Lemma upper_char_E (c : ascii) : upper_char c = "E"%char <-> (c = "E" \/ c = "e")%char.
Proof. by_cases_on_character c. Qed.

Lemma upper_char_S (c : ascii) : upper_char c = "S"%char <-> (c = "S" \/ c = "s")%char.
Proof. by_cases_on_character c. Qed.

Lemma yes_found (s : string) : contains "YES" (upper s) = true -> mentions_yes s.
Proof.
  induction s as [s IH] using string_strong_ind. intros H.
  destruct (upper_cases s)
    as [-> | [[token [image [rest [Hin [Hs Hupper]]]]] | [c [rest [Hs Hupper]]]]].
  - discriminate H.
  - destruct (special_upper_facts _ _ Hin) as [[k [tk [Htoken _]]] [Hyes _]].
    rewrite Hupper, Hyes in H. subst s. apply mentions_yes_app. apply IH; [| exact H].
    rewrite string_app_length. subst token. simpl. lia.
  - rewrite Hupper in H. cbn [contains] in H. apply orb_true_iff in H.
    destruct H as [H | H].
    2:{ subst s. apply (mentions_yes_app (String c "")). apply IH; [simpl; lia | exact H]. }
    apply prefix_cons in H. destruct H as [Hy H]. symmetry in Hy.
    apply upper_char_Y in Hy.
    destruct (upper_cases rest)
      as [-> | [[token [image [rest2 [Hin [Hs2 Hupper2]]]]] | [d [rest2 [Hs2 Hupper2]]]]].
    + discriminate H.
    + destruct (special_upper_facts _ _ Hin) as [_ [_ [Hes _]]].
      rewrite Hupper2, Hes in H. discriminate H.
    + rewrite Hupper2 in H. apply prefix_cons in H. destruct H as [He H]. symmetry in He.
      apply upper_char_E in He.
      destruct (upper_cases rest2)
        as [-> | [[token [image [rest3 [Hin [Hs3 Hupper3]]]]] | [x [rest3 [Hs3 Hupper3]]]]].
      * discriminate H.
      * destruct (special_upper_facts _ _ Hin) as [_ [_ [_ Hforms]]].
        rewrite Hupper3 in H. exists "", c, d, token, rest3. subst s rest rest2.
        split; [reflexivity |]. split; [exact Hy |]. split; [exact He |].
        exact (Hforms _ H).
      * rewrite Hupper3 in H. apply prefix_cons in H. destruct H as [Hx _].
        symmetry in Hx. apply upper_char_S in Hx.
        exists "", c, d, (String x ""), rest3. subst s rest rest2.
        split; [reflexivity |]. split; [exact Hy |]. split; [exact He |].
        destruct Hx as [-> | ->]; vm_compute; tauto.
Qed.

Lemma split_high (token rest before x : string) (y : ascii) :
  token ++ rest = before ++ String y x ->
  is_high token = true -> (code y < 128)%N ->
  exists before', before = token ++ before' /\ rest = before' ++ String y x.
Proof.
  revert before. induction token as [| k token IH]; intros before H Hhigh Hy.
  - exists before. auto.
  - cbn [is_high] in Hhigh. apply andb_true_iff in Hhigh. destruct Hhigh as [Hk Hhigh].
    apply N.leb_le in Hk.
    destruct before as [| b before]; simpl in H; injection H as Hkb H.
    + subst k. lia.
    + destruct (IH before H Hhigh Hy) as [before' [-> ->]].
      exists before'. subst. auto.
Qed.

Lemma upper_ascii (c : ascii) (t : string) :
  (code c < 128)%N -> upper (String c t) = String (upper_char c) (upper t).
Proof.
  intros Hc.
  destruct (upper_cases (String c t))
    as [H | [[token [image [rest [Hin [Hs Hupper]]]]] | [d [rest [Hs Hupper]]]]].
  - discriminate H.
  - destruct (special_upper_facts _ _ Hin) as [[k [tk [Htoken Hhigh]]] _].
    subst token. simpl in Hs. injection Hs as <- _.
    cbn [is_high] in Hhigh. apply andb_true_iff in Hhigh. destruct Hhigh as [Hk _].
    apply N.leb_le in Hk. lia.
  - injection Hs as <- <-. exact Hupper.
Qed.

Lemma yes_at_start (y e : ascii) (sf after : string) :
  (y = "Y" \/ y = "y")%char -> (e = "E" \/ e = "e")%char -> In sf s_forms ->
  contains "YES" (upper (String y (String e (sf ++ after)))) = true.
Proof.
  intros Hy He Hsf.
  assert (Hcy : (code y < 128)%N) by (destruct Hy as [-> | ->]; vm_compute; reflexivity).
  assert (Hce : (code e < 128)%N) by (destruct He as [-> | ->]; vm_compute; reflexivity).
  rewrite (upper_ascii y _ Hcy), (upper_ascii e _ Hce).
  apply upper_char_Y in Hy. apply upper_char_E in He. rewrite Hy, He.
  assert (Hs : exists u, upper (sf ++ after) = String "S" u).
  { vm_compute in Hsf.
    destruct Hsf as [<- | [<- | [<- | [<- | [<- | [<- | []]]]]]].
    - cbn [append]. rewrite upper_ascii by (vm_compute; reflexivity).
      eexists. reflexivity.
    - cbn [append]. rewrite upper_ascii by (vm_compute; reflexivity).
      eexists. reflexivity.
    - eexists. reflexivity.
    - eexists. reflexivity.
    - eexists. reflexivity.
    - eexists. reflexivity. }
  destruct Hs as [u ->]. apply contains_iff. exists "", u. reflexivity.
Qed.

Lemma yes_kept (s : string) : mentions_yes s -> contains "YES" (upper s) = true.
Proof.
  intros [before [y [e [sf [after [Hs [Hy [He Hsf]]]]]]]]. subst s.
  induction before as [before IH] using string_strong_ind.
  assert (Hcy : (code y < 128)%N) by (destruct Hy as [-> | ->]; vm_compute; reflexivity).
  destruct (upper_cases (before ++ String y (String e (sf ++ after))))
    as [H | [[token [image [rest [Hin [Hs Hupper]]]]] | [c [rest [Hs Hupper]]]]].
  - destruct before; discriminate H.
  - destruct (special_upper_facts _ _ Hin) as [[k [tk [Htoken Hhigh]]] _].
    symmetry in Hs. destruct (split_high _ _ _ _ _ Hs Hhigh Hcy) as [before' [-> ->]].
    rewrite Hupper. apply contains_after. apply IH.
    rewrite string_app_length. subst token. simpl. lia.
  - destruct before as [| b before].
    + now apply yes_at_start.
    + simpl in Hs. injection Hs as <- <-. rewrite Hupper. cbn [contains].
      rewrite IH by (simpl; lia). apply orb_true_r.
Qed.

Lemma yes_test_iff (body : string) :
  contains "YES" (upper body) = true <-> mentions_yes body.
Proof. split; [apply yes_found | apply yes_kept]. Qed.


(** *** White space and [strip] *)

Lemma rev_string_app (acc s : string) : rev_string acc s = rev_string "" s ++ acc.
Proof.
  revert acc. induction s as [| c s IH]; intros acc; [reflexivity |].
  cbn [rev_string]. rewrite (IH (String c acc)), (IH (String c "")).
  now rewrite string_app_assoc.
Qed.

Lemma rev_app (a b : string) :
  rev_string "" (a ++ b) = rev_string "" b ++ rev_string "" a.
Proof.
  induction a as [| c a IH]; simpl; [now rewrite string_app_nil |].
  rewrite (rev_string_app (String c "") (a ++ b)), (rev_string_app (String c "") a), IH.
  now rewrite string_app_assoc.
Qed.

Lemma rev_rev (s : string) : rev_string "" (rev_string "" s) = s.
Proof.
  induction s as [| c s IH]; [reflexivity |].
  cbn [rev_string]. rewrite (rev_string_app (String c "") s), rev_app, IH. reflexivity.
Qed.

Lemma rev_length (s : string) : String.length (rev_string "" s) = String.length s.
Proof.
  induction s as [| c s IH]; [reflexivity |].
  cbn [rev_string]. rewrite (rev_string_app (String c "") s), string_app_length, IH.
  simpl. lia.
Qed.

Lemma made_of_app (white : string -> bool) (a b : string) :
  made_of white a -> made_of white b -> made_of white (a ++ b).
Proof.
  intros Ha Hb. induction Ha as [| token rest Htoken _ IH]; [exact Hb |].
  rewrite string_app_assoc. now apply made_of_more.
Qed.

Lemma made_of_one (white : string -> bool) (token : string) :
  white token = true -> made_of white token.
Proof.
  intros H. rewrite <- (string_app_nil token). apply made_of_more; [exact H | constructor].
Qed.

Lemma made_of_rev (white : string -> bool) (s : string) :
  made_of (fun token => white (rev_string "" token)) s ->
  made_of white (rev_string "" s).
Proof.
  induction 1 as [| token rest Htoken _ IH]; [constructor |].
  rewrite rev_app. apply made_of_app; [exact IH |]. now apply made_of_one.
Qed.

Lemma lstrip_with_unfold (white : string -> bool) (c1 : ascii) (t1 : string) :
  lstrip_with white (String c1 t1)
  = if white (String c1 "") then lstrip_with white t1
    else
      match t1 with
      | "" => String c1 t1
      | String c2 t2 =>
          if white (String c1 (String c2 "")) then lstrip_with white t2
          else
            match t2 with
            | "" => String c1 t1
            | String c3 t3 =>
                if white (String c1 (String c2 (String c3 "")))
                then lstrip_with white t3
                else String c1 t1
            end
      end.
Proof. destruct t1 as [| c2 [| c3 t3]]; reflexivity. Qed.

(** What [lstrip_with] removes is made of accepted characters. *)
Lemma lstrip_with_split (white : string -> bool) (s : string) :
  exists removed, made_of white removed /\ s = removed ++ lstrip_with white s.
Proof.
  induction s as [s IH] using string_strong_ind.
  destruct s as [| c1 t1]; [exists ""; split; [constructor | reflexivity] |].
  rewrite lstrip_with_unfold.
  destruct (white (String c1 "")) eqn:E1.
  { destruct (IH t1) as [removed [Hmade Hsplit]]; [simpl; lia |].
    exists (String c1 "" ++ removed). split; [now apply made_of_more |].
    simpl. now rewrite <- Hsplit. }
  destruct t1 as [| c2 t2]; [exists ""; split; [constructor | reflexivity] |].
  destruct (white (String c1 (String c2 ""))) eqn:E2.
  { destruct (IH t2) as [removed [Hmade Hsplit]]; [simpl; lia |].
    exists (String c1 (String c2 "") ++ removed). split; [now apply made_of_more |].
    simpl. now rewrite <- Hsplit. }
  destruct t2 as [| c3 t3]; [exists ""; split; [constructor | reflexivity] |].
  destruct (white (String c1 (String c2 (String c3 "")))) eqn:E3.
  { destruct (IH t3) as [removed [Hmade Hsplit]]; [simpl; lia |].
    exists (String c1 (String c2 (String c3 "")) ++ removed).
    split; [now apply made_of_more |]. simpl. now rewrite <- Hsplit. }
  exists "". split; [constructor | reflexivity].
Qed.

Lemma lstrip_with_length (white : string -> bool) (s : string) :
  (String.length (lstrip_with white s) <= String.length s)%nat.
Proof.
  destruct (lstrip_with_split white s) as [removed [_ H]].
  rewrite H at 2. rewrite string_app_length. lia.
Qed.

Lemma lstrip_with_done (white : string -> bool) (s : string) :
  lstrip_with white (lstrip_with white s) = lstrip_with white s.
Proof.
  induction s as [s IH] using string_strong_ind.
  destruct s as [| c1 t1]; [reflexivity |].
  rewrite (lstrip_with_unfold white c1 t1).
  destruct (white (String c1 "")) eqn:E1; [apply IH; simpl; lia |].
  destruct t1 as [| c2 t2]; [rewrite lstrip_with_unfold; now rewrite E1 |].
  destruct (white (String c1 (String c2 ""))) eqn:E2; [apply IH; simpl; lia |].
  destruct t2 as [| c3 t3]; [rewrite lstrip_with_unfold; now rewrite E1, E2 |].
  destruct (white (String c1 (String c2 (String c3 "")))) eqn:E3;
    [apply IH; simpl; lia |].
  rewrite lstrip_with_unfold. now rewrite E1, E2, E3.
Qed.

Lemma lstrip_with_takes (white : string -> bool) (token rest : string) :
  short token -> white token = true ->
  (String.length (lstrip_with white (token ++ rest)) < String.length (token ++ rest))%nat.
Proof.
  intros [Hmin Hmax] Hwhite.
  destruct token as [| a [| b [| c [| d token]]]]; simpl in Hmin, Hmax; try lia;
    clear Hmin Hmax; cbn [append]; rewrite lstrip_with_unfold.
  - rewrite Hwhite. pose proof (lstrip_with_length white rest). simpl. lia.
  - destruct (white (String a "")).
    + pose proof (lstrip_with_length white (String b rest)). simpl in *. lia.
    + rewrite Hwhite. pose proof (lstrip_with_length white rest). simpl. lia.
  - destruct (white (String a "")).
    + pose proof (lstrip_with_length white (String b (String c rest))). simpl in *. lia.
    + destruct (white (String a (String b ""))).
      * pose proof (lstrip_with_length white (String c rest)). simpl in *. lia.
      * rewrite Hwhite. pose proof (lstrip_with_length white rest). simpl. lia.
Qed.

(** What [lstrip_with] leaves does not start with an accepted character. *)
Lemma lstrip_with_head (white : string -> bool) (s token rest : string) :
  lstrip_with white s = token ++ rest -> short token -> white token = false.
Proof.
  intros H Hshort. destruct (white token) eqn:Hwhite; [| reflexivity].
  pose proof (lstrip_with_takes white token rest Hshort Hwhite) as Hless.
  rewrite <- H, lstrip_with_done in Hless. lia.
Qed.

Lemma is_white_iff (token : string) : is_white token = true <-> In token white_space.
Proof.
  unfold is_white. rewrite existsb_exists. split.
  - intros [x [Hin Heq]]. apply String.eqb_eq in Heq. now subst.
  - intros H. exists token. split; [exact H | apply String.eqb_refl].
Qed.

Lemma white_space_short (token : string) : In token white_space -> short token.
Proof.
  intros H. vm_compute in H.
  repeat (destruct H as [<- | H]; [unfold short; simpl; lia |]). destruct H.
Qed.

(** [lstrip] removes a white-space character at the start. *)
Lemma lstrip_white (token rest : string) :
  In token white_space -> lstrip (token ++ rest) = lstrip rest.
Proof.
  intros H. vm_compute in H.
  repeat (destruct H as [<- | H]; [reflexivity |]). destruct H.
Qed.

Lemma lstrip_blank (s : string) : blank s -> lstrip s = "".
Proof.
  induction 1 as [| token rest Htoken _ IH]; [reflexivity |].
  apply is_white_iff in Htoken. now rewrite lstrip_white.
Qed.

(** [strip] takes a blank text from each end of the text. *)
Lemma strip_split (s : string) :
  exists leading trailing,
    blank leading /\ blank trailing /\ s = leading ++ strip s ++ trailing.
Proof.
  destruct (lstrip_with_split is_white s) as [leading [Hleading Hs]].
  fold (lstrip s) in Hs.
  destruct (lstrip_with_split (fun token => is_white (rev_string "" token))
              (rev_string "" (lstrip s))) as [removed [Hremoved Hrev]].
  exists leading, (rev_string "" removed).
  split; [exact Hleading |]. split; [now apply made_of_rev |].
  rewrite Hs at 1. f_equal.
  rewrite <- (rev_rev (lstrip s)). rewrite Hrev at 1. rewrite rev_app. reflexivity.
Qed.

Lemma strip_blank_iff (s : string) : strip s = "" <-> blank s.
Proof.
  split.
  - intros H. destruct (strip_split s) as [leading [trailing [Hl [Ht Hs]]]].
    rewrite H in Hs. rewrite Hs. now apply made_of_app.
  - intros H. unfold strip. now rewrite (lstrip_blank s H).
Qed.

(** What [strip] returns neither starts nor ends with a white-space
    character. *)
Lemma strip_ends (s token rest : string) :
  In token white_space -> strip s <> token ++ rest /\ strip s <> rest ++ token.
Proof.
  intros Htoken. pose proof (white_space_short token Htoken) as Hshort.
  apply is_white_iff in Htoken. split; intros H.
  - destruct (lstrip_with_split (fun t => is_white (rev_string "" t))
                (rev_string "" (lstrip s))) as [removed [_ Hrev]].
    assert (Hl : lstrip s = token ++ rest ++ rev_string "" removed).
    { rewrite <- (rev_rev (lstrip s)). rewrite Hrev at 1. rewrite rev_app.
      fold (rstrip (lstrip s)). fold (strip s). rewrite H.
      now rewrite string_app_assoc. }
    unfold lstrip in Hl. apply lstrip_with_head in Hl; [congruence | exact Hshort].
  - assert (Hr : lstrip_with (fun t => is_white (rev_string "" t))
                   (rev_string "" (lstrip s))
                 = rev_string "" token ++ rev_string "" rest).
    { rewrite <- rev_app, <- H. unfold strip, rstrip. now rewrite rev_rev. }
    apply lstrip_with_head in Hr.
    + rewrite rev_rev in Hr. congruence.
    + unfold short in *. now rewrite rev_length.
Qed.

(** *** [process_session_photos] over a non-empty photo set *)

Lemma events_of_ret {A : Type} (a : A) : events_of (ret a) = [].
Proof. reflexivity. Qed.

Lemma value_of_ret {A : Type} (a : A) : value_of (ret a) = a.
Proof. reflexivity. Qed.

Lemma grok_session_run (env_key : option string) (fs : file_system)
      (post : outcome Grok.response) (photos_dir criterion output_path model : string)
      (aesthetic_mode : bool) (ocr_text : option string)
      (processor : Grok.processor) (p : photo) (ps : list photo) :
  Grok.init None env_key = Returns processor ->
  value_of (load_photos_from_directory (person_folder_str fs) (person_folder fs)
              aesthetic_mode) = p :: ps ->
  let loading := load_photos_from_directory (person_folder_str fs) (person_folder fs)
                   aesthetic_mode in
  let analysis := Grok.analyze_profile processor post (p :: ps) criterion model
                    aesthetic_mode ocr_text in
  let result := add_run_metadata photos_dir criterion (photos_dir_mtime fs) (p :: ps)
                  (value_of analysis) in
  let run := Grok.process_session_photos env_key fs post photos_dir criterion
               output_path model aesthetic_mode ocr_text in
  value_of run = Returns result
  /\ events_of run
     = (events_of loading ++ events_of analysis
          ++ events_of (save_results output_path result aesthetic_mode (save fs)))%list.
Proof.
  intros Hinit Hload loading analysis result run.
  subst run. unfold Grok.process_session_photos. rewrite Hinit.
  fold loading in Hload |- *.
  split.
  - rewrite value_of_bind, Hload. rewrite !value_of_bind. reflexivity.
  - rewrite events_of_bind, Hload. rewrite events_of_bind.
    rewrite value_of_bind, events_of_bind. rewrite events_of_bind.
    rewrite !events_of_ret, !value_of_ret, !app_nil_r. reflexivity.
Qed.

Lemma openai_session_run (fs : file_system) (completion : outcome string)
      (photos_dir criterion output_path : string) (aesthetic_mode : bool)
      (p : photo) (ps : list photo) :
  value_of (load_photos_from_directory (person_folder_str fs) (person_folder fs)
              aesthetic_mode) = p :: ps ->
  let loading := load_photos_from_directory (person_folder_str fs) (person_folder fs)
                   aesthetic_mode in
  let analysis := OpenAI.analyze_profile completion (p :: ps) criterion "gpt-4o"
                    aesthetic_mode in
  let result := add_run_metadata photos_dir criterion (photos_dir_mtime fs) (p :: ps)
                  (value_of analysis) in
  let run := OpenAI.process_session_photos None fs completion photos_dir criterion
               output_path aesthetic_mode in
  value_of run = Returns result
  /\ events_of run
     = (events_of loading ++ events_of analysis
          ++ events_of (save_results output_path result aesthetic_mode (save fs)))%list.
Proof.
  intros Hload loading analysis result run.
  subst run. unfold OpenAI.process_session_photos.
  fold loading in Hload |- *.
  split.
  - rewrite value_of_bind, Hload. rewrite !value_of_bind. reflexivity.
  - rewrite events_of_bind, Hload. rewrite events_of_bind.
    rewrite value_of_bind, events_of_bind. rewrite events_of_bind.
    rewrite !events_of_ret, !value_of_ret, !app_nil_r. reflexivity.
Qed.

(** *** What the steps of a run print and write *)

Lemma persisted_app (a b : list event) :
  persisted (a ++ b) = (persisted a ++ persisted b)%list.
Proof.
  induction a as [| e a IH]; [reflexivity |].
  destruct e; simpl; now rewrite IH.
Qed.

Lemma events_of_when (cond : bool) (m : io unit) :
  events_of (when cond m) = if cond then events_of m else [].
Proof. now destruct cond. Qed.

Lemma load_loop_events (aesthetic_mode : bool) (entries : list dir_entry) :
  forall photos : list photo,
    Forall (fun e => is_print e = true)
           (events_of (load_loop aesthetic_mode entries photos))
    /\ (aesthetic_mode = true ->
        events_of (load_loop aesthetic_mode entries photos) = []).
Proof.
  induction entries as [| f rest IH]; intros photos; [split; [constructor | reflexivity] |].
  cbn [load_loop].
  destruct (in_formats _); [| apply IH].
  destruct (contains _ _); [apply IH |].
  destruct (entry_base64 f) as [b64 | e];
    [destruct (entry_size f) as [size | e] |];
    rewrite events_of_bind, events_of_when;
    match goal with
    | |- context [load_loop aesthetic_mode rest ?acc] =>
        destruct (IH acc) as [Hprint Hquiet]
    end;
    (split;
     [ apply Forall_app; split; [destruct aesthetic_mode; repeat constructor | exact Hprint]
     | intros ->; cbn; apply Hquiet; reflexivity ]).
Qed.

Lemma loader_events (folder_str : string) (folder : option (list dir_entry))
      (aesthetic_mode : bool) :
  Forall (fun e => is_print e = true)
         (events_of (load_photos_from_directory folder_str folder aesthetic_mode))
  /\ (aesthetic_mode = true ->
      events_of (load_photos_from_directory folder_str folder aesthetic_mode) = []).
Proof.
  unfold load_photos_from_directory.
  destruct folder as [entries |].
  - destruct (load_loop_events aesthetic_mode entries []) as [Hprint Hquiet].
    rewrite events_of_bind, events_of_bind, events_of_when, events_of_ret, app_nil_r.
    split.
    + apply Forall_app; split; [exact Hprint |].
      destruct aesthetic_mode; repeat constructor.
    + intros ->. rewrite Hquiet by reflexivity. reflexivity.
  - rewrite events_of_bind, events_of_when, events_of_ret, app_nil_r.
    split; [destruct aesthetic_mode; repeat constructor | intros ->; reflexivity].
Qed.

Lemma persisted_prints (events : list event) :
  Forall (fun e => is_print e = true) events -> persisted events = [].
Proof.
  induction 1 as [| e rest He _ IH]; [reflexivity |].
  destruct e; try discriminate He. exact IH.
Qed.

(** [analyze_profile] writes no file, and in aesthetic mode prints
    nothing. *)
Lemma grok_analysis_events (self : Grok.processor) (post : outcome Grok.response)
      (photos : list photo) (criterion model : string) (aesthetic_mode : bool)
      (ocr_text : option string) :
  let events := events_of (Grok.analyze_profile self post photos criterion model
                             aesthetic_mode ocr_text) in
  persisted events = []
  /\ (aesthetic_mode = true -> filter is_print events = []).
Proof.
  unfold Grok.analyze_profile, Grok.handle.
  destruct photos as [| p ps]; [split; reflexivity |].
  destruct aesthetic_mode, post as [[status t [body | e]] | e];
    cbn [Grok.status_code Grok.result_text];
    try destruct (status =? 200);
    try destruct (Grok.normalize _ _ _ _ _);
    try destruct (is_RequestException _);
    split; try reflexivity; intros H; discriminate H.
Qed.

Lemma openai_analysis_events (completion : outcome string)
      (photos : list photo) (criterion model : string) (aesthetic_mode : bool) :
  let events := events_of (OpenAI.analyze_profile completion photos criterion model
                             aesthetic_mode) in
  persisted events = []
  /\ (aesthetic_mode = true -> filter is_print events = []).
Proof.
  unfold OpenAI.analyze_profile, OpenAI.handle.
  destruct photos as [| p ps]; [split; reflexivity |].
  destruct aesthetic_mode, completion as [body | e];
    try destruct (OpenAI.normalize _ _ _ _);
    split; try reflexivity; intros H; discriminate H.
Qed.

Lemma save_results_persisted (output_path : string) (result : dict)
      (aesthetic_mode : bool) (save : option exn) :
  persisted (events_of (save_results output_path result aesthetic_mode save))
  = match save with None => [result] | Some _ => [] end.
Proof. destruct save, aesthetic_mode; reflexivity. Qed.

Lemma save_results_events (output_path : string) (result : dict)
      (aesthetic_mode : bool) (save : option exn) :
  events_of (save_results output_path result aesthetic_mode save)
  = match save, aesthetic_mode with
    | None, true => [JsonDump output_path result]
    | None, false =>
        [JsonDump output_path result;
         Print ("💾 Analysis results saved to: " ++ output_path)]
    | Some e, true => []
    | Some e, false => [Print ("❌ Failed to save results: " ++ exn_msg e)]
    end.
Proof. destruct save, aesthetic_mode; reflexivity. Qed.

(** ** Properties of [analyze_profile] and [process_session_photos] *)

Lemma setitem_raises (v : value) (k : string) (x : value) (e : exn) :
  setitem v k x = Raises e -> exn_class e = TypeError.
Proof. destruct v; simpl; intros H; inversion H; reflexivity. Qed.

(** An exception that leaves the inner [try] is a [ValueError] or a
    [TypeError], never a [RequestException]. *)
Lemma grok_normalize_raises (photos : list photo) (criterion prompt model body : string)
      (e : exn) :
  Grok.normalize photos criterion prompt model body = Raises e ->
  is_RequestException e = false /\ is_JSONDecodeError e = false.
Proof.
  unfold Grok.normalize.
  destruct (json_loads body) as [v | e'] eqn:E.
  - destruct (setitem v "photo_count" (len photos)) eqn:E'; [discriminate |].
    intros H; inversion H; subst. apply setitem_raises in E'.
    unfold is_RequestException, is_JSONDecodeError. now rewrite E'.
  - destruct (is_JSONDecodeError e') eqn:Ej; [discriminate |].
    intros H; inversion H; subst. split; [| exact Ej].
    apply json_loads_raises in E.
    unfold is_JSONDecodeError in Ej. unfold is_RequestException.
    destruct E as [E | E]; rewrite E in *; [discriminate | reflexivity].
Qed.

Ltac dict_lookup :=
  repeat (rewrite dict_get_set_same || (rewrite dict_get_set_other by discriminate)).





(** C3.  Whenever the provider's text parses as a JSON object, the
    [photo_count] of the returned record is the number of photos submitted,
    whatever the object itself says. *)
Theorem photo_count_is_submitted_count :
  forall (body : string) (d : dict) (p : photo) (ps : list photo)
         (self : Grok.processor) (t criterion grok_model openai_model : string)
         (aesthetic_mode : bool) (ocr_text : option string),
    json_loads body = Returns (VDict d) ->
    dict_get "photo_count"
      (value_of (Grok.analyze_profile self (Returns (Grok.Response 200 t (Returns body)))
                   (p :: ps) criterion grok_model aesthetic_mode ocr_text))
    = Some (VInt (Z.of_nat (List.length (p :: ps))))
    /\
    dict_get "photo_count"
      (value_of (OpenAI.analyze_profile (Returns body) (p :: ps) criterion openai_model
                   aesthetic_mode))
    = Some (VInt (Z.of_nat (List.length (p :: ps)))).
Proof.
  intros body d p ps self t criterion grok_model openai_model aesthetic_mode ocr_text Hobj.
  rewrite grok_value, openai_value.
  unfold Grok.normalize, OpenAI.normalize. rewrite Hobj. cbn [setitem].
  split; now dict_lookup.
Qed.

(** The provider says 3, five photos were submitted, the record says 5. *)
Lemma photo_count_is_submitted_count_witness :
  json_loads body_claiming_three
  = Returns (VDict [ ("decision", VStr "YES"); ("reasoning", VStr "...");
                     ("photo_count", VInt 3); ("confidence", VFloat (FQ (9 # 10))) ])
  /\ dict_get "photo_count"
       (value_of (Grok.analyze_profile sample_processor (grok_ok body_claiming_three)
                    five_photos "Kind person." Grok.default_model false None))
     = Some (VInt 5)
  /\ dict_get "photo_count"
       (value_of (OpenAI.analyze_profile (Returns body_claiming_three) five_photos
                    "Kind person." OpenAI.default_model false))
     = Some (VInt 5).
Proof.
  split; [vm_compute; reflexivity |].
  apply (photo_count_is_submitted_count body_claiming_three
           [ ("decision", VStr "YES"); ("reasoning", VStr "...");
             ("photo_count", VInt 3); ("confidence", VFloat (FQ (9 # 10))) ]
           (sample_photo "a.jpg")
           (map sample_photo ["b.jpg"; "c.png"; "d.webp"; "e.gif"])
           sample_processor (envelope body_claiming_three) "Kind person.").
  vm_compute. reflexivity.
Defined.




(** C5.  With an empty photo list [analyze_profile] returns, for every
    criterion, a record whose decision is NO and whose [photo_count] is 0,
    and it does nothing to the outside world on the way: no request is
    sent. *)
Theorem empty_photo_list_short_circuits :
  (forall (self : Grok.processor) (post : outcome Grok.response)
          (criterion model : string) (aesthetic_mode : bool) (ocr_text : option string),
      let run := Grok.analyze_profile self post [] criterion model aesthetic_mode
                   ocr_text in
      dict_get "decision" (value_of run) = Some (VStr "NO")
      /\ dict_get "photo_count" (value_of run) = Some (VInt 0)
      /\ no_network_call (events_of run)
      /\ events_of run = [])
  /\
  (forall (completion : outcome string) (criterion model : string)
          (aesthetic_mode : bool),
      let run := OpenAI.analyze_profile completion [] criterion model aesthetic_mode in
      dict_get "decision" (value_of run) = Some (VStr "NO")
      /\ dict_get "photo_count" (value_of run) = Some (VInt 0)
      /\ no_network_call (events_of run)
      /\ events_of run = []).
Proof. split; intros; repeat split. Qed.

(** With photos, on the other hand, exactly one request goes out. *)
Lemma one_request_with_photos :
  (forall (self : Grok.processor) (post : outcome Grok.response) (p : photo)
          (ps : list photo) (criterion model : string) (aesthetic_mode : bool)
          (ocr_text : option string),
      List.length (filter is_network_call
                     (events_of (Grok.analyze_profile self post (p :: ps) criterion model
                                   aesthetic_mode ocr_text))) = 1%nat)
  /\
  (forall (completion : outcome string) (p : photo) (ps : list photo)
          (criterion model : string) (aesthetic_mode : bool),
      List.length (filter is_network_call
                     (events_of (OpenAI.analyze_profile completion (p :: ps) criterion
                                   model aesthetic_mode))) = 1%nat).
Proof.
  split.
  - intros self post p ps criterion model aesthetic_mode ocr_text.
    unfold Grok.analyze_profile, Grok.handle.
    destruct aesthetic_mode, post as [[status t [body | e]] | e];
      cbn [Grok.status_code Grok.result_text];
      try destruct (status =? 200);
      try destruct (Grok.normalize _ _ _ _ _);
      try destruct (is_RequestException _); reflexivity.
  - intros completion p ps criterion model aesthetic_mode.
    unfold OpenAI.analyze_profile, OpenAI.handle.
    destruct aesthetic_mode, completion as [body | e];
      try destruct (OpenAI.normalize _ _ _ _); reflexivity.
Qed.

(** C6 (as amended).  With photos submitted, every transport failure gives
    an ERROR record whose [photo_count] is the number of photos attempted,
    and none is raised to the caller.  In the Grok module a response whose
    status is not 200 puts the status code and the response body in the
    error field; an exception raised by the request (network error, timeout)
    puts the exception's message there.  In the OpenAI module every failure
    of the call arrives as an exception and the error field is its
    message. *)
Theorem transport_failure_gives_error_record :
  (forall (self : Grok.processor) (r : Grok.response) (p : photo) (ps : list photo)
          (criterion model : string) (aesthetic_mode : bool) (ocr_text : option string),
      (Grok.status_code r =? 200) = false ->
      let result := value_of (Grok.analyze_profile self (Returns r) (p :: ps) criterion
                             model aesthetic_mode ocr_text) in
      dict_get "decision" result = Some (VStr "ERROR")
      /\ dict_get "error" result
         = Some (VStr ("HTTP " ++ str_of_int (Grok.status_code r) ++ ": " ++ Grok.text r))
      /\ dict_get "photo_count" result = Some (VInt (Z.of_nat (List.length (p :: ps)))))
  /\
  (forall (self : Grok.processor) (e : exn) (p : photo) (ps : list photo)
          (criterion model : string) (aesthetic_mode : bool) (ocr_text : option string),
      let result := value_of (Grok.analyze_profile self (Raises e) (p :: ps) criterion
                             model aesthetic_mode ocr_text) in
      dict_get "decision" result = Some (VStr "ERROR")
      /\ dict_get "error" result = Some (VStr (exn_msg e))
      /\ dict_get "photo_count" result = Some (VInt (Z.of_nat (List.length (p :: ps)))))
  /\
  (forall (e : exn) (p : photo) (ps : list photo) (criterion model : string)
          (aesthetic_mode : bool),
      let result := value_of (OpenAI.analyze_profile (Raises e) (p :: ps) criterion model
                             aesthetic_mode) in
      dict_get "decision" result = Some (VStr "ERROR")
      /\ dict_get "error" result = Some (VStr (exn_msg e))
      /\ dict_get "photo_count" result = Some (VInt (Z.of_nat (List.length (p :: ps))))).
Proof.
  split; [| split]; intros; subst result.
  - rewrite grok_value_status by assumption. repeat split.
  - rewrite grok_value_raised. repeat split.
  - rewrite openai_value_raised. repeat split.
Qed.

(** A 503 answer with the body [upstream unavailable], two photos. *)
Lemma transport_failure_gives_error_record_witness :
  (Grok.status_code (Grok.Response 503 "upstream unavailable" (Returns "")) =? 200) = false
  /\ dict_get "error"
       (value_of (Grok.analyze_profile sample_processor
                    (Returns (Grok.Response 503 "upstream unavailable" (Returns "")))
                    [sample_photo "a.jpg"; sample_photo "b.jpg"] "Kind person."
                    Grok.default_model true None))
     = Some (VStr "HTTP 503: upstream unavailable")
  /\ dict_get "photo_count"
       (value_of (Grok.analyze_profile sample_processor
                    (Returns (Grok.Response 503 "upstream unavailable" (Returns "")))
                    [sample_photo "a.jpg"; sample_photo "b.jpg"] "Kind person."
                    Grok.default_model true None))
     = Some (VInt 2).
Proof.
  split; [reflexivity |].
  destruct transport_failure_gives_error_record as [Hstatus _].
  destruct (Hstatus sample_processor
              (Grok.Response 503 "upstream unavailable" (Returns ""))
              (sample_photo "a.jpg") [sample_photo "b.jpg"] "Kind person."
              Grok.default_model true None)
    as [_ [Herror Hcount]]; [reflexivity |].
  split; [exact Herror | exact Hcount].
Defined.

(** C6 (as stated) fails.  The request times out with one photo submitted:
    there is no status code and no response body, and the error field of the
    Grok record is the exception's message, which is not of the form
    [HTTP <status>: <body>]. *)
Lemma timeout_error_has_no_status :
  dict_get "error"
    (value_of (Grok.analyze_profile sample_processor (Raises connection_error) one_photo
                 "Kind person." Grok.default_model true None))
  = Some (VStr (exn_msg connection_error))
  /\ ~ status_and_body (exn_msg connection_error).
Proof.
  split; [vm_compute; reflexivity |].
  intros [status [body H]]. cbn in H. discriminate H.
Qed.






(** C9 (as amended).  What [process_session_photos] returns does not
    depend on whether the output file can be written.  When the write fails
    after a result was computed, the failure is printed as the last line of
    the run unless the aesthetic mode is on; in the aesthetic mode the run
    prints nothing at all, so the failure is then not logged. *)
Theorem save_failure_keeps_result :
  (forall (env_key : option string) (folder_str : string)
          (folder : option (list dir_entry)) (mtime : option string)
          (post : outcome Grok.response)
          (photos_dir criterion output_path model : string) (aesthetic_mode : bool)
          (ocr_text : option string),
      let run (save : option exn) :=
        Grok.process_session_photos env_key (FileSystem folder_str folder mtime save)
          post photos_dir criterion output_path model aesthetic_mode ocr_text in
      (forall save save' : option exn, value_of (run save) = value_of (run save'))
      /\ (forall (e : exn) (result : dict),
            value_of (run (Some e)) = Returns result ->
            aesthetic_mode = false ->
            exists before : list event,
              events_of (run (Some e))
              = (before ++ [Print ("❌ Failed to save results: " ++ exn_msg e)])%list)
      /\ (forall save : option exn,
            aesthetic_mode = true -> filter is_print (events_of (run save)) = []))
  /\
  (forall (client : option exn) (folder_str : string)
          (folder : option (list dir_entry)) (mtime : option string)
          (completion : outcome string)
          (photos_dir criterion output_path : string) (aesthetic_mode : bool),
      let run (save : option exn) :=
        OpenAI.process_session_photos client (FileSystem folder_str folder mtime save)
          completion photos_dir criterion output_path aesthetic_mode in
      (forall save save' : option exn, value_of (run save) = value_of (run save'))
      /\ (forall (e : exn) (result : dict),
            value_of (run (Some e)) = Returns result ->
            aesthetic_mode = false ->
            exists before : list event,
              events_of (run (Some e))
              = (before ++ [Print ("❌ Failed to save results: " ++ exn_msg e)])%list)
      /\ (forall save : option exn,
            aesthetic_mode = true -> filter is_print (events_of (run save)) = [])).
Proof.
  split.
  - intros env_key folder_str folder mtime post photos_dir criterion output_path model
           aesthetic_mode ocr_text run.
    subst run. unfold Grok.process_session_photos.
    cbn [person_folder_str person_folder photos_dir_mtime save].
    destruct (Grok.init None env_key) as [processor | e0].
    2:{ repeat split; try reflexivity. intros e result H. discriminate H. }
    split; [| split].
    + intros save save'. rewrite !value_of_bind. reflexivity.
    + intros e result _ ->.
      rewrite events_of_bind, events_of_bind, events_of_bind.
      rewrite save_results_events, events_of_ret, app_nil_r.
      rewrite app_assoc. eexists. reflexivity.
    + intros save ->.
      rewrite events_of_bind, events_of_bind, events_of_bind.
      rewrite save_results_events, events_of_ret, app_nil_r.
      rewrite (proj2 (loader_events folder_str folder true) eq_refl).
      rewrite !filter_app.
      replace (filter is_print (match save with
                                | Some _ => []
                                | None => [JsonDump output_path _]
                                end)) with (@nil event) by (destruct save; reflexivity).
      rewrite app_nil_r. cbn [app filter value_of fst].
      destruct (value_of _) as [| p ps]; [reflexivity |].
      rewrite events_of_bind, events_of_ret, app_nil_r.
      apply (grok_analysis_events processor post (p :: ps) criterion model true ocr_text).
      reflexivity.
  - intros client folder_str folder mtime completion photos_dir criterion output_path
           aesthetic_mode run.
    subst run. unfold OpenAI.process_session_photos.
    cbn [person_folder_str person_folder photos_dir_mtime save].
    destruct client as [e0 |].
    { repeat split; try reflexivity. intros e result H. discriminate H. }
    split; [| split].
    + intros save save'. rewrite !value_of_bind. reflexivity.
    + intros e result _ ->.
      rewrite events_of_bind, events_of_bind, events_of_bind.
      rewrite save_results_events, events_of_ret, app_nil_r.
      rewrite app_assoc. eexists. reflexivity.
    + intros save ->.
      rewrite events_of_bind, events_of_bind, events_of_bind.
      rewrite save_results_events, events_of_ret, app_nil_r.
      rewrite (proj2 (loader_events folder_str folder true) eq_refl).
      rewrite !filter_app.
      replace (filter is_print (match save with
                                | Some _ => []
                                | None => [JsonDump output_path _]
                                end)) with (@nil event) by (destruct save; reflexivity).
      rewrite app_nil_r. cbn [app filter value_of fst].
      destruct (value_of _) as [| p ps]; [reflexivity |].
      rewrite events_of_bind, events_of_ret, app_nil_r.
      apply (openai_analysis_events completion (p :: ps) criterion "gpt-4o" true).
      reflexivity.
Qed.

(** The disk is full: the Grok run still returns its result and prints the
    failure last; the OpenAI run in aesthetic mode prints nothing. *)
Lemma save_failure_keeps_result_witness :
  value_of (Grok.process_session_photos (Some "xai-key") (sample_fs (Some disk_full))
              (grok_ok body_claiming_three) "/s/photos" "Kind person." "/s/out.json"
              Grok.default_model false None)
  = value_of (Grok.process_session_photos (Some "xai-key") (sample_fs None)
                (grok_ok body_claiming_three) "/s/photos" "Kind person." "/s/out.json"
                Grok.default_model false None)
  /\ (exists before : list event,
         events_of (Grok.process_session_photos (Some "xai-key")
                      (sample_fs (Some disk_full)) (grok_ok body_claiming_three)
                      "/s/photos" "Kind person." "/s/out.json" Grok.default_model
                      false None)
         = (before ++ [Print ("❌ Failed to save results: " ++ exn_msg disk_full)])%list)
  /\ filter is_print
       (events_of (OpenAI.process_session_photos None (sample_fs (Some disk_full))
                     (Returns body_claiming_three) "/s/photos" "Kind person."
                     "/s/out.json" true))
     = [].
Proof.
  destruct save_failure_keeps_result as [Hgrok Hopenai].
  destruct (Hgrok (Some "xai-key") "/s/photos/person" (Some sample_folder)
              (Some "1757602282.0") (grok_ok body_claiming_three) "/s/photos"
              "Kind person." "/s/out.json" Grok.default_model false None)
    as [Hsame [Hlogged _]].
  destruct (Hopenai None "/s/photos/person" (Some sample_folder)
              (Some "1757602282.0") (Returns body_claiming_three) "/s/photos"
              "Kind person." "/s/out.json" true)
    as [_ [_ Hquiet]].
  split; [apply (Hsame (Some disk_full) None) |].
  split.
  - eapply Hlogged; [vm_compute; reflexivity | reflexivity].
  - apply (Hquiet (Some disk_full)). reflexivity.
Defined.

(** C9 (as stated) fails.  The disk is full and the aesthetic mode is on:
    the run returns the same result as when the write works, but it prints
    nothing, so the failure is not logged. *)
Lemma save_failure_silent_in_aesthetic_mode :
  filter is_print
    (events_of (Grok.process_session_photos (Some "xai-key") (sample_fs (Some disk_full))
                  (grok_ok body_claiming_three) "/s/photos" "Kind person." "/s/out.json"
                  Grok.default_model true None))
  = []
  /\ persisted
       (events_of (Grok.process_session_photos (Some "xai-key")
                     (sample_fs (Some disk_full)) (grok_ok body_claiming_three)
                     "/s/photos" "Kind person." "/s/out.json" Grok.default_model
                     true None))
     = []
  /\ filter is_print
       (events_of (OpenAI.process_session_photos None (sample_fs (Some disk_full))
                     (Returns body_claiming_three) "/s/photos" "Kind person."
                     "/s/out.json" true))
     = [].
Proof. repeat split; vm_compute; reflexivity. Qed.

(** C10.  With an empty photo list the record [analyze_profile] returns
    has the error entry [No photos provided] and no confidence entry, its
    decision being NO all the same. *)
Theorem empty_photo_list_is_marked_as_error :
  (forall (self : Grok.processor) (post : outcome Grok.response)
          (criterion model : string) (aesthetic_mode : bool) (ocr_text : option string),
      let r := value_of (Grok.analyze_profile self post [] criterion model
                           aesthetic_mode ocr_text) in
      dict_get "error" r = Some (VStr "No photos provided")
      /\ has_key "confidence" r = false
      /\ dict_get "decision" r = Some (VStr "NO"))
  /\
  (forall (completion : outcome string) (criterion model : string)
          (aesthetic_mode : bool),
      let r := value_of (OpenAI.analyze_profile completion [] criterion model
                           aesthetic_mode) in
      dict_get "error" r = Some (VStr "No photos provided")
      /\ has_key "confidence" r = false
      /\ dict_get "decision" r = Some (VStr "NO")).
Proof. split; intros; repeat split. Qed.

(** ** Further properties: the loader *)

Lemma load_loop_value (aesthetic_mode : bool) (entries : list dir_entry) :
  forall photos : list photo,
    value_of (load_loop aesthetic_mode entries photos) = (photos ++ loaded entries)%list.
Proof.
  induction entries as [| f rest IH]; intros photos; cbn [load_loop loaded].
  - now rewrite app_nil_r.
  - unfold photo_of_entry.
    destruct (in_formats _); cbn [andb]; [| apply IH].
    destruct (contains _ _); cbn [negb]; [apply IH |].
    destruct (entry_base64 f) as [b64 | e];
      [destruct (entry_size f) as [size | e] |];
      rewrite value_of_bind, IH; try reflexivity.
    now rewrite <- app_assoc.
Qed.

Lemma loader_value (folder_str : string) (entries : list dir_entry)
      (aesthetic_mode : bool) :
  value_of (load_photos_from_directory folder_str (Some entries) aesthetic_mode)
  = loaded entries.
Proof.
  unfold load_photos_from_directory.
  rewrite !value_of_bind. cbn [value_of ret fst]. apply (load_loop_value _ _ []).
Qed.


Lemma loaded_in (entries : list dir_entry) (p : photo) :
  In p (loaded entries) <-> exists f, In f entries /\ photo_of_entry f = Some p.
Proof.
  induction entries as [| f rest IH]; cbn [loaded].
  - split; [intros [] | intros [f [[] _]]].
  - destruct (photo_of_entry f) as [q |] eqn:E.
    + cbn [In]. rewrite IH. split.
      * intros [<- | [g [Hin Hg]]]; [exists f; auto | exists g; cbn; auto].
      * intros [g [[<- | Hin] Hg]]; [left; congruence | right; exists g; auto].
    + rewrite IH. split.
      * intros [g [Hin Hg]]. exists g. cbn. auto.
      * intros [g [[<- | Hin] Hg]]; [congruence | exists g; auto].
Qed.

(** X2.  Every photo the loader returns comes from an entry of the folder,
    under that entry's name and path: its suffix, lower-cased, is one of the
    five supported ones, its name does not contain [_DUPLICATE], and its
    size in megabytes is the entry's size in bytes over 1024 * 1024. *)
Theorem loaded_photos_are_supported_images :
  forall (folder_str : string) (folder : option (list dir_entry)) (aesthetic_mode : bool)
         (p : photo),
    In p (value_of (load_photos_from_directory folder_str folder aesthetic_mode)) ->
    In (lower (path_suffix (filename p))) supported_formats
    /\ contains "_DUPLICATE" (filename p) = false
    /\ exists (entries : list dir_entry) (f : dir_entry) (st_size : Z),
         folder = Some entries /\ In f entries
         /\ filename p = entry_name f /\ path p = entry_path f
         /\ entry_base64 f = Returns (base64 p)
         /\ entry_size f = Returns st_size
         /\ size_mb p = FQ (Qmake st_size (1024 * 1024)).
Proof.
  intros folder_str folder aesthetic_mode p Hin.
  destruct folder as [entries |]; [| destruct aesthetic_mode; contradiction].
  rewrite loader_value in Hin.
  apply loaded_in in Hin. destruct Hin as [f [Hf Hp]].
  unfold photo_of_entry in Hp.
  destruct (in_formats _) eqn:Hfmt; cbn [andb] in Hp; [| discriminate].
  destruct (contains _ _) eqn:Hdup; cbn [negb] in Hp; [discriminate |].
  destruct (entry_base64 f) as [b64 |] eqn:Hb; [| discriminate].
  destruct (entry_size f) as [st_size |] eqn:Hs; [| discriminate].
  injection Hp as <-. cbn [filename path base64 size_mb].
  split; [| split; [exact Hdup |]].
  - unfold in_formats in Hfmt. apply existsb_exists in Hfmt.
    destruct Hfmt as [x [Hx Heq]]. apply String.eqb_eq in Heq. now subst x.
  - exists entries, f, st_size. auto 10.
Qed.

Lemma loaded_photos_are_supported_images_witness :
  In first_loaded
     (value_of (load_photos_from_directory "/s/photos/person" (Some sample_folder) true))
  /\ In (lower (path_suffix (filename first_loaded))) supported_formats
  /\ contains "_DUPLICATE" (filename first_loaded) = false.
Proof.
  assert (Hin : In first_loaded
                   (value_of (load_photos_from_directory "/s/photos/person"
                                (Some sample_folder) true)))
    by (left; reflexivity).
  split; [exact Hin |].
  destruct (loaded_photos_are_supported_images "/s/photos/person" (Some sample_folder)
              true first_loaded Hin) as [Hfmt [Hdup _]].
  split; assumption.
Defined.

Lemma loaded_app (a b : list dir_entry) :
  loaded (a ++ b) = (loaded a ++ loaded b)%list.
Proof.
  induction a as [| f a IH]; [reflexivity |].
  cbn [app loaded]. destruct (photo_of_entry f); cbn [app]; now rewrite IH.
Qed.

Lemma load_loop_app (aesthetic_mode : bool) (a b : list dir_entry) :
  forall photos : list photo,
    load_loop aesthetic_mode (a ++ b)%list photos
    = bind (load_loop aesthetic_mode a photos) (load_loop aesthetic_mode b).
Proof.
  assert (Hleft : forall (A : Type) (m : io A), bind (ret tt) (fun _ => m) = m).
  { intros A [x l]. reflexivity. }
  assert (Hassoc : forall (A B C : Type) (m : io A) (f : A -> io B) (g : B -> io C),
             bind (bind m f) g = bind m (fun x => bind (f x) g)).
  { intros A B C [x l] f g. unfold bind. destruct (f x) as [y l'].
    destruct (g y) as [z l'']. now rewrite app_assoc. }
  induction a as [| f rest IH]; intros photos; cbn [app load_loop].
  - unfold bind, ret. destruct (load_loop aesthetic_mode b photos). reflexivity.
  - destruct (in_formats _); [| apply IH].
    destruct (contains _ _); [apply IH |].
    destruct (entry_base64 f) as [b64 | e];
      [destruct (entry_size f) as [size | e] |];
      rewrite Hassoc; f_equal.
    all: rewrite IH; reflexivity.
Qed.



(** ** Further properties: [analyze_profile] *)

Lemma sent_parts_of_photos (prompt : string) (photos : list photo) :
  map (fun part => (part_text part, image_url part))
      (text_part prompt :: map image_part photos)
  = (Some prompt, None)
      :: map (fun p => (None, Some ("data:image/jpeg;base64," ++ base64 p))) photos.
Proof.
  cbn [map]. f_equal. rewrite map_map. apply map_ext. intros p. reflexivity.
Qed.

Lemma sent_parts_only_of_requests (events : list event) :
  sent_parts events = sent_parts (filter is_network_call events).
Proof.
  unfold sent_parts. f_equal.
  induction events as [| e rest IH]; [reflexivity |].
  destruct e; cbn [filter is_network_call flat_map request_parts app];
    now rewrite IH.
Qed.

Lemma grok_request (self : Grok.processor) (post : outcome Grok.response) (p : photo)
      (ps : list photo) (criterion model : string) (aesthetic_mode : bool)
      (ocr_text : option string) :
  filter is_network_call
    (events_of (Grok.analyze_profile self post (p :: ps) criterion model aesthetic_mode
                  ocr_text))
  = [ HttpPost (Grok.base_url self ++ "/chat/completions") (Grok.headers self)
        (Grok.payload (p :: ps) (Grok.full_prompt ocr_text) model) 60 ].
Proof.
  unfold Grok.analyze_profile, Grok.handle.
  destruct aesthetic_mode, post as [[status t [body | e]] | e];
    cbn [Grok.status_code Grok.result_text];
    try destruct (status =? 200);
    try destruct (Grok.normalize _ _ _ _ _);
    try destruct (is_RequestException _); reflexivity.
Qed.

Lemma openai_request (completion : outcome string) (p : photo) (ps : list photo)
      (criterion model : string) (aesthetic_mode : bool) :
  filter is_network_call
    (events_of (OpenAI.analyze_profile completion (p :: ps) criterion model
                  aesthetic_mode))
  = [ ChatCompletionsCreate model
        (OpenAI.messages (p :: ps) (OpenAI.full_prompt criterion)) 500 (FQ (1 # 10)) ].
Proof.
  unfold OpenAI.analyze_profile, OpenAI.handle.
  destruct aesthetic_mode, completion as [body | e];
    try destruct (OpenAI.normalize _ _ _ _); reflexivity.
Qed.

Lemma grok_sent_parts (self : Grok.processor) (post : outcome Grok.response) (p : photo)
      (ps : list photo) (criterion model : string) (aesthetic_mode : bool)
      (ocr_text : option string) :
  sent_parts (events_of (Grok.analyze_profile self post (p :: ps) criterion model
                           aesthetic_mode ocr_text))
  = (Some (Grok.full_prompt ocr_text), None)
      :: map (fun q => (None, Some ("data:image/jpeg;base64," ++ base64 q))) (p :: ps).
Proof.
  rewrite sent_parts_only_of_requests, grok_request, <- sent_parts_of_photos.
  unfold sent_parts. cbn [flat_map]. rewrite app_nil_r. reflexivity.
Qed.

Lemma openai_sent_parts (completion : outcome string) (p : photo) (ps : list photo)
      (criterion model : string) (aesthetic_mode : bool) :
  sent_parts (events_of (OpenAI.analyze_profile completion (p :: ps) criterion model
                           aesthetic_mode))
  = (Some (OpenAI.full_prompt criterion), None)
      :: map (fun q => (None, Some ("data:image/jpeg;base64," ++ base64 q))) (p :: ps).
Proof.
  rewrite sent_parts_only_of_requests, openai_request, <- sent_parts_of_photos.
  unfold sent_parts. cbn [flat_map]. rewrite app_nil_r. reflexivity.
Qed.

(** X4.  With photos, [analyze_profile] calls the provider's interface
    exactly once, whatever comes back (an answer, an error status, an
    exception): the program itself never repeats a call.  In the Grok module
    the call is one [requests.post]; in the OpenAI module it is one
    [chat.completions.create], within which the client library may send the
    request again when it fails.  The call carries the prompt as its one
    text part and then one image part per photo, in the order of the list,
    each a data URL of type [image/jpeg] holding the photo's base64 text,
    whatever the suffix of the file.  The Grok call is fixed by the photos,
    the model and the profile text alone: the criterion is not part of
    it. *)
Theorem one_request_per_analysis :
  (forall (self : Grok.processor) (post : outcome Grok.response) (p : photo)
          (ps : list photo) (criterion model : string) (aesthetic_mode : bool)
          (ocr_text : option string),
      let events := events_of (Grok.analyze_profile self post (p :: ps) criterion model
                                 aesthetic_mode ocr_text) in
      filter is_network_call events
      = [ HttpPost (Grok.base_url self ++ "/chat/completions") (Grok.headers self)
                   (Grok.payload (p :: ps) (Grok.full_prompt ocr_text) model) 60 ]
      /\ sent_parts events
         = (Some (Grok.full_prompt ocr_text), None)
             :: map (fun q => (None, Some ("data:image/jpeg;base64," ++ base64 q)))
                    (p :: ps))
  /\
  (forall (completion : outcome string) (p : photo) (ps : list photo)
          (criterion model : string) (aesthetic_mode : bool),
      let events := events_of (OpenAI.analyze_profile completion (p :: ps) criterion model
                                 aesthetic_mode) in
      filter is_network_call events
      = [ ChatCompletionsCreate model
            (OpenAI.messages (p :: ps) (OpenAI.full_prompt criterion)) 500 (FQ (1 # 10)) ]
      /\ sent_parts events
         = (Some (OpenAI.full_prompt criterion), None)
             :: map (fun q => (None, Some ("data:image/jpeg;base64," ++ base64 q)))
                    (p :: ps)).
Proof.
  split; intros; subst events; split.
  - apply grok_request.
  - apply grok_sent_parts.
  - apply openai_request.
  - apply openai_sent_parts.
Qed.

Lemma grok_quiet_analysis (self : Grok.processor) (post : outcome Grok.response)
      (photos : list photo) (criterion model : string) (ocr_text : option string) :
  let quiet := Grok.analyze_profile self post photos criterion model true ocr_text in
  let narrated := Grok.analyze_profile self post photos criterion model false ocr_text in
  value_of quiet = value_of narrated
  /\ events_of quiet = filter (fun e => negb (is_print e)) (events_of narrated).
Proof.
  intros quiet narrated.
  subst quiet narrated. unfold Grok.analyze_profile, Grok.handle.
  destruct photos as [| p ps]; [split; reflexivity |].
  destruct post as [[status t [body | e]] | e];
    cbn [Grok.status_code Grok.result_text];
    try destruct (status =? 200);
    try destruct (Grok.normalize _ _ _ _ _);
    try destruct (is_RequestException _); split; reflexivity.
Qed.

Lemma openai_quiet_analysis (completion : outcome string) (photos : list photo)
      (criterion model : string) :
  let quiet := OpenAI.analyze_profile completion photos criterion model true in
  let narrated := OpenAI.analyze_profile completion photos criterion model false in
  value_of quiet = value_of narrated
  /\ events_of quiet = filter (fun e => negb (is_print e)) (events_of narrated).
Proof.
  intros quiet narrated.
  subst quiet narrated. unfold OpenAI.analyze_profile, OpenAI.handle.
  destruct photos as [| p ps]; [split; reflexivity |].
  destruct completion as [body | e];
    try destruct (OpenAI.normalize _ _ _ _); split; reflexivity.
Qed.

(** X5.  The aesthetic mode of [analyze_profile] only silences it.  When
    every line the narrated call prints is well-formed text, so that
    printing it does not fail, the record returned is the same with the mode
    on and off, and what the quiet call does to the outside world is what
    the narrated call does, minus the printed lines.  (The lines are printed
    inside the [try] of the source: a line that cannot be printed, as one
    with a lone surrogate, would end the narrated call in the handler.) *)
Theorem aesthetic_mode_only_silences_analysis :
  (forall (self : Grok.processor) (post : outcome Grok.response) (photos : list photo)
          (criterion model : string) (ocr_text : option string),
      let quiet := Grok.analyze_profile self post photos criterion model true ocr_text in
      let narrated := Grok.analyze_profile self post photos criterion model false
                        ocr_text in
      printable (events_of narrated) = true ->
      value_of quiet = value_of narrated
      /\ events_of quiet = filter (fun e => negb (is_print e)) (events_of narrated))
  /\
  (forall (completion : outcome string) (photos : list photo) (criterion model : string),
      let quiet := OpenAI.analyze_profile completion photos criterion model true in
      let narrated := OpenAI.analyze_profile completion photos criterion model false in
      printable (events_of narrated) = true ->
      value_of quiet = value_of narrated
      /\ events_of quiet = filter (fun e => negb (is_print e)) (events_of narrated)).
Proof.
  split.
  - intros self post photos criterion model ocr_text quiet narrated _.
    apply grok_quiet_analysis.
  - intros completion photos criterion model quiet narrated _.
    apply openai_quiet_analysis.
Qed.

Lemma aesthetic_mode_only_silences_analysis_witness :
  printable (events_of (Grok.analyze_profile sample_processor
                          (grok_ok body_claiming_three) one_photo "Kind person."
                          Grok.default_model false None)) = true
  /\ value_of (Grok.analyze_profile sample_processor (grok_ok body_claiming_three)
                 one_photo "Kind person." Grok.default_model true None)
     = value_of (Grok.analyze_profile sample_processor (grok_ok body_claiming_three)
                   one_photo "Kind person." Grok.default_model false None)
  /\ printable (events_of (OpenAI.analyze_profile (Returns "Yes, this looks good")
                             one_photo "Kind person." OpenAI.default_model false)) = true
  /\ events_of (OpenAI.analyze_profile (Returns "Yes, this looks good") one_photo
                  "Kind person." OpenAI.default_model true)
     = filter (fun e => negb (is_print e))
         (events_of (OpenAI.analyze_profile (Returns "Yes, this looks good") one_photo
                       "Kind person." OpenAI.default_model false)).
Proof.
  assert (Hg : printable (events_of (Grok.analyze_profile sample_processor
                                       (grok_ok body_claiming_three) one_photo
                                       "Kind person." Grok.default_model false None))
               = true) by (vm_compute; reflexivity).
  assert (Ho : printable (events_of (OpenAI.analyze_profile
                                       (Returns "Yes, this looks good") one_photo
                                       "Kind person." OpenAI.default_model false))
               = true) by (vm_compute; reflexivity).
  destruct aesthetic_mode_only_silences_analysis as [Hgrok Hopenai].
  split; [exact Hg |]. split.
  - exact (proj1 (Hgrok sample_processor (grok_ok body_claiming_three) one_photo
                    "Kind person." Grok.default_model None Hg)).
  - split; [exact Ho |].
    exact (proj2 (Hopenai (Returns "Yes, this looks good") one_photo "Kind person."
                    OpenAI.default_model Ho)).
Defined.

(** The record of an analysis with photos, by cases on what came back. *)
Lemma grok_record_cases (self : Grok.processor) (post : outcome Grok.response)
      (p : photo) (ps : list photo) (criterion model : string) (aesthetic_mode : bool)
      (ocr_text : option string) :
  let r := value_of (Grok.analyze_profile self post (p :: ps) criterion model
                       aesthetic_mode ocr_text) in
  let prompt := Grok.full_prompt ocr_text in
  (exists response, post = Returns response
                    /\ (Grok.status_code response =? 200) = false
                    /\ r = Grok.http_error_record (p :: ps) criterion prompt response)
  \/ (exists label e, r = Grok.error_record label (p :: ps) criterion prompt model e)
  \/ (exists body, r = Grok.fallback_record (p :: ps) criterion prompt model body)
  \/ (exists d, grok_adopted post (p :: ps) = Some d
                /\ r = dict_set "api_provider" (VStr "grok")
                         (dict_set "model" (VStr model)
                            (dict_set "prompt" (VStr prompt)
                               (dict_set "criterion" (VStr criterion)
                                  (dict_set "photo_count" (len (p :: ps)) d))))).
Proof.
  intros r prompt. subst r prompt.
  destruct post as [[status t [body | e]] | e].
  - destruct (status =? 200) eqn:Es.
    + apply Z.eqb_eq in Es. subst status. rewrite grok_value.
      cbn [grok_adopted Grok.status_code Grok.result_text].
      change (200 =? 200) with true. cbv iota.
      unfold json_object, Grok.normalize.
      destruct (json_loads body) as [v | e].
      * destruct v; cbn [setitem]; try solve [right; left; eauto].
        right; right; right. eauto.
      * destruct (is_JSONDecodeError e); [right; right; left; eauto | right; left; eauto].
    + left. eexists. split; [reflexivity |]. split; [exact Es |].
      now rewrite grok_value_status.
  - destruct (status =? 200) eqn:Es.
    + right; left. unfold Grok.analyze_profile. rewrite !value_of_bind.
      cbn [Grok.status_code Grok.result_text]. rewrite Es.
      unfold Grok.handle.
      destruct (is_RequestException e); rewrite value_of_bind; do 2 eexists; reflexivity.
    + left. eexists. split; [reflexivity |]. split; [exact Es |].
      now rewrite grok_value_status.
  - right; left. rewrite grok_value_raised. eauto.
Qed.

Lemma openai_record_cases (completion : outcome string)
      (p : photo) (ps : list photo) (criterion model : string) (aesthetic_mode : bool) :
  let r := value_of (OpenAI.analyze_profile completion (p :: ps) criterion model
                       aesthetic_mode) in
  let prompt := OpenAI.full_prompt criterion in
  (exists e, r = OpenAI.error_record (p :: ps) criterion prompt e)
  \/ (exists body, r = OpenAI.fallback_record (p :: ps) criterion prompt body)
  \/ (exists d, openai_adopted completion (p :: ps) = Some d
                /\ r = dict_set "prompt" (VStr prompt)
                         (dict_set "criterion" (VStr criterion)
                            (dict_set "photo_count" (len (p :: ps)) d))).
Proof.
  intros r prompt. subst r prompt.
  destruct completion as [body | e].
  - rewrite openai_value. cbn [openai_adopted].
    unfold json_object, OpenAI.normalize.
    destruct (json_loads body) as [v | e].
    + destruct v; cbn [setitem]; try solve [left; eauto].
      right; right. eauto.
    + destruct (is_JSONDecodeError e); [right; left; eauto | left; eauto].
  - left. rewrite openai_value_raised. eauto.
Qed.

(** X6.  Whatever the provider does, the record [analyze_profile] returns
    for a non-empty photo list has the number of photos submitted as its
    [photo_count], the caller's criterion as its [criterion] and the prompt
    that was sent as its [prompt]; a JSON object of the provider cannot
    change any of the three. *)
Theorem record_always_carries_count_criterion_prompt :
  (forall (self : Grok.processor) (post : outcome Grok.response) (p : photo)
          (ps : list photo) (criterion model : string) (aesthetic_mode : bool)
          (ocr_text : option string),
      let r := value_of (Grok.analyze_profile self post (p :: ps) criterion model
                           aesthetic_mode ocr_text) in
      dict_get "photo_count" r = Some (VInt (Z.of_nat (List.length (p :: ps))))
      /\ dict_get "criterion" r = Some (VStr criterion)
      /\ dict_get "prompt" r = Some (VStr (Grok.full_prompt ocr_text)))
  /\
  (forall (completion : outcome string) (p : photo) (ps : list photo)
          (criterion model : string) (aesthetic_mode : bool),
      let r := value_of (OpenAI.analyze_profile completion (p :: ps) criterion model
                           aesthetic_mode) in
      dict_get "photo_count" r = Some (VInt (Z.of_nat (List.length (p :: ps))))
      /\ dict_get "criterion" r = Some (VStr criterion)
      /\ dict_get "prompt" r = Some (VStr (OpenAI.full_prompt criterion))).
Proof.
  split.
  - intros self post p ps criterion model aesthetic_mode ocr_text r.
    destruct (grok_record_cases self post p ps criterion model aesthetic_mode ocr_text)
      as [[response [_ [_ H]]] | [[label [e H]] | [[body H] | [d [_ H]]]]];
      fold r in H; rewrite H; try (repeat split; fail).
    dict_lookup. repeat split.
  - intros completion p ps criterion model aesthetic_mode r.
    destruct (openai_record_cases completion p ps criterion model aesthetic_mode)
      as [[e H] | [[body H] | [d [_ H]]]];
      fold r in H; rewrite H; try (repeat split; fail).
    dict_lookup. repeat split.
Qed.

Lemma grok_adopted_inv (post : outcome Grok.response) (photos : list photo) (d : dict) :
  grok_adopted post photos = Some d ->
  exists (p : photo) (ps : list photo) (t body : string),
    photos = p :: ps
    /\ post = Returns (Grok.Response 200 t (Returns body))
    /\ json_loads body = Returns (VDict d).
Proof.
  unfold grok_adopted, json_object.
  destruct photos as [| p ps]; [discriminate |].
  destruct post as [[status t [body | e]] | e]; cbn [Grok.status_code Grok.result_text];
    try discriminate.
  - destruct (status =? 200) eqn:Es; [| discriminate].
    apply Z.eqb_eq in Es. subst status.
    destruct (json_loads body) as [[] |] eqn:E; try discriminate.
    intros H. injection H as ->. exists p, ps, t, body. auto.
  - destruct (status =? 200); discriminate.
Qed.

Lemma openai_adopted_inv (completion : outcome string) (photos : list photo) (d : dict) :
  openai_adopted completion photos = Some d ->
  exists (p : photo) (ps : list photo) (body : string),
    photos = p :: ps /\ completion = Returns body /\ json_loads body = Returns (VDict d).
Proof.
  unfold openai_adopted, json_object.
  destruct photos as [| p ps]; [discriminate |].
  destruct completion as [body | e]; [| discriminate].
  destruct (json_loads body) as [[] |] eqn:E; try discriminate.
  intros H. injection H as ->. exists p, ps, body. auto.
Qed.



(** X8.  In the Grok module the record for an answer whose status is not
    200 names neither the model nor the provider, while every other record
    [analyze_profile] returns for a non-empty photo list names both: the
    model asked for and the provider [grok]. *)
Theorem grok_http_error_record_names_no_model :
  forall (self : Grok.processor) (post : outcome Grok.response) (p : photo)
         (ps : list photo) (criterion model : string) (aesthetic_mode : bool)
         (ocr_text : option string),
    let r := value_of (Grok.analyze_profile self post (p :: ps) criterion model
                         aesthetic_mode ocr_text) in
    match post with
    | Returns response =>
        if Grok.status_code response =? 200
        then dict_get "model" r = Some (VStr model)
             /\ dict_get "api_provider" r = Some (VStr "grok")
        else dict_get "model" r = None /\ dict_get "api_provider" r = None
    | Raises _ =>
        dict_get "model" r = Some (VStr model)
        /\ dict_get "api_provider" r = Some (VStr "grok")
    end.
Proof.
  intros self post p ps criterion model aesthetic_mode ocr_text r.
  destruct (grok_record_cases self post p ps criterion model aesthetic_mode ocr_text)
    as [[response [Hpost [Hstatus H]]] | H]; fold r in H.
  - subst post. rewrite Hstatus, H. split; reflexivity.
  - assert (Hboth : dict_get "model" r = Some (VStr model)
                    /\ dict_get "api_provider" r = Some (VStr "grok")).
    { destruct H as [[label [e H]] | [[body H] | [d [_ H]]]]; rewrite H;
        try (split; reflexivity).
      dict_lookup. split; reflexivity. }
    destruct post as [response | e]; [| exact Hboth].
    destruct (Grok.status_code response =? 200) eqn:Es; [exact Hboth |].
    subst r. rewrite grok_value_status in Hboth by exact Es.
    destruct Hboth as [Hmodel _]. discriminate Hmodel.
Qed.

Lemma blank_text_has_no_block (t : string) :
  strip_is_truthy t = false -> Grok.ocr_block (Some t) = "".
Proof.
  intros H. unfold Grok.ocr_block. rewrite H. now rewrite andb_false_r.
Qed.

Lemma strip_is_truthy_iff (t : string) : strip_is_truthy t = false <-> blank t.
Proof.
  unfold strip_is_truthy. rewrite negb_false_iff, String.eqb_eq. apply strip_blank_iff.
Qed.

(** X9.  The profile text enters the Grok prompt only when it is not blank,
    that is, when it has a character that is not white space (the white
    space of Unicode, as [str.strip()] takes it), and then verbatim; an
    empty or blank text is the same as none, for the prompt and so for
    everything [analyze_profile] does and returns. *)
Theorem blank_profile_text_is_left_out :
  forall (self : Grok.processor) (post : outcome Grok.response) (photos : list photo)
         (criterion model : string) (aesthetic_mode : bool) (t : string),
    (blank t
     /\ Grok.analyze_profile self post photos criterion model aesthetic_mode (Some t)
        = Grok.analyze_profile self post photos criterion model aesthetic_mode None)
    \/ (~ blank t /\ contains t (Grok.full_prompt (Some t)) = true).
Proof.
  intros self post photos criterion model aesthetic_mode t.
  destruct (strip_is_truthy t) eqn:Ht.
  - right. split.
    { intros Hblank. apply strip_is_truthy_iff in Hblank. congruence. }
    unfold Grok.full_prompt. do 5 apply contains_after. apply contains_before.
    unfold Grok.ocr_block. rewrite Ht.
    destruct t as [| c t']; [discriminate Ht |].
    cbn [String.eqb negb andb].
    do 4 apply contains_after. apply contains_before.
    apply contains_iff. exists "", "". cbn [append]. now rewrite string_app_nil.
  - left. split; [now apply strip_is_truthy_iff |].
    unfold Grok.analyze_profile, Grok.full_prompt.
    rewrite (blank_text_has_no_block t Ht). reflexivity.
Qed.

Ltac same_entries k Hk :=
  cbv beta; rewrite ?value_of_ret;
  cbn [is_RequestException exn_class];
  unfold Grok.error_record, Grok.http_error_record, Grok.fallback_record;
  cbn [dict_get];
  repeat match goal with
         | |- context [(?key =? k)%string] =>
             let E := fresh "E" in
             destruct (key =? k)%string eqn:E;
             [ try reflexivity;
               apply String.eqb_eq in E; exfalso; apply Hk; symmetry; exact E
             | ]
         end;
  try reflexivity.

(** X10.  The criterion reaches the provider only in the OpenAI module,
    whose prompt quotes it verbatim.  In the Grok module it is no part of
    the prompt: two analyses that differ in the criterion alone do the same
    things to the outside world and return records that differ in the
    [criterion] entry at most. *)
Theorem criterion_reaches_openai_only :
  (forall criterion : string,
      contains criterion (OpenAI.full_prompt criterion) = true)
  /\
  (forall (self : Grok.processor) (post : outcome Grok.response) (photos : list photo)
          (criterion criterion' model : string) (aesthetic_mode : bool)
          (ocr_text : option string),
      let run := Grok.analyze_profile self post photos criterion model aesthetic_mode
                   ocr_text in
      let run' := Grok.analyze_profile self post photos criterion' model aesthetic_mode
                    ocr_text in
      events_of run = events_of run'
      /\ forall k : string,
           k <> "criterion" -> dict_get k (value_of run) = dict_get k (value_of run')).
Proof.
  split.
  - intros criterion.
    unfold OpenAI.full_prompt, criterion_prompt.
    apply contains_after, contains_before.
    apply contains_iff. exists "", "". cbn [append]. now rewrite string_app_nil.
  - intros self post photos criterion criterion' model aesthetic_mode ocr_text run run'.
    subst run run'. split.
    + unfold Grok.analyze_profile, Grok.handle.
      destruct photos as [| p ps]; [reflexivity |].
      destruct aesthetic_mode, post as [[status t [body | e]] | e];
        cbn [Grok.status_code Grok.result_text];
        try destruct (status =? 200); try reflexivity;
        unfold Grok.normalize;
        try (destruct (json_loads body) as [[] | e]; cbn [setitem];
             try destruct (is_JSONDecodeError e));
        try destruct (is_RequestException _); reflexivity.
    + intros k Hk.
      destruct photos as [| p ps]; [reflexivity |].
      destruct post as [[status t [body | e]] | e].
      * destruct (status =? 200) eqn:Es.
        -- apply Z.eqb_eq in Es. subst status. rewrite !grok_value.
           unfold Grok.normalize.
           destruct (json_loads body) as [v | e].
           ++ destruct v; cbn [setitem]. 1-6: same_entries k Hk.
              destruct (String.eqb_spec k "api_provider") as [-> | H1];
                [now dict_lookup |].
              destruct (String.eqb_spec k "model") as [-> | H2]; [now dict_lookup |].
              destruct (String.eqb_spec k "prompt") as [-> | H3]; [now dict_lookup |].
              repeat rewrite (dict_get_set_other k "api_provider") by assumption.
              repeat rewrite (dict_get_set_other k "model") by assumption.
              repeat rewrite (dict_get_set_other k "prompt") by assumption.
              repeat rewrite (dict_get_set_other k "criterion") by assumption.
              reflexivity.
           ++ destruct (is_JSONDecodeError e); [| destruct (is_RequestException e)];
                same_entries k Hk.
        -- rewrite !grok_value_status by exact Es. same_entries k Hk.
      * destruct (status =? 200) eqn:Es.
        -- unfold Grok.analyze_profile. rewrite !value_of_bind.
           cbn [Grok.status_code Grok.result_text]. rewrite Es.
           unfold Grok.handle. destruct (is_RequestException e);
             rewrite !value_of_bind; same_entries k Hk.
        -- rewrite !grok_value_status by exact Es. same_entries k Hk.
      * rewrite !grok_value_raised. destruct (is_RequestException e); same_entries k Hk.
Qed.

Lemma criterion_reaches_openai_only_witness :
  "decision" <> "criterion"
  /\ dict_get "decision"
       (value_of (Grok.analyze_profile sample_processor (grok_ok body_maybe) one_photo
                    "Kind person." Grok.default_model true None))
     = dict_get "decision"
         (value_of (Grok.analyze_profile sample_processor (grok_ok body_maybe) one_photo
                      "Likes hiking." Grok.default_model true None)).
Proof.
  assert (Hkey : "decision" <> "criterion") by discriminate.
  split; [exact Hkey |].
  destruct criterion_reaches_openai_only as [_ Hgrok].
  destruct (Hgrok sample_processor (grok_ok body_maybe) one_photo "Kind person."
              "Likes hiking." Grok.default_model true None) as [_ Hrecords].
  exact (Hrecords "decision" Hkey).
Defined.

(** ** Further properties: [process_session_photos] *)

(** A run whose processor could be built, step by step. *)
Lemma grok_session_steps (env_key : option string) (fs : file_system)
      (post : outcome Grok.response) (photos_dir criterion output_path model : string)
      (aesthetic_mode : bool) (ocr_text : option string) (processor : Grok.processor) :
  Grok.init None env_key = Returns processor ->
  let loading := load_photos_from_directory (person_folder_str fs) (person_folder fs)
                   aesthetic_mode in
  let analysis := Grok.analyze_profile processor post (value_of loading) criterion model
                    aesthetic_mode ocr_text in
  let result :=
    match value_of loading with
    | [] => Grok.empty_result criterion model (photos_dir_mtime fs)
    | _ :: _ => add_run_metadata photos_dir criterion (photos_dir_mtime fs)
                  (value_of loading) (value_of analysis)
    end in
  Grok.process_session_photos env_key fs post photos_dir criterion output_path model
    aesthetic_mode ocr_text
  = (Returns result,
     (events_of loading ++ events_of analysis
        ++ events_of (save_results output_path result aesthetic_mode (save fs)))%list).
Proof.
  intros Hinit loading analysis result.
  subst result analysis. unfold Grok.process_session_photos. rewrite Hinit.
  fold loading. destruct loading as [photos done]. cbn [value_of fst events_of snd].
  destruct photos as [| p ps].
  - cbn [Grok.analyze_profile]. unfold bind, ret.
    destruct (save_results _ _ _ _) as [[] saved]. cbn [app events_of snd].
    now rewrite !app_nil_r.
  - unfold bind at 1 2. unfold ret at 1.
    destruct (Grok.analyze_profile _ _ _ _ _ _ _) as [analysed sent].
    cbn [value_of fst events_of snd]. unfold bind, ret.
    destruct (save_results _ _ _ _) as [[] saved]. cbn [app events_of snd].
    now rewrite !app_nil_r.
Qed.

Lemma openai_session_steps (fs : file_system) (completion : outcome string)
      (photos_dir criterion output_path : string) (aesthetic_mode : bool) :
  let loading := load_photos_from_directory (person_folder_str fs) (person_folder fs)
                   aesthetic_mode in
  let analysis := OpenAI.analyze_profile completion (value_of loading) criterion "gpt-4o"
                    aesthetic_mode in
  let result :=
    match value_of loading with
    | [] => OpenAI.empty_result criterion (photos_dir_mtime fs)
    | _ :: _ => add_run_metadata photos_dir criterion (photos_dir_mtime fs)
                  (value_of loading) (value_of analysis)
    end in
  OpenAI.process_session_photos None fs completion photos_dir criterion output_path
    aesthetic_mode
  = (Returns result,
     (events_of loading ++ events_of analysis
        ++ events_of (save_results output_path result aesthetic_mode (save fs)))%list).
Proof.
  intros loading analysis result.
  subst result analysis. unfold OpenAI.process_session_photos.
  fold loading. destruct loading as [photos done]. cbn [value_of fst events_of snd].
  destruct photos as [| p ps].
  - cbn [OpenAI.analyze_profile]. unfold bind, ret.
    destruct (save_results _ _ _ _) as [[] saved]. cbn [app events_of snd].
    now rewrite !app_nil_r.
  - unfold bind at 1 2. unfold ret at 1.
    destruct (OpenAI.analyze_profile _ _ _ _ _) as [analysed sent].
    cbn [value_of fst events_of snd]. unfold bind, ret.
    destruct (save_results _ _ _ _) as [[] saved]. cbn [app events_of snd].
    now rewrite !app_nil_r.
Qed.

(** X11.  A run without a key does nothing.  [process_session_photos]
    builds the processor before it looks at the photo folder: when the
    environment's [XAI_API_KEY] is unset, empty or blank (made of white
    space, that of Unicode included), the Grok run raises the [ValueError]
    of the constructor, and nothing has been read, printed, sent or written
    by then. *)
Theorem run_without_key_does_nothing :
  forall (env_key : option string) (fs : file_system) (post : outcome Grok.response)
         (photos_dir criterion output_path model : string) (aesthetic_mode : bool)
         (ocr_text : option string),
    blank (match env_key with Some k => k | None => "" end) ->
    Grok.process_session_photos env_key fs post photos_dir criterion output_path model
      aesthetic_mode ocr_text
    = (Raises (Exn ValueError
                 "XAI_API_KEY must be set in environment or passed as parameter"),
       []).
Proof.
  intros env_key fs post photos_dir criterion output_path model aesthetic_mode ocr_text
         Hblank.
  apply strip_blank_iff in Hblank.
  unfold Grok.process_session_photos, Grok.init. now rewrite Hblank.
Qed.

(** A key that is a no-break space (U+00A0) is blank. *)
Lemma run_without_key_does_nothing_witness :
  blank (of_bytes [194; 160]%N)
  /\ Grok.process_session_photos (Some (of_bytes [194; 160]%N)) (sample_fs None)
       (grok_ok body_claiming_three) "/s/photos" "Kind person." "/s/out.json"
       Grok.default_model false None
     = (Raises (Exn ValueError
                  "XAI_API_KEY must be set in environment or passed as parameter"),
        []).
Proof.
  assert (Hblank : blank (of_bytes [194; 160]%N))
    by (apply made_of_one; reflexivity).
  split; [exact Hblank |].
  exact (run_without_key_does_nothing (Some (of_bytes [194; 160]%N)) (sample_fs None)
           (grok_ok body_claiming_three) "/s/photos" "Kind person." "/s/out.json"
           Grok.default_model false None Hblank).
Defined.

Lemma sent_parts_app (a b : list event) :
  sent_parts (a ++ b) = (sent_parts a ++ sent_parts b)%list.
Proof. unfold sent_parts. now rewrite flat_map_app, map_app. Qed.

Lemma prints_send_nothing (events : list event) :
  Forall (fun e => is_print e = true) events ->
  sent_parts events = [] /\ filter is_network_call events = [].
Proof.
  induction 1 as [| e rest He _ [IH1 IH2]]; [split; reflexivity |].
  destruct e; try discriminate He. split; assumption.
Qed.

Lemma save_sends_nothing (output_path : string) (result : dict) (aesthetic_mode : bool)
      (save : option exn) :
  sent_parts (events_of (save_results output_path result aesthetic_mode save)) = []
  /\ filter is_network_call
       (events_of (save_results output_path result aesthetic_mode save)) = [].
Proof. destruct save, aesthetic_mode; split; reflexivity. Qed.

(** X12.  Whatever a run returns is what it writes: when the output file
    can be written, the one document written is the returned result, be it a
    decision of the provider, the fallback, an ERROR record or the result
    for an empty photo set; when it cannot, nothing is written; and a run
    that raises writes nothing.  No run writes more than one document. *)
Theorem run_writes_what_it_returns :
  (forall (env_key : option string) (fs : file_system) (post : outcome Grok.response)
          (photos_dir criterion output_path model : string) (aesthetic_mode : bool)
          (ocr_text : option string),
      let run := Grok.process_session_photos env_key fs post photos_dir criterion
                   output_path model aesthetic_mode ocr_text in
      persisted (events_of run)
      = match value_of run, save fs with
        | Returns result, None => [result]
        | _, _ => []
        end)
  /\
  (forall (client : option exn) (fs : file_system) (completion : outcome string)
          (photos_dir criterion output_path : string) (aesthetic_mode : bool),
      let run := OpenAI.process_session_photos client fs completion photos_dir criterion
                   output_path aesthetic_mode in
      persisted (events_of run)
      = match value_of run, save fs with
        | Returns result, None => [result]
        | _, _ => []
        end).
Proof.
  split.
  - intros env_key fs post photos_dir criterion output_path model aesthetic_mode
           ocr_text run. subst run.
    destruct (Grok.init None env_key) as [processor | e] eqn:Hinit.
    + rewrite (grok_session_steps _ _ _ _ _ _ _ _ _ _ Hinit).
      cbn [value_of events_of fst snd].
      rewrite !persisted_app, save_results_persisted.
      rewrite (persisted_prints _ (proj1 (loader_events _ _ _))).
      rewrite (proj1 (grok_analysis_events _ _ _ _ _ _ _)).
      destruct (save fs); reflexivity.
    + unfold Grok.process_session_photos. rewrite Hinit. reflexivity.
  - intros client fs completion photos_dir criterion output_path aesthetic_mode run.
    subst run. destruct client as [e |]; [reflexivity |].
    rewrite openai_session_steps. cbn [value_of events_of fst snd].
    rewrite !persisted_app, save_results_persisted.
    rewrite (persisted_prints _ (proj1 (loader_events _ _ _))).
    rewrite (proj1 (openai_analysis_events _ _ _ _ _)).
    destruct (save fs); reflexivity.
Qed.

Lemma grok_record_count (self : Grok.processor) (post : outcome Grok.response)
      (p : photo) (ps : list photo) (criterion model : string) (aesthetic_mode : bool)
      (ocr_text : option string) :
  dict_get "photo_count"
    (value_of (Grok.analyze_profile self post (p :: ps) criterion model aesthetic_mode
                 ocr_text))
  = Some (VInt (Z.of_nat (List.length (p :: ps)))).
Proof.
  destruct (grok_record_cases self post p ps criterion model aesthetic_mode ocr_text)
    as [[response [_ [_ H]]] | [[label [e H]] | [[body H] | [d [_ H]]]]];
    rewrite H; try reflexivity.
  now dict_lookup.
Qed.

Lemma openai_record_count (completion : outcome string)
      (p : photo) (ps : list photo) (criterion model : string) (aesthetic_mode : bool) :
  dict_get "photo_count"
    (value_of (OpenAI.analyze_profile completion (p :: ps) criterion model
                 aesthetic_mode))
  = Some (VInt (Z.of_nat (List.length (p :: ps)))).
Proof.
  destruct (openai_record_cases completion p ps criterion model aesthetic_mode)
    as [[e H] | [[body H] | [d [_ H]]]]; rewrite H; try reflexivity.
  now dict_lookup.
Qed.

(** X13.  In every result a run returns, [photo_count] is the number of
    photos the loader returned, [photos_processed] lists the file name and
    the size of exactly these photos in their order, [criterion] is the
    caller's criterion and [timestamp] the modification time of the photo
    folder; nothing the provider answers can change these four entries. *)
Theorem result_counts_the_loaded_photos :
  (forall (env_key : option string) (fs : file_system) (post : outcome Grok.response)
          (photos_dir criterion output_path model : string) (aesthetic_mode : bool)
          (ocr_text : option string),
      let photos := value_of (load_photos_from_directory (person_folder_str fs)
                                (person_folder fs) aesthetic_mode) in
      match value_of (Grok.process_session_photos env_key fs post photos_dir criterion
                        output_path model aesthetic_mode ocr_text) with
      | Returns result =>
          dict_get "photo_count" result = Some (VInt (Z.of_nat (List.length photos)))
          /\ dict_get "photos_processed" result = Some (photos_processed photos)
          /\ dict_get "criterion" result = Some (VStr criterion)
          /\ dict_get "timestamp" result = Some (timestamp_of (photos_dir_mtime fs))
      | Raises _ => True
      end)
  /\
  (forall (client : option exn) (fs : file_system) (completion : outcome string)
          (photos_dir criterion output_path : string) (aesthetic_mode : bool),
      let photos := value_of (load_photos_from_directory (person_folder_str fs)
                                (person_folder fs) aesthetic_mode) in
      match value_of (OpenAI.process_session_photos client fs completion photos_dir
                        criterion output_path aesthetic_mode) with
      | Returns result =>
          dict_get "photo_count" result = Some (VInt (Z.of_nat (List.length photos)))
          /\ dict_get "photos_processed" result = Some (photos_processed photos)
          /\ dict_get "criterion" result = Some (VStr criterion)
          /\ dict_get "timestamp" result = Some (timestamp_of (photos_dir_mtime fs))
      | Raises _ => True
      end).
Proof.
  split.
  - intros env_key fs post photos_dir criterion output_path model aesthetic_mode
           ocr_text photos.
    destruct (Grok.init None env_key) as [processor | e] eqn:Hinit.
    + rewrite (grok_session_steps _ _ _ _ _ _ _ _ _ _ Hinit).
      cbn [value_of fst]. fold photos.
      destruct photos as [| p ps] eqn:Hphotos; [repeat split |].
      unfold add_run_metadata. dict_lookup.
      rewrite (grok_record_count processor post p ps criterion model aesthetic_mode
                 ocr_text).
      repeat split.
    + unfold Grok.process_session_photos. rewrite Hinit. exact I.
  - intros client fs completion photos_dir criterion output_path aesthetic_mode photos.
    destruct client as [e |]; [exact I |].
    rewrite openai_session_steps. cbn [value_of fst]. fold photos.
    destruct photos as [| p ps] eqn:Hphotos.
    + repeat split.
    + unfold add_run_metadata. dict_lookup.
      rewrite (openai_record_count completion p ps criterion "gpt-4o" aesthetic_mode).
      repeat split.
Qed.

Lemma non_prints_of_prints (events : list event) :
  Forall (fun e => is_print e = true) events ->
  filter (fun e => negb (is_print e)) events = [].
Proof.
  induction 1 as [| e rest He _ IH]; [reflexivity |].
  cbn [filter]. now rewrite He.
Qed.

Lemma loader_is_quiet (folder_str : string) (folder : option (list dir_entry)) :
  let quiet := load_photos_from_directory folder_str folder true in
  let narrated := load_photos_from_directory folder_str folder false in
  value_of quiet = value_of narrated
  /\ events_of quiet = filter (fun e => negb (is_print e)) (events_of narrated).
Proof.
  intros quiet narrated. subst quiet narrated. split.
  - destruct folder as [entries |]; [now rewrite !loader_value | reflexivity].
  - rewrite (proj2 (loader_events folder_str folder true) eq_refl).
    now rewrite (non_prints_of_prints _ (proj1 (loader_events folder_str folder false))).
Qed.

Lemma save_is_quiet (output_path : string) (result : dict) (save : option exn) :
  events_of (save_results output_path result true save)
  = filter (fun e => negb (is_print e))
           (events_of (save_results output_path result false save)).
Proof. destruct save; reflexivity. Qed.

(** X14.  A run calls the provider's interface at most once (one
    [requests.post], or one [chat.completions.create], within which the
    client library may repeat a failed request): not at all when the loader
    returned no photo, and otherwise with the prompt and then exactly the
    photos the loader returned, in their order, each as an [image/jpeg] data
    URL of its base64 text.  Files the loader left out (unsupported suffix,
    duplicate marker, unreadable) are never sent. *)
Theorem run_sends_the_loaded_photos :
  (forall (env_key : option string) (fs : file_system) (post : outcome Grok.response)
          (photos_dir criterion output_path model : string) (aesthetic_mode : bool)
          (ocr_text : option string),
      let photos := value_of (load_photos_from_directory (person_folder_str fs)
                                (person_folder fs) aesthetic_mode) in
      let run := Grok.process_session_photos env_key fs post photos_dir criterion
                   output_path model aesthetic_mode ocr_text in
      (List.length (filter is_network_call (events_of run)) <= 1)%nat
      /\ match value_of run, photos with
         | Returns _, _ :: _ =>
             sent_parts (events_of run)
             = (Some (Grok.full_prompt ocr_text), None)
                 :: map (fun q => (None, Some ("data:image/jpeg;base64," ++ base64 q)))
                        photos
         | _, _ => sent_parts (events_of run) = []
         end)
  /\
  (forall (client : option exn) (fs : file_system) (completion : outcome string)
          (photos_dir criterion output_path : string) (aesthetic_mode : bool),
      let photos := value_of (load_photos_from_directory (person_folder_str fs)
                                (person_folder fs) aesthetic_mode) in
      let run := OpenAI.process_session_photos client fs completion photos_dir criterion
                   output_path aesthetic_mode in
      (List.length (filter is_network_call (events_of run)) <= 1)%nat
      /\ match value_of run, photos with
         | Returns _, _ :: _ =>
             sent_parts (events_of run)
             = (Some (OpenAI.full_prompt criterion), None)
                 :: map (fun q => (None, Some ("data:image/jpeg;base64," ++ base64 q)))
                        photos
         | _, _ => sent_parts (events_of run) = []
         end).
Proof.
  split.
  - intros env_key fs post photos_dir criterion output_path model aesthetic_mode
           ocr_text photos run. subst run.
    destruct (Grok.init None env_key) as [processor | e] eqn:Hinit.
    + rewrite (grok_session_steps _ _ _ _ _ _ _ _ _ _ Hinit).
      cbn [value_of events_of fst snd]. fold photos.
      rewrite !filter_app, !sent_parts_app.
      destruct (prints_send_nothing _ (proj1 (loader_events (person_folder_str fs)
                                                (person_folder fs) aesthetic_mode)))
        as [-> ->].
      match goal with
      | |- context [save_results ?o ?r ?a ?s] =>
          destruct (save_sends_nothing o r a s) as [Hs Hn]
      end.
      rewrite Hs, Hn, !app_nil_r. cbn [app].
      destruct photos as [| p ps]; [split; [cbn; lia | reflexivity] |].
      rewrite grok_request, grok_sent_parts. split; [cbn; lia | reflexivity].
    + unfold Grok.process_session_photos. rewrite Hinit.
      split; [cbn; lia | reflexivity].
  - intros client fs completion photos_dir criterion output_path aesthetic_mode photos
           run. subst run.
    destruct client as [e |]; [split; [cbn; lia | reflexivity] |].
    rewrite openai_session_steps. cbn [value_of events_of fst snd]. fold photos.
    rewrite !filter_app, !sent_parts_app.
    destruct (prints_send_nothing _ (proj1 (loader_events (person_folder_str fs)
                                              (person_folder fs) aesthetic_mode)))
      as [-> ->].
    match goal with
    | |- context [save_results ?o ?r ?a ?s] =>
        destruct (save_sends_nothing o r a s) as [Hs Hn]
    end.
    rewrite Hs, Hn, !app_nil_r. cbn [app].
    destruct photos as [| p ps]; [split; [cbn; lia | reflexivity] |].
    rewrite openai_request, openai_sent_parts. split; [cbn; lia | reflexivity].
Qed.

(** X15.  The aesthetic mode of [process_session_photos] only silences
    it.  When every line the narrated run prints is well-formed text, so
    that printing it does not fail, the run returns the same with the mode
    on and off, and what the quiet run does to the outside world (the call
    of the provider, the document written) is what the narrated run does,
    minus the printed lines. *)
Theorem aesthetic_mode_only_silences_run :
  (forall (env_key : option string) (fs : file_system) (post : outcome Grok.response)
          (photos_dir criterion output_path model : string) (ocr_text : option string),
      let quiet := Grok.process_session_photos env_key fs post photos_dir criterion
                     output_path model true ocr_text in
      let narrated := Grok.process_session_photos env_key fs post photos_dir criterion
                        output_path model false ocr_text in
      printable (events_of narrated) = true ->
      value_of quiet = value_of narrated
      /\ events_of quiet = filter (fun e => negb (is_print e)) (events_of narrated))
  /\
  (forall (client : option exn) (fs : file_system) (completion : outcome string)
          (photos_dir criterion output_path : string),
      let quiet := OpenAI.process_session_photos client fs completion photos_dir
                     criterion output_path true in
      let narrated := OpenAI.process_session_photos client fs completion photos_dir
                        criterion output_path false in
      printable (events_of narrated) = true ->
      value_of quiet = value_of narrated
      /\ events_of quiet = filter (fun e => negb (is_print e)) (events_of narrated)).
Proof.
  split.
  - intros env_key fs post photos_dir criterion output_path model ocr_text quiet narrated
           _.
    subst quiet narrated.
    destruct (Grok.init None env_key) as [processor | e] eqn:Hinit.
    + rewrite !(grok_session_steps _ _ _ _ _ _ _ _ _ _ Hinit).
      cbn [value_of events_of fst snd].
      destruct (loader_is_quiet (person_folder_str fs) (person_folder fs))
        as [Hphotos Hloading].
      rewrite Hphotos, Hloading.
      destruct (grok_quiet_analysis processor post
                  (value_of (load_photos_from_directory (person_folder_str fs)
                               (person_folder fs) false)) criterion model ocr_text)
        as [Hrecord Hanalysis].
      rewrite Hrecord, Hanalysis, save_is_quiet, !filter_app. split; reflexivity.
    + unfold Grok.process_session_photos. rewrite Hinit. split; reflexivity.
  - intros client fs completion photos_dir criterion output_path quiet narrated _.
    subst quiet narrated.
    destruct client as [e |]; [split; reflexivity |].
    rewrite !openai_session_steps. cbn [value_of events_of fst snd].
    destruct (loader_is_quiet (person_folder_str fs) (person_folder fs))
      as [Hphotos Hloading].
    rewrite Hphotos, Hloading.
    destruct (openai_quiet_analysis completion
                (value_of (load_photos_from_directory (person_folder_str fs)
                             (person_folder fs) false)) criterion "gpt-4o")
      as [Hrecord Hanalysis].
    rewrite Hrecord, Hanalysis, save_is_quiet, !filter_app. split; reflexivity.
Qed.

Lemma aesthetic_mode_only_silences_run_witness :
  printable (events_of (Grok.process_session_photos (Some "xai-key") (sample_fs None)
                          (grok_ok body_claiming_three) "/s/photos" "Kind person."
                          "/s/out.json" Grok.default_model false None)) = true
  /\ value_of (Grok.process_session_photos (Some "xai-key") (sample_fs None)
                 (grok_ok body_claiming_three) "/s/photos" "Kind person." "/s/out.json"
                 Grok.default_model true None)
     = value_of (Grok.process_session_photos (Some "xai-key") (sample_fs None)
                   (grok_ok body_claiming_three) "/s/photos" "Kind person."
                   "/s/out.json" Grok.default_model false None)
  /\ printable (events_of (OpenAI.process_session_photos None (sample_fs None)
                             (Returns body_maybe) "/s/photos" "Kind person."
                             "/s/out.json" false)) = true
  /\ events_of (OpenAI.process_session_photos None (sample_fs None) (Returns body_maybe)
                  "/s/photos" "Kind person." "/s/out.json" true)
     = filter (fun e => negb (is_print e))
         (events_of (OpenAI.process_session_photos None (sample_fs None)
                       (Returns body_maybe) "/s/photos" "Kind person." "/s/out.json"
                       false)).
Proof.
  assert (Hg : printable (events_of (Grok.process_session_photos (Some "xai-key")
                                       (sample_fs None) (grok_ok body_claiming_three)
                                       "/s/photos" "Kind person." "/s/out.json"
                                       Grok.default_model false None)) = true)
    by (vm_compute; reflexivity).
  assert (Ho : printable (events_of (OpenAI.process_session_photos None (sample_fs None)
                                       (Returns body_maybe) "/s/photos" "Kind person."
                                       "/s/out.json" false)) = true)
    by (vm_compute; reflexivity).
  destruct aesthetic_mode_only_silences_run as [Hgrok Hopenai].
  split; [exact Hg |]. split.
  - exact (proj1 (Hgrok (Some "xai-key") (sample_fs None) (grok_ok body_claiming_three)
                    "/s/photos" "Kind person." "/s/out.json" Grok.default_model None
                    Hg)).
  - split; [exact Ho |].
    exact (proj2 (Hopenai None (sample_fs None) (Returns body_maybe) "/s/photos"
                    "Kind person." "/s/out.json" Ho)).
Defined.

(** ** Further properties: [test_existing_session] *)

Lemma during_app (a b : list test_event) : during (a ++ b) = (during a ++ during b)%list.
Proof. unfold during. apply flat_map_app. Qed.

Lemma during_map (events : list event) : during (map During events) = events.
Proof.
  induction events as [| e rest IH]; [reflexivity |].
  change (during (map During (e :: rest))) with (e :: during (map During rest)).
  now rewrite IH.
Qed.

Lemma folders_app (a b : list test_event) :
  folders (a ++ b) = (folders a ++ folders b)%list.
Proof. unfold folders. apply flat_map_app. Qed.

Lemma folders_map (events : list event) : folders (map During events) = [].
Proof. induction events as [| e rest IH]; [reflexivity | exact IH]. Qed.

Lemma written_app (a b : list event) : written (a ++ b) = (written a ++ written b)%list.
Proof. unfold written. apply flat_map_app. Qed.

Lemma written_nothing (events : list event) : persisted events = [] -> written events = [].
Proof.
  induction events as [| e rest IH]; [reflexivity |].
  destruct e; cbn [persisted written flat_map app]; try exact IH. discriminate.
Qed.

Lemma save_results_written (output_path : string) (result : dict)
      (aesthetic_mode : bool) (save : option exn) :
  written (events_of (save_results output_path result aesthetic_mode save))
  = match save with None => [(output_path, result)] | Some _ => [] end.
Proof. destruct save, aesthetic_mode; reflexivity. Qed.

(** What a run writes, with the path. *)
Lemma grok_run_written (env_key : option string) (fs : file_system)
      (post : outcome Grok.response) (photos_dir criterion output_path model : string)
      (aesthetic_mode : bool) (ocr_text : option string) :
  let run := Grok.process_session_photos env_key fs post photos_dir criterion
               output_path model aesthetic_mode ocr_text in
  written (events_of run)
  = match value_of run, save fs with
    | Returns result, None => [(output_path, result)]
    | _, _ => []
    end.
Proof.
  intros run. subst run.
  destruct (Grok.init None env_key) as [processor | e] eqn:Hinit.
  - rewrite (grok_session_steps _ _ _ _ _ _ _ _ _ _ Hinit).
    cbn [value_of events_of fst snd].
    rewrite !written_app, save_results_written.
    rewrite (written_nothing _ (persisted_prints _ (proj1 (loader_events _ _ _)))).
    rewrite (written_nothing _ (proj1 (grok_analysis_events _ _ _ _ _ _ _))).
    destruct (save fs); reflexivity.
  - unfold Grok.process_session_photos. rewrite Hinit. reflexivity.
Qed.

Lemma openai_run_written (client : option exn) (fs : file_system)
      (completion : outcome string) (photos_dir criterion output_path : string)
      (aesthetic_mode : bool) :
  let run := OpenAI.process_session_photos client fs completion photos_dir criterion
               output_path aesthetic_mode in
  written (events_of run)
  = match value_of run, save fs with
    | Returns result, None => [(output_path, result)]
    | _, _ => []
    end.
Proof.
  intros run. subst run. destruct client as [e |]; [reflexivity |].
  rewrite openai_session_steps. cbn [value_of events_of fst snd].
  rewrite !written_app, save_results_written.
  rewrite (written_nothing _ (persisted_prints _ (proj1 (loader_events _ _ _)))).
  rewrite (written_nothing _ (proj1 (openai_analysis_events _ _ _ _ _))).
  destruct (save fs); reflexivity.
Qed.

Lemma folders_during (e : event) (l : list test_event) :
  folders (During e :: l) = folders l.
Proof. reflexivity. Qed.

Lemma during_during (e : event) (l : list test_event) :
  during (During e :: l) = e :: during l.
Proof. reflexivity. Qed.

Lemma written_print (line : string) (l : list event) :
  written (Print line :: l) = written l.
Proof. reflexivity. Qed.

Lemma written_dump (path : string) (document : dict) (l : list event) :
  written (JsonDump path document :: l) = (path, document) :: written l.
Proof. reflexivity. Qed.

Lemma during_mkdir (path : string) (l : list test_event) :
  during (MakeDir path :: l) = during l.
Proof. reflexivity. Qed.

Ltac test_events :=
  cbn [app];
  repeat (rewrite folders_during || rewrite during_during || rewrite during_mkdir
          || rewrite written_print || rewrite written_dump || rewrite folders_app
          || rewrite during_app || rewrite written_app || rewrite folders_map
          || rewrite during_map);
  repeat (change (folders []) with (@nil string)
          || change (during []) with (@nil event)
          || change (written []) with (@nil (string * dict)));
  rewrite ?app_nil_r.

(** X17.  A test run writes only into the folder it creates.  Either it
    creates no folder and writes nothing (it stopped at a check or at
    [mkdir]), or the first thing it does is to create the one folder
    [NOT_LIVE_..._<time>] inside the session folder, and the files it writes
    afterwards are the analysis and then the summary, each at most once and
    both inside this folder; the session's own files are never written. *)
Theorem test_run_writes_into_its_own_folder :
  (forall (w : session) (env_key : option string) (fs : file_system)
          (post : outcome Grok.response) (session_id criterion model : string),
      let events := snd (Grok.test_existing_session w env_key fs post session_id
                           criterion model) in
      let dir := path_join (session_dir_str w) ("NOT_LIVE_GROK_CALL_" ++ now w) in
      events = [] \/ only_a_line events
      \/ exists (rest : list test_event) (analysis summary : bool),
           events = MakeDir dir :: rest
           /\ folders rest = []
           /\ map fst (written (during rest))
              = ((if analysis then [path_join dir "grok_analysis.json"] else [])
                   ++ (if summary then [path_join dir "test_info.json"] else []))%list)
  /\
  (forall (w : session) (client : option exn) (fs : file_system)
          (completion : outcome string) (session_id criterion : string),
      let events := snd (OpenAI.test_existing_session w client fs completion session_id
                           criterion) in
      let dir := path_join (session_dir_str w) ("NOT_LIVE_MODEL_CALL_" ++ now w) in
      events = [] \/ only_a_line events
      \/ exists (rest : list test_event) (analysis summary : bool),
           events = MakeDir dir :: rest
           /\ folders rest = []
           /\ map fst (written (during rest))
              = ((if analysis then [path_join dir "openai_analysis.json"] else [])
                   ++ (if summary then [path_join dir "test_info.json"] else []))%list).
Proof.
  split.
  - intros w env_key fs post session_id criterion model events dir.
    subst events. unfold Grok.test_existing_session.
    destruct (negb (session_dir_exists w)); [right; left; eexists; reflexivity |].
    destruct (negb (photos_dir_exists w)); [right; left; eexists; reflexivity |].
    destruct (mkdir w); [left; reflexivity |].
    right; right. fold dir.
    pose proof (grok_run_written env_key fs post (path_join (session_dir_str w) "photos")
                  criterion (path_join dir "grok_analysis.json") model false None) as Hw.
    cbv zeta in Hw.
    set (run := Grok.process_session_photos _ _ _ _ _ _ _ _ _) in *.
    destruct (value_of run) as [result | e].
    + destruct (save_test_info w), (save fs); cbn [snd app]; eexists;
        [exists false, false | exists true, false | exists false, true
         | exists true, true];
        (split; [reflexivity |]); test_events; rewrite Hw; split; reflexivity.
    + cbn [snd app]. eexists. exists false, false.
      split; [reflexivity |]. test_events. rewrite Hw. split; reflexivity.
  - intros w client fs completion session_id criterion events dir.
    subst events. unfold OpenAI.test_existing_session.
    destruct (negb (session_dir_exists w)); [right; left; eexists; reflexivity |].
    destruct (negb (photos_dir_exists w)); [right; left; eexists; reflexivity |].
    destruct (mkdir w); [left; reflexivity |].
    right; right. fold dir.
    pose proof (openai_run_written client fs completion
                  (path_join (session_dir_str w) "photos")
                  criterion (path_join dir "openai_analysis.json") false) as Hw.
    cbv zeta in Hw.
    set (run := OpenAI.process_session_photos _ _ _ _ _ _ _) in *.
    destruct (value_of run) as [result | e].
    + destruct (save_test_info w), (save fs); cbn [snd app]; eexists;
        [exists false, false | exists true, false | exists false, true
         | exists true, true];
        (split; [reflexivity |]); test_events; rewrite Hw; split; reflexivity.
    + cbn [snd app]. eexists. exists false, false.
      split; [reflexivity |]. test_events. rewrite Hw. split; reflexivity.
Qed.

(** X16.  How a test run fails.  Without a key (the environment's
    [XAI_API_KEY] unset, empty or blank) the Grok test creates its output
    folder, prints its six lines, and then returns the constructor's message
    under [error]: nothing is read, sent or written, and an empty folder is
    left behind.  When the run has returned a result and the summary cannot
    be written, the caller gets the message of that failure under [error]
    instead of the result, although the document of the run, if it could be
    written, is in the output folder; the failure line is the last thing
    printed. *)
Theorem test_run_failures :
  (forall (w : session) (env_key : option string) (fs : file_system)
          (post : outcome Grok.response) (session_id criterion model : string),
      session_usable w ->
      blank (match env_key with Some k => k | None => "" end) ->
      let dir := path_join (session_dir_str w) ("NOT_LIVE_GROK_CALL_" ++ now w) in
      Grok.test_existing_session w env_key fs post session_id criterion model
      = (Returns [ ("error",
                    VStr "XAI_API_KEY must be set in environment or passed as parameter") ],
         [ MakeDir dir;
           During (Print ("🧪 Testing Grok Vision analysis on session: " ++ session_id));
           During (Print ("📁 Photos directory: "
                            ++ path_join (session_dir_str w) "photos"));
           During (Print ("🎯 Criterion: " ++ criterion));
           During (Print ("🤖 Model: " ++ model));
           During (Print ("📂 Test output directory: " ++ dir));
           During (Print ("💾 Output file: " ++ path_join dir "grok_analysis.json"));
           During (Print ("❌ Test failed: "
                            ++ "XAI_API_KEY must be set in environment or passed as parameter")) ]))
  /\
  (forall (w : session) (env_key : option string) (fs : file_system)
          (post : outcome Grok.response) (session_id criterion model : string)
          (result : dict) (e : exn),
      let test := Grok.test_existing_session w env_key fs post session_id criterion
                    model in
      let dir := path_join (session_dir_str w) ("NOT_LIVE_GROK_CALL_" ++ now w) in
      let run := Grok.process_session_photos env_key fs post
                   (path_join (session_dir_str w) "photos") criterion
                   (path_join dir "grok_analysis.json") model false None in
      session_usable w ->
      value_of run = Returns result ->
      save_test_info w = Some e ->
      fst test = Returns [ ("error", VStr (exn_msg e)) ]
      /\ (save fs = None ->
          In (path_join dir "grok_analysis.json", result) (written (during (snd test))))
      /\ exists before : list test_event,
           snd test = (before ++ [ During (Print ("❌ Test failed: " ++ exn_msg e)) ])%list)
  /\
  (forall (w : session) (client : option exn) (fs : file_system)
          (completion : outcome string) (session_id criterion : string)
          (result : dict) (e : exn),
      let test := OpenAI.test_existing_session w client fs completion session_id
                    criterion in
      let dir := path_join (session_dir_str w) ("NOT_LIVE_MODEL_CALL_" ++ now w) in
      let run := OpenAI.process_session_photos client fs completion
                   (path_join (session_dir_str w) "photos") criterion
                   (path_join dir "openai_analysis.json") false in
      session_usable w ->
      value_of run = Returns result ->
      save_test_info w = Some e ->
      fst test = Returns [ ("error", VStr (exn_msg e)) ]
      /\ (save fs = None ->
          In (path_join dir "openai_analysis.json", result)
             (written (during (snd test))))
      /\ exists before : list test_event,
           snd test = (before ++ [ During (Print ("❌ Test failed: " ++ exn_msg e)) ])%list).
Proof.
  split; [| split].
  - intros w env_key fs post session_id criterion model [Hsession [Hphotos Hmkdir]]
           Hblank dir.
    apply strip_blank_iff in Hblank.
    unfold Grok.test_existing_session, Grok.process_session_photos, Grok.init.
    rewrite Hsession, Hphotos, Hmkdir, Hblank. reflexivity.
  - intros w env_key fs post session_id criterion model result e test dir run
           [Hsession [Hphotos Hmkdir]] Hrun Hsummary.
    pose proof (grok_run_written env_key fs post (path_join (session_dir_str w) "photos")
                  criterion (path_join dir "grok_analysis.json") model false None) as Hw.
    cbv zeta in Hw. fold run in Hw. rewrite Hrun in Hw.
    subst test. unfold Grok.test_existing_session.
    rewrite Hsession, Hphotos, Hmkdir, Hsummary. cbn [negb]. fold dir. fold run.
    rewrite Hrun. cbn [fst snd]. split; [reflexivity |]. split.
    + intros Hsave. rewrite Hsave in Hw. test_events. rewrite Hw. left. reflexivity.
    + eexists. reflexivity.
  - intros w client fs completion session_id criterion result e test dir run
           [Hsession [Hphotos Hmkdir]] Hrun Hsummary.
    pose proof (openai_run_written client fs completion
                  (path_join (session_dir_str w) "photos")
                  criterion (path_join dir "openai_analysis.json") false) as Hw.
    cbv zeta in Hw. fold run in Hw. rewrite Hrun in Hw.
    subst test. unfold OpenAI.test_existing_session.
    rewrite Hsession, Hphotos, Hmkdir, Hsummary. cbn [negb]. fold dir. fold run.
    rewrite Hrun. cbn [fst snd]. split; [reflexivity |]. split.
    + intros Hsave. rewrite Hsave in Hw. test_events. rewrite Hw. left. reflexivity.
    + eexists. reflexivity.
Qed.

(** The sample session without a key, and with a disk that fills up
    between the analysis and the summary. *)
Lemma test_run_failures_witness :
  session_usable (sample_session None)
  /\ blank ""
  /\ fst (Grok.test_existing_session (sample_session None) None (session_fs None)
            (grok_ok body_claiming_three) "session_2025-09-11_14-51-22" "Kind person."
            Grok.default_model)
     = Returns [ ("error",
                  VStr "XAI_API_KEY must be set in environment or passed as parameter") ]
  /\ session_usable (sample_session (Some disk_full))
  /\ (exists result : dict,
        value_of (OpenAI.process_session_photos None (session_fs None)
                    (Returns body_maybe) (sample_session_dir ++ "/photos") "Kind person."
                    (sample_session_dir
                       ++ "/NOT_LIVE_MODEL_CALL_2025-09-12_08-30-00/openai_analysis.json")
                    false)
        = Returns result
        /\ dict_get "decision" result = Some (VStr "MAYBE"))
  /\ fst (OpenAI.test_existing_session (sample_session (Some disk_full)) None
            (session_fs None) (Returns body_maybe) "session_2025-09-11_14-51-22"
            "Kind person.")
     = Returns [ ("error", VStr "[Errno 28] No space left on device") ].
Proof.
  assert (Husable : session_usable (sample_session None)) by (repeat split).
  assert (Hfull : session_usable (sample_session (Some disk_full))) by (repeat split).
  assert (Hblank : blank "") by constructor.
  destruct test_run_failures as [Hkey [_ Hopenai]].
  split; [exact Husable |]. split; [exact Hblank |]. split.
  - rewrite (Hkey (sample_session None) None (session_fs None)
               (grok_ok body_claiming_three) "session_2025-09-11_14-51-22"
               "Kind person." Grok.default_model Husable Hblank).
    reflexivity.
  - split; [exact Hfull |].
    destruct (value_of (OpenAI.process_session_photos None (session_fs None)
                          (Returns body_maybe) (sample_session_dir ++ "/photos")
                          "Kind person."
                          (sample_session_dir
                             ++ "/NOT_LIVE_MODEL_CALL_2025-09-12_08-30-00/openai_analysis.json")
                          false)) as [result | e] eqn:Hrun;
      [| vm_compute in Hrun; discriminate Hrun].
    split.
    + exists result. split; [reflexivity |].
      vm_compute in Hrun. injection Hrun as <-. reflexivity.
    + exact (proj1 (Hopenai (sample_session (Some disk_full)) None (session_fs None)
                      (Returns body_maybe) "session_2025-09-11_14-51-22" "Kind person."
                      result disk_full Hfull Hrun eq_refl)).
Defined.

(** The count and the decision of the result of a run, as the loader's
    photos and the provider's answer fix them. *)
Lemma grok_result_count (processor : Grok.processor) (post : outcome Grok.response)
      (photos : list photo) (photos_dir criterion model : string) (mtime : option string)
      (aesthetic_mode : bool) (ocr_text : option string) :
  let result :=
    match photos with
    | [] => Grok.empty_result criterion model mtime
    | _ :: _ => add_run_metadata photos_dir criterion mtime photos
                  (value_of (Grok.analyze_profile processor post photos criterion model
                               aesthetic_mode ocr_text))
    end in
  dict_get "photo_count" result = Some (VInt (Z.of_nat (List.length photos)))
  /\ (dict_get "decision" result = None ->
      exists d, grok_adopted post photos = Some d /\ dict_get "decision" d = None).
Proof.
  intros result. subst result. destruct photos as [| p ps].
  - split; [reflexivity | discriminate].
  - unfold add_run_metadata. dict_lookup. split.
    + apply grok_record_count.
    + destruct (grok_record_cases processor post p ps criterion model aesthetic_mode
                  ocr_text)
        as [[response [_ [_ H]]] | [[label [e H]] | [[body H] | [d [Hd H]]]]];
        rewrite H; try discriminate.
      dict_lookup. intros Hnone. exists d. split; assumption.
Qed.

Lemma openai_result_count (completion : outcome string)
      (photos : list photo) (photos_dir criterion model : string) (mtime : option string)
      (aesthetic_mode : bool) :
  let result :=
    match photos with
    | [] => OpenAI.empty_result criterion mtime
    | _ :: _ => add_run_metadata photos_dir criterion mtime photos
                  (value_of (OpenAI.analyze_profile completion photos criterion model
                               aesthetic_mode))
    end in
  dict_get "photo_count" result = Some (VInt (Z.of_nat (List.length photos)))
  /\ (dict_get "decision" result = None ->
      exists d, openai_adopted completion photos = Some d /\ dict_get "decision" d = None).
Proof.
  intros result. subst result. destruct photos as [| p ps].
  - split; [reflexivity | discriminate].
  - unfold add_run_metadata. dict_lookup. split.
    + apply openai_record_count.
    + destruct (openai_record_cases completion p ps criterion model aesthetic_mode)
        as [[e H] | [[body H] | [d [Hd H]]]]; rewrite H; try discriminate.
      dict_lookup. intros Hnone. exists d. split; assumption.
Qed.

Lemma get_default_some (k : string) (default v : value) (d : dict) :
  dict_get k d = Some v -> dict_get_default k default d = v.
Proof. unfold dict_get_default. now intros ->. Qed.

(** X18.  The summary of a test run.  When the folders are there, the
    output folder can be created, the run of [process_session_photos] on
    the session's photos has returned a result and the summary can be
    written, the test returns this very result, and [test_info.json] is
    written into the output folder with: under [photos_analyzed] the number
    of photos the loader returned (the default 0 of the source is never
    used), under [decision] the decision of the result, under
    [original_session_id] the caller's session id, and [test_mode] true.
    The word [UNKNOWN] appears as the decision only when the provider's text
    was adopted as a JSON object that has no [decision]. *)
Theorem test_summary_reports_the_run :
  (forall (w : session) (env_key : option string) (fs : file_system)
          (post : outcome Grok.response) (session_id criterion model : string)
          (result : dict),
      let test := Grok.test_existing_session w env_key fs post session_id criterion
                    model in
      let dir := path_join (session_dir_str w) ("NOT_LIVE_GROK_CALL_" ++ now w) in
      let run := Grok.process_session_photos env_key fs post
                   (path_join (session_dir_str w) "photos") criterion
                   (path_join dir "grok_analysis.json") model false None in
      let photos := value_of (load_photos_from_directory (person_folder_str fs)
                                (person_folder fs) false) in
      session_usable w ->
      value_of run = Returns result ->
      save_test_info w = None ->
      fst test = Returns result
      /\ exists summary : dict,
           In (path_join dir "test_info.json", summary) (written (during (snd test)))
           /\ dict_get "photos_analyzed" summary
              = Some (VInt (Z.of_nat (List.length photos)))
           /\ dict_get "decision" summary
              = Some (match dict_get "decision" result with
                      | Some decision => decision
                      | None => VStr "UNKNOWN"
                      end)
           /\ (dict_get "decision" result = None ->
               exists d, grok_adopted post photos = Some d
                         /\ dict_get "decision" d = None)
           /\ dict_get "original_session_id" summary = Some (VStr session_id)
           /\ dict_get "test_mode" summary = Some (VBool true))
  /\
  (forall (w : session) (client : option exn) (fs : file_system)
          (completion : outcome string) (session_id criterion : string) (result : dict),
      let test := OpenAI.test_existing_session w client fs completion session_id
                    criterion in
      let dir := path_join (session_dir_str w) ("NOT_LIVE_MODEL_CALL_" ++ now w) in
      let run := OpenAI.process_session_photos client fs completion
                   (path_join (session_dir_str w) "photos") criterion
                   (path_join dir "openai_analysis.json") false in
      let photos := value_of (load_photos_from_directory (person_folder_str fs)
                                (person_folder fs) false) in
      session_usable w ->
      value_of run = Returns result ->
      save_test_info w = None ->
      fst test = Returns result
      /\ exists summary : dict,
           In (path_join dir "test_info.json", summary) (written (during (snd test)))
           /\ dict_get "photos_analyzed" summary
              = Some (VInt (Z.of_nat (List.length photos)))
           /\ dict_get "decision" summary
              = Some (match dict_get "decision" result with
                      | Some decision => decision
                      | None => VStr "UNKNOWN"
                      end)
           /\ (dict_get "decision" result = None ->
               exists d, openai_adopted completion photos = Some d
                         /\ dict_get "decision" d = None)
           /\ dict_get "original_session_id" summary = Some (VStr session_id)
           /\ dict_get "test_mode" summary = Some (VBool true)).
Proof.
  split.
  - intros w env_key fs post session_id criterion model result test dir run photos
           [Hsession [Hphotos Hmkdir]] Hrun Hsummary.
    subst test. unfold Grok.test_existing_session.
    rewrite Hsession, Hphotos, Hmkdir, Hsummary. cbn [negb]. fold dir. fold run.
    rewrite Hrun. cbn [fst snd]. split; [reflexivity |].
    destruct (Grok.init None env_key) as [processor | e] eqn:Hinit.
    2:{ subst run. unfold Grok.process_session_photos in Hrun. rewrite Hinit in Hrun.
        discriminate Hrun. }
    assert (Hresult : Returns result
                      = Returns match photos with
                                | [] => Grok.empty_result criterion model
                                          (photos_dir_mtime fs)
                                | _ :: _ =>
                                    add_run_metadata
                                      (path_join (session_dir_str w) "photos") criterion
                                      (photos_dir_mtime fs) photos
                                      (value_of (Grok.analyze_profile processor post
                                                   photos criterion model false None))
                                end).
    { rewrite <- Hrun. subst run.
      now rewrite (grok_session_steps _ _ _ _ _ _ _ _ _ _ Hinit). }
    injection Hresult as Hresult.
    destruct (grok_result_count processor post photos
                (path_join (session_dir_str w) "photos") criterion model
                (photos_dir_mtime fs) false None) as [Hcount Hdecision].
    cbv zeta in Hcount, Hdecision. rewrite <- Hresult in Hcount, Hdecision.
    eexists. split.
    { test_events. apply in_or_app. right. left. reflexivity. }
    cbn [dict_get String.eqb Ascii.eqb Bool.eqb].
    rewrite (get_default_some _ _ _ _ Hcount). unfold dict_get_default.
    repeat split. exact Hdecision.
  - intros w client fs completion session_id criterion result test dir run photos
           [Hsession [Hphotos Hmkdir]] Hrun Hsummary.
    subst test. unfold OpenAI.test_existing_session.
    rewrite Hsession, Hphotos, Hmkdir, Hsummary. cbn [negb]. fold dir. fold run.
    rewrite Hrun. cbn [fst snd]. split; [reflexivity |].
    destruct client as [e |]; [discriminate Hrun |].
    assert (Hresult : Returns result
                      = Returns match photos with
                                | [] => OpenAI.empty_result criterion (photos_dir_mtime fs)
                                | _ :: _ =>
                                    add_run_metadata
                                      (path_join (session_dir_str w) "photos") criterion
                                      (photos_dir_mtime fs) photos
                                      (value_of (OpenAI.analyze_profile completion photos
                                                   criterion "gpt-4o" false))
                                end).
    { rewrite <- Hrun. subst run. now rewrite openai_session_steps. }
    injection Hresult as Hresult.
    destruct (openai_result_count completion photos
                (path_join (session_dir_str w) "photos") criterion "gpt-4o"
                (photos_dir_mtime fs) false) as [Hcount Hdecision].
    cbv zeta in Hcount, Hdecision. rewrite <- Hresult in Hcount, Hdecision.
    eexists. split.
    { test_events. apply in_or_app. right. left. reflexivity. }
    cbn [dict_get String.eqb Ascii.eqb Bool.eqb].
    rewrite (get_default_some _ _ _ _ Hcount). unfold dict_get_default.
    repeat split. exact Hdecision.
Qed.

(** The sample session: an answer with a decision, and the answer [{}],
    whose summary says UNKNOWN. *)
Lemma test_summary_reports_the_run_witness :
  session_usable (sample_session None)
  /\ (exists result : dict,
        value_of (Grok.process_session_photos (Some "xai-key") (session_fs None)
                    (grok_ok body_claiming_three) (sample_session_dir ++ "/photos")
                    "Kind person."
                    (sample_session_dir
                       ++ "/NOT_LIVE_GROK_CALL_2025-09-12_08-30-00/grok_analysis.json")
                    Grok.default_model false None)
        = Returns result
        /\ fst (Grok.test_existing_session (sample_session None) (Some "xai-key")
                  (session_fs None) (grok_ok body_claiming_three)
                  "session_2025-09-11_14-51-22" "Kind person." Grok.default_model)
           = Returns result
        /\ exists summary : dict,
             In (sample_session_dir
                   ++ "/NOT_LIVE_GROK_CALL_2025-09-12_08-30-00/test_info.json", summary)
                (written (during (snd (Grok.test_existing_session (sample_session None)
                                         (Some "xai-key") (session_fs None)
                                         (grok_ok body_claiming_three)
                                         "session_2025-09-11_14-51-22" "Kind person."
                                         Grok.default_model))))
             /\ dict_get "photos_analyzed" summary = Some (VInt 2)
             /\ dict_get "decision" summary = Some (VStr "YES"))
  /\ (exists result : dict,
        value_of (OpenAI.process_session_photos None (session_fs None) (Returns "{}")
                    (sample_session_dir ++ "/photos") "Kind person."
                    (sample_session_dir
                       ++ "/NOT_LIVE_MODEL_CALL_2025-09-12_08-30-00/openai_analysis.json")
                    false)
        = Returns result
        /\ fst (OpenAI.test_existing_session (sample_session None) None (session_fs None)
                  (Returns "{}") "session_2025-09-11_14-51-22" "Kind person.")
           = Returns result
        /\ exists summary : dict,
             In (sample_session_dir
                   ++ "/NOT_LIVE_MODEL_CALL_2025-09-12_08-30-00/test_info.json", summary)
                (written (during (snd (OpenAI.test_existing_session
                                         (sample_session None) None (session_fs None)
                                         (Returns "{}") "session_2025-09-11_14-51-22"
                                         "Kind person."))))
             /\ dict_get "photos_analyzed" summary = Some (VInt 2)
             /\ dict_get "decision" summary = Some (VStr "UNKNOWN")).
Proof.
  assert (Husable : session_usable (sample_session None)) by (repeat split).
  destruct test_summary_reports_the_run as [Hgrok Hopenai].
  split; [exact Husable |]. split.
  - destruct (value_of (Grok.process_session_photos (Some "xai-key") (session_fs None)
                          (grok_ok body_claiming_three) (sample_session_dir ++ "/photos")
                          "Kind person."
                          (sample_session_dir
                             ++ "/NOT_LIVE_GROK_CALL_2025-09-12_08-30-00/grok_analysis.json")
                          Grok.default_model false None)) as [result | e] eqn:Hrun;
      [| vm_compute in Hrun; discriminate Hrun].
    destruct (Hgrok (sample_session None) (Some "xai-key") (session_fs None)
                (grok_ok body_claiming_three) "session_2025-09-11_14-51-22"
                "Kind person." Grok.default_model result Husable Hrun eq_refl)
      as [Hresult [summary [Hwritten [Hcount [Hdecision _]]]]].
    exists result. split; [reflexivity |]. split; [exact Hresult |].
    exists summary. split; [exact Hwritten |]. split; [exact Hcount |].
    rewrite Hdecision. vm_compute in Hrun. injection Hrun as <-. reflexivity.
  - destruct (value_of (OpenAI.process_session_photos None (session_fs None)
                          (Returns "{}") (sample_session_dir ++ "/photos") "Kind person."
                          (sample_session_dir
                             ++ "/NOT_LIVE_MODEL_CALL_2025-09-12_08-30-00/openai_analysis.json")
                          false)) as [result | e] eqn:Hrun;
      [| vm_compute in Hrun; discriminate Hrun].
    destruct (Hopenai (sample_session None) None (session_fs None) (Returns "{}")
                "session_2025-09-11_14-51-22" "Kind person." result Husable Hrun eq_refl)
      as [Hresult [summary [Hwritten [Hcount [Hdecision _]]]]].
    exists result. split; [reflexivity |]. split; [exact Hresult |].
    exists summary. split; [exact Hwritten |]. split; [exact Hcount |].
    rewrite Hdecision. vm_compute in Hrun. injection Hrun as <-. reflexivity.
Defined.

(** ** Further properties: the constructor and [encode_image] *)

(** X19.  The constructor of the Grok processor.  The key it uses is the
    argument when that is a non-empty string, and the environment's
    [XAI_API_KEY] (or the empty string) otherwise.  It raises [ValueError]
    exactly when this key is blank: made of white space only, that of
    Unicode included.  Otherwise it keeps what is left of the key when the
    white space at its two ends is taken away, which is not empty and
    neither starts nor ends with a white-space character, and puts it behind
    [Bearer ] in the [Authorization] header.  So an argument of blanks only
    raises, whatever the environment holds: the environment is consulted for
    an absent or empty argument only. *)
Theorem init_needs_a_visible_key (key env_key : option string) :
  let chosen :=
    match key with
    | Some (String c t) => String c t
    | _ => match env_key with Some k => k | None => "" end
    end in
  (blank chosen
   /\ Grok.init key env_key
      = Raises (Exn ValueError
                  "XAI_API_KEY must be set in environment or passed as parameter"))
  \/
  (~ blank chosen
   /\ exists (self : Grok.processor) (leading trailing : string),
        Grok.init key env_key = Returns self
        /\ chosen = leading ++ Grok.api_key self ++ trailing
        /\ blank leading /\ blank trailing
        /\ Grok.api_key self <> ""
        /\ (forall token rest : string,
               In token white_space ->
               Grok.api_key self <> token ++ rest /\ Grok.api_key self <> rest ++ token)
        /\ Grok.base_url self = "https://api.x.ai/v1"
        /\ Grok.headers self
           = [ ("Authorization", VStr ("Bearer " ++ Grok.api_key self));
               ("Content-Type", VStr "application/json") ]).
Proof.
  intros chosen.
  assert (Hinit : Grok.init key env_key
                  = if (strip chosen =? "")%string
                    then Raises (Exn ValueError
                           "XAI_API_KEY must be set in environment or passed as parameter")
                    else Returns (Grok.Processor (strip chosen) "https://api.x.ai/v1"
                           [ ("Authorization", VStr ("Bearer " ++ strip chosen));
                             ("Content-Type", VStr "application/json") ])).
  { subst chosen. unfold Grok.init. destruct key as [[| c t] |]; reflexivity. }
  rewrite Hinit. clear Hinit.
  destruct (strip chosen =? "")%string eqn:E.
  - left. apply String.eqb_eq in E. split; [now apply strip_blank_iff | reflexivity].
  - right. apply String.eqb_neq in E. split.
    + intros Hblank. apply strip_blank_iff in Hblank. contradiction.
    + destruct (strip_split chosen) as [leading [trailing [Hl [Ht Hs]]]].
      exists (Grok.Processor (strip chosen) "https://api.x.ai/v1"
                [ ("Authorization", VStr ("Bearer " ++ strip chosen));
                  ("Content-Type", VStr "application/json") ]), leading, trailing.
      cbn [Grok.api_key Grok.base_url Grok.headers].
      split; [reflexivity |]. split; [exact Hs |]. split; [exact Hl |].
      split; [exact Ht |]. split; [exact E |].
      split; [intros token rest Htoken; now apply strip_ends |].
      split; reflexivity.
Qed.

(** A key between a no-break space and a line feed; and a no-break space
    as the argument, which hides the key of the environment. *)
Lemma init_needs_a_visible_key_witness :
  Grok.init (Some (of_bytes [194; 160]%N ++ "xai-key" ++ newline)) None
  = Returns sample_processor
  /\ In (of_bytes [194; 160]%N) white_space
  /\ Grok.api_key sample_processor <> of_bytes [194; 160]%N ++ "xai-key"
  /\ Grok.init (Some (of_bytes [194; 160]%N)) (Some "xai-key")
     = Raises (Exn ValueError
                 "XAI_API_KEY must be set in environment or passed as parameter").
Proof.
  assert (Hreturns : Grok.init (Some (of_bytes [194; 160]%N ++ "xai-key" ++ newline)) None
                     = Returns sample_processor) by (vm_compute; reflexivity).
  assert (Hwhite : In (of_bytes [194; 160]%N) white_space)
    by (apply is_white_iff; reflexivity).
  split; [exact Hreturns |]. split; [exact Hwhite |]. split.
  - destruct (init_needs_a_visible_key
                (Some (of_bytes [194; 160]%N ++ "xai-key" ++ newline)) None)
      as [[_ Hraises] | [_ [self [leading [trailing [Hself [_ [_ [_ [_ [Hends _]]]]]]]]]]].
    + rewrite Hreturns in Hraises. discriminate Hraises.
    + rewrite Hreturns in Hself. injection Hself as <-.
      exact (proj1 (Hends (of_bytes [194; 160]%N) "xai-key" Hwhite)).
  - destruct (init_needs_a_visible_key (Some (of_bytes [194; 160]%N)) (Some "xai-key"))
      as [[_ Hraises] | [Hvisible _]].
    + exact Hraises.
    + exfalso. apply Hvisible. apply made_of_one. reflexivity.
Defined.

Lemma string_ind3 (P : string -> Prop) :
  P "" ->
  (forall a, P (String a "")) ->
  (forall a b, P (String a (String b ""))) ->
  (forall a b c rest, P rest -> P (String a (String b (String c rest)))) ->
  forall s, P s.
Proof.
  intros H0 H1 H2 H3 s.
  assert (H : P s /\ (forall a, P (String a s)) /\ (forall a b, P (String a (String b s)))).
  { induction s as [| c rest [IH0 [IH1 IH2]]]; [auto |].
    split; [apply IH1 |]. split; [intros a; apply IH2 |].
    intros a b. apply H3. exact IH0. }
  exact (proj1 H).
Qed.

Lemma code_bounded (c : ascii) : (code c < 256)%N.
Proof. apply N_ascii_bounded. Qed.

Lemma alphabet_is_ascii (i : nat) :
  match String.get i base64_alphabet with
  | Some c => (code c <? 128)%N = true
  | None => True
  end.
Proof. do 64 (destruct i as [| i]; [reflexivity |]). exact I. Qed.

Lemma sextet_is_ascii (n : N) : (code (sextet_char n) <? 128)%N = true.
Proof.
  unfold sextet_char. pose proof (alphabet_is_ascii (N.to_nat n)) as H.
  destruct (String.get (N.to_nat n) base64_alphabet); [exact H | reflexivity].
Qed.

Lemma sextet_round_nat (i : nat) :
  (i < 64)%nat ->
  sextet_of_char (sextet_char (N.of_nat i)) = Some (N.of_nat i)
  /\ (sextet_char (N.of_nat i) =? "=")%char = false.
Proof.
  do 64 (destruct i as [| i]; [intros _; vm_compute; split; reflexivity |]). lia.
Qed.

Lemma sextet_round (n : N) :
  (n < 64)%N ->
  sextet_of_char (sextet_char n) = Some n /\ (sextet_char n =? "=")%char = false.
Proof.
  intros H. rewrite <- (Nnat.N2Nat.id n). apply sextet_round_nat. lia.
Qed.

Lemma ascii_of_code (c : ascii) : ascii_of_N (code c) = c.
Proof. apply ascii_N_embedding. Qed.

Ltac by_division := zify; Z.to_euclidean_division_equations; lia.

Ltac sextets :=
  repeat match goal with
         | |- context [sextet_of_char (sextet_char ?n)] =>
             let H := fresh in
             assert (H : (n < 64)%N) by by_division;
             rewrite (proj1 (sextet_round n H)); clear H
         | |- context [(sextet_char ?n =? "=")%char] =>
             let H := fresh in
             assert (H : (n < 64)%N) by by_division;
             rewrite (proj2 (sextet_round n H)); clear H
         end.

(** Decoding gives back the bytes that were encoded. *)
Lemma b64decode_b64encode (data : string) : b64decode (b64encode data) = Some data.
Proof.
  induction data as [| a | a b | a b c rest IH] using string_ind3.
  - reflexivity.
  - pose proof (code_bounded a) as Ha.
    cbn [b64encode b64decode]. sextets.
    change (("=" =? "=")%char) with true. cbv iota.
    change (("=" =? "=")%char && ("" =? "")%string)%bool with true. cbv iota.
    replace (code a / 4 * 4 + code a mod 4 * 16 / 16)%N with (code a) by by_division.
    now rewrite ascii_of_code.
  - pose proof (code_bounded a) as Ha. pose proof (code_bounded b) as Hb.
    cbn [b64encode b64decode]. sextets.
    change (("=" =? "=")%char) with true. cbv iota.
    change (("" =? "")%string) with true. cbv iota.
    replace (code a / 4 * 4 + (code a mod 4 * 16 + code b / 16) / 16)%N
      with (code a) by by_division.
    replace ((code a mod 4 * 16 + code b / 16) mod 16 * 16 + code b mod 16 * 4 / 4)%N
      with (code b) by by_division.
    now rewrite !ascii_of_code.
  - pose proof (code_bounded a) as Ha. pose proof (code_bounded b) as Hb.
    pose proof (code_bounded c) as Hc.
    cbn [b64encode]. cbn [b64decode]. sextets. sextets.
    rewrite IH. cbn [option_map].
    replace (code a / 4 * 4 + (code a mod 4 * 16 + code b / 16) / 16)%N
      with (code a) by by_division.
    replace ((code a mod 4 * 16 + code b / 16) mod 16 * 16
             + (code b mod 16 * 4 + code c / 64) / 4)%N
      with (code b) by by_division.
    replace ((code b mod 16 * 4 + code c / 64) mod 4 * 64 + code c mod 64)%N
      with (code c) by by_division.
    now rewrite !ascii_of_code.
Qed.

Lemma b64encode_length (data : string) :
  String.length (b64encode data) = (4 * ((String.length data + 2) / 3))%nat.
Proof.
  induction data as [| a | a b | a b c rest IH] using string_ind3; try reflexivity.
  cbn [b64encode String.length]. rewrite IH.
  replace (S (S (S (String.length rest))) + 2)%nat
    with (1 * 3 + (String.length rest + 2))%nat by lia.
  rewrite Nat.div_add_l by discriminate. lia.
Qed.

Lemma b64encode_is_ascii (data : string) : is_ascii_text (b64encode data) = true.
Proof.
  induction data as [| a | a b | a b c rest IH] using string_ind3;
    cbn [b64encode is_ascii_text]; rewrite ?sextet_is_ascii, ?IH; reflexivity.
Qed.

(** X20.  [encode_image] fails only when opening or reading the file
    fails, and then with that very exception; otherwise it returns a text
    from which exactly the bytes that were read can be decoded.  Two files
    get the same text only when they have the same contents. *)
Theorem encode_image_keeps_the_bytes :
  (forall read : outcome string,
      match encode_image read with
      | Returns text => exists data, read = Returns data /\ b64decode text = Some data
      | Raises e => read = Raises e
      end)
  /\ (forall data data' : string,
        encode_image (Returns data) = encode_image (Returns data') -> data = data').
Proof.
  split.
  - intros [data | e]; cbn [encode_image]; [| reflexivity].
    exists data. split; [reflexivity | apply b64decode_b64encode].
  - intros data data' H. cbn [encode_image] in H. injection H as H.
    apply (f_equal b64decode) in H. rewrite !b64decode_b64encode in H.
    now injection H.
Qed.

Lemma encode_image_keeps_the_bytes_witness :
  encode_image (Returns "Man") = Returns "TWFu"
  /\ b64decode "TWFu" = Some "Man"
  /\ "Man" = "Man".
Proof.
  split; [reflexivity |]. split; [reflexivity |].
  exact (proj2 encode_image_keeps_the_bytes "Man" "Man" eq_refl).
Defined.

(** X21.  The text [encode_image] returns for a file of [n] bytes has
    [4 * ceil(n / 3)] characters, all of them ASCII: the [decode('utf-8')]
    of the source cannot fail, and the text is a third longer than the
    file. *)
Theorem encode_image_text_size (data : string) :
  exists text,
    encode_image (Returns data) = Returns text
    /\ String.length text = (4 * ((String.length data + 2) / 3))%nat
    /\ is_ascii_text text = true.
Proof.
  exists (b64encode data). split; [reflexivity |].
  split; [apply b64encode_length | apply b64encode_is_ascii].
Qed.
